(** * adk-interview-prep: the evaluation pipeline, embedded and verified

    A shallow embedding of the application-side logic of the interview
    preparation assistant: the transcription agent, the speech coach, the
    competency agent, the job analyzer, the interview manager (progress
    summary, study plan, report, practice test) and the enhanced voice
    workflow that orchestrates them, with its streamlined variant.

    Conventions of the embedding.
    - Python [str] is [string], read as ASCII text; [bytes] is [list Byte.byte].
    - Python [int] is [Z]; Python [float] is the kernel's binary64 [float],
      so every rounding of the source is the rounding of the model.
    - A dict with a fixed set of keys is a record; a key a producer may leave
      out is an [option] field, read with the default its readers pass to
      [.get].  A dict used as a table is a [gmap]; a dict or Counter whose
      iteration order matters is an association list in insertion order.
    - A call that may raise returns an [outcome]; [try/except] is a match on
      it.
    - The hosted agent runtime (session service, runner, model) is outside the
      program.  A call to it is an oracle from the request to the outcome of
      the streamed run; where a property is about the calls made, the
      function returns them as a trace beside its result.
    - Prompt wording and the regular expressions that cut free-text sections
      out of a model reply are passed in as parameters; the regular
      expressions that read a score are modelled. *)

From Stdlib Require Import ZArith String Ascii List Bool Lia.
From Stdlib.Strings Require Import Byte.
From Stdlib Require Import PrimFloat SpecFloat FloatOps.
From Stdlib Require Import FloatAxioms.
From stdpp Require Import gmap strings pretty sorting.

Set Warnings "-inexact-float".
Open Scope string_scope.
Open Scope Z_scope.

(** ** The fragment of the Python runtime the program uses *)

Module Py.

(** *** Exceptions *)

Record exception := Exc { exc_class : string; exc_message : string }.

(** [str(e)] of an exception raised with one message argument. *)
Definition str_exc (e : exception) : string := exc_message e.

Inductive outcome (A : Type) : Type :=
| Returned (a : A)
| Raised (e : exception).
Arguments Returned {A} a.
Arguments Raised {A} e.

Definition bind {A B} (m : outcome A) (k : A -> outcome B) : outcome B :=
  match m with
  | Returned a => k a
  | Raised e => Raised e
  end.

Definition ValueError (msg : string) : exception := Exc "ValueError" msg.
Definition OverflowError (msg : string) : exception := Exc "OverflowError" msg.
Definition ZeroDivisionError (msg : string) : exception := Exc "ZeroDivisionError" msg.
Definition PlainException (msg : string) : exception := Exc "Exception" msg.

(** *** Strings *)

(** [str.isspace] on ASCII: tab to carriage return, the four separators
    0x1c to 0x1f, and space. *)
Definition isspace (c : ascii) : bool :=
  let n := nat_of_ascii c in
  ((9 <=? n) && (n <=? 13) || (28 <=? n) && (n <=? 32))%nat.

Definition isdigit (c : ascii) : bool :=
  let n := nat_of_ascii c in ((48 <=? n) && (n <=? 57))%nat.

Definition digit_value (c : ascii) : Z := Z.of_nat (nat_of_ascii c) - 48.

Definition lower_char (c : ascii) : ascii :=
  let n := nat_of_ascii c in
  if ((65 <=? n) && (n <=? 90))%nat then ascii_of_nat (n + 32) else c.

(** [s.lower()] *)
Fixpoint lower (s : string) : string :=
  match s with
  | EmptyString => EmptyString
  | String c s' => String (lower_char c) (lower s')
  end.

(** [len(s)] *)
Definition len (s : string) : Z := Z.of_nat (String.length s).

Fixpoint split_from (cur s : string) : list string :=
  match s with
  | EmptyString => if String.eqb cur "" then [] else [cur]
  | String c s' =>
      if isspace c
      then (if String.eqb cur "" then split_from "" s' else cur :: split_from "" s')
      else split_from (cur ++ String c "") s'
  end.

(** [s.split()]: the maximal runs of non-whitespace characters. *)
Definition split (s : string) : list string := split_from "" s.

Fixpoint lstrip (s : string) : string :=
  match s with
  | EmptyString => EmptyString
  | String c s' => if isspace c then lstrip s' else s
  end.

Definition reverse (s : string) : string :=
  string_of_list_ascii (rev (list_ascii_of_string s)).

Definition rstrip (s : string) : string := reverse (lstrip (reverse s)).

(** [s.strip()] *)
Definition strip (s : string) : string := rstrip (lstrip s).

(** [sub in s] *)
Fixpoint contains (sub s : string) : bool :=
  String.prefix sub s ||
  match s with
  | EmptyString => false
  | String _ s' => contains sub s'
  end.

(** [c in s] for a character *)
Fixpoint has_char (c : ascii) (s : string) : bool :=
  match s with
  | EmptyString => false
  | String d s' => Ascii.eqb c d || has_char c s'
  end.

(** Occurrences are taken left to right and do not overlap: after a match at
    a position the scan resumes behind it, which [skip] counts down. *)
Fixpoint count_from (sub s : string) (skip : nat) : Z :=
  match s with
  | EmptyString => 0
  | String _ s' =>
      match skip with
      | S k => count_from sub s' k
      | O => if String.prefix sub s
             then 1 + count_from sub s' (String.length sub - 1)
             else count_from sub s' 0
      end
  end.

(** [s.count(sub)] *)
Definition count (sub s : string) : Z :=
  if String.eqb sub "" then len s + 1 else count_from sub s 0.

Fixpoint remove_from (old s : string) (skip : nat) : string :=
  match s with
  | EmptyString => EmptyString
  | String c s' =>
      match skip with
      | S k => remove_from old s' k
      | O => if String.prefix old s
             then remove_from old s' (String.length old - 1)
             else String c (remove_from old s' 0)
      end
  end.

(** [s.replace(old, "")] *)
Definition remove_all (old s : string) : string :=
  if String.eqb old "" then s else remove_from old s 0.

(** [sep.join(l)] *)
Definition join (sep : string) (l : list string) : string := String.concat sep l.

Fixpoint last_char (s : string) : option ascii :=
  match s with
  | EmptyString => None
  | String c EmptyString => Some c
  | String _ s' => last_char s'
  end.

(** [s.endswith(('.', '!', '?'))] *)
Definition ends_sentence (s : string) : bool :=
  match last_char s with
  | Some c => Ascii.eqb c "." || Ascii.eqb c "!" || Ascii.eqb c "?"
  | None => false
  end.

(** [l[:n]] for a list *)
Definition slice_to {A} (n : nat) (l : list A) : list A := firstn n l.

(** [str(n)] of an int *)
Definition str_int (z : Z) : string := pretty z.

(** *** Numbers *)

(** The least magnitude that rounds (to nearest, ties to even, 53 bits) to
    2^1024: from here on an int has no float. *)
Definition float_overflow : Z := 2 ^ 1024 - 2 ^ 970.

Definition fits_float (z : Z) : bool := Z.abs z <? float_overflow.

(** The double nearest to an int. *)
Definition float_of_Z (z : Z) : float := SF2Prim (binary_normalize prec emax z 0 false).

(** The conversion [int * float], [int + float] and [float(n)] apply to an
    int operand: it raises OverflowError past the double range. *)
Definition int_to_float (z : Z) : outcome float :=
  if fits_float z then Returned (float_of_Z z)
  else Raised (OverflowError "int too large to convert to float").

Definition SF_of_int (z : Z) : spec_float :=
  match z with
  | Z0 => S754_zero false
  | Zpos p => S754_finite false p 0
  | Zneg p => S754_finite true p 0
  end.

(** The double nearest to the rational [a / b] (one rounding of the exact
    quotient); infinite where that is out of range. *)
Definition quotient (a b : Z) : float :=
  SF2Prim (SFdiv prec emax (SF_of_int a) (SF_of_int b)).

(** [a / b] on ints (true division). *)
Definition int_truediv (a b : Z) : outcome float :=
  if b =? 0 then Raised (ZeroDivisionError "division by zero")
  else if Z.abs a <? float_overflow * Z.abs b then Returned (quotient a b)
  else Raised (OverflowError "integer division result too large for a float").

(** The integer nearest to [n / d], ties to the even one ([0 <= n], [0 < d]). *)
Definition round_half_even (n d : Z) : Z :=
  let q := n / d in
  match 2 * (n mod d) ?= d with
  | Lt => q
  | Gt => q + 1
  | Eq => if Z.even q then q else q + 1
  end.

(** The number of tenths nearest to the magnitude [m * 2^e]. *)
Definition tenths (m : positive) (e : Z) : Z :=
  if 0 <=? e then Zpos m * 2 ^ e * 10
  else round_half_even (Zpos m * 10) (2 ^ (- e)).

Definition SF_signed (s : bool) (k : Z) : spec_float :=
  match k with
  | Zpos p => S754_finite s p 0
  | _ => S754_zero s
  end.

(** [round(x, 1)]: the decimal with one fractional digit nearest to [x],
    read back as a double; infinities, NaN and zeros round to themselves. *)
Definition round1 (x : float) : float :=
  match Prim2SF x with
  | S754_finite s m e =>
      SF2Prim (SFdiv prec emax (SF_signed s (tenths m e)) (SF_of_int 10))
  | _ => x
  end.

(** [f"{x:.1f}"] *)
Definition format_1f (x : float) : string :=
  match Prim2SF x with
  | S754_finite s m e =>
      let k := tenths m e in
      (if s then "-" else "") ++ pretty (k / 10) ++ "." ++ pretty (k mod 10)
  | S754_zero s => (if s then "-" else "") ++ "0.0"
  | S754_infinity s => (if s then "-" else "") ++ "inf"
  | S754_nan => "nan"
  end.

Fixpoint digits_value (acc : Z) (s : string) : Z :=
  match s with
  | EmptyString => acc
  | String c s' => digits_value (10 * acc + digit_value c) s'
  end.

(** [int(s)] on a string of decimal digits. *)
Definition int_of_digits (s : string) : Z := digits_value 0 s.

(** [float(s)] on digits with an optional fraction: the double nearest to
    the decimal, infinite past the range (no exception). *)
Definition float_of_decimal (whole frac : string) : float :=
  quotient (int_of_digits (whole ++ frac)) (10 ^ Z.of_nat (String.length frac)).

(** *** The two score patterns of [re] *)

Fixpoint take_digits (s : string) : string :=
  match s with
  | String c s' => if isdigit c then String c (take_digits s') else ""
  | EmptyString => ""
  end.

Fixpoint drop (n : nat) (s : string) : string :=
  match n, s with
  | O, _ => s
  | S n', String _ s' => drop n' s'
  | S _, EmptyString => ""
  end.

(** [\s*(\d+)] matched at the head of [s]: the group.  Both stars are greedy
    and no whitespace is a digit, so there is nothing to backtrack into. *)
Definition spaces_digits (s : string) : option string :=
  let digits := take_digits (lstrip s) in
  if String.eqb digits "" then None else Some digits.

(** Group 1 of [re.search(label + r'\s*(\d+)(?:/10)?', s)]: the match at the
    leftmost position where the label is followed by blanks and a digit. *)
Fixpoint search_digits (label s : string) : option string :=
  match (if String.prefix label s
         then spaces_digits (drop (String.length label) s) else None) with
  | Some digits => Some digits
  | None =>
      match s with
      | EmptyString => None
      | String _ s' => search_digits label s'
      end
  end.

(** [\s*(\d+(?:\.\d+)?)] at the head of [s]: the digits before the point
    and, when a point and a digit follow, the digits after it. *)
Definition spaces_decimal (s : string) : option (string * string) :=
  let rest := lstrip s in
  let whole := take_digits rest in
  if String.eqb whole "" then None
  else
    match drop (String.length whole) rest with
    | String "." after => Some (whole, take_digits after)
    | _ => Some (whole, "")
    end.

(** Group 1 of [re.search(label + r'\s*(\d+(?:\.\d+)?)(?:/10)?', s)]. *)
Fixpoint search_decimal (label s : string) : option (string * string) :=
  match (if String.prefix label s
         then spaces_decimal (drop (String.length label) s) else None) with
  | Some m => Some m
  | None =>
      match s with
      | EmptyString => None
      | String _ s' => search_decimal label s'
      end
  end.

(** [int(s)] where the interpreter limits the digits of a conversion (4300
    by default since Python 3.11; [None] is an interpreter without limit). *)
Definition int_of_str (max_str_digits : option nat) (s : string) : outcome Z :=
  match max_str_digits with
  | Some limit =>
      if (limit <? String.length s)%nat
      then Raised (ValueError "Exceeds the limit for integer string conversion")
      else Returned (int_of_digits s)
  | None => Returned (int_of_digits s)
  end.

(** A number a dict holds: an int or a float. *)
Inductive number :=
| Int (z : Z)
| Float (f : float).

(** [a > b] and [a >= b] on floats. *)
Definition float_gt (a b : float) : bool := PrimFloat.ltb b a.
Definition float_ge (a b : float) : bool := PrimFloat.leb b a.

(** *** Dicts, slices, paths and patterns of the reporting code *)

(** [d.get(key, fallback)] on a dict written as a literal, in its order. *)
Fixpoint dict_get {V} (d : list (string * V)) (key : string) (fallback : V) : V :=
  match d with
  | [] => fallback
  | (k, v) :: rest => if String.eqb k key then v else dict_get rest key fallback
  end.

(** [key in d] *)
Definition dict_has {V} (d : list (string * V)) (key : string) : bool :=
  existsb (fun kv => String.eqb (fst kv) key) d.

(** [d[key].append(v)] on a [defaultdict(list)], in insertion order of its
    keys. *)
Fixpoint dict_append {V} (d : list (string * list V)) (key : string) (v : V)
  : list (string * list V) :=
  match d with
  | [] => [(key, [v])]
  | (k, vs) :: rest =>
      if String.eqb k key then (k, (vs ++ [v])%list) :: rest
      else (k, vs) :: dict_append rest key v
  end.

(** [l[:n]] for an int [n] of either sign. *)
Definition slice_to_int {A} (n : Z) (l : list A) : list A :=
  if 0 <=? n then firstn (Z.to_nat n) l
  else firstn (length l - Z.to_nat (- n)) l.

(** [s.rfind(c)] for a character: the index of its last occurrence, -1
    when there is none. *)
Fixpoint rfind_from (c : ascii) (s : string) (i found : Z) : Z :=
  match s with
  | EmptyString => found
  | String d s' => rfind_from c s' (i + 1) (if Ascii.eqb c d then i else found)
  end.

Definition rfind (c : ascii) (s : string) : Z := rfind_from c s 0 (-1).

(** [s[i:j]] for [0 <= i <= j <= len(s)]. *)
Definition slice (i j : Z) (s : string) : string :=
  substring (Z.to_nat i) (Z.to_nat (j - i)) s.

Definition all_dots (s : string) : bool :=
  forallb (fun c => Ascii.eqb c ".") (list_ascii_of_string s).

(** [os.path.splitext] of [posixpath]: the extension starts at the last
    dot, when that dot is behind the last slash and some character of the
    file name before it is not a dot. *)
Definition splitext (p : string) : string * string :=
  let sepIndex := rfind "/" p in
  let dotIndex := rfind "." p in
  if sepIndex <? dotIndex then
    if all_dots (slice (sepIndex + 1) dotIndex p) then (p, "")
    else (slice 0 dotIndex p, slice dotIndex (len p) p)
  else (p, "").

(** [a < k] and [a >= k] for a number [a] and a small int literal [k]. *)
Definition number_lt (a : number) (k : Z) : bool :=
  match a with
  | Int z => z <? k
  | Float f => PrimFloat.ltb f (float_of_Z k)
  end.

Definition number_ge (a : number) (k : Z) : bool :=
  match a with
  | Int z => k <=? z
  | Float f => PrimFloat.leb (float_of_Z k) f
  end.

(** A character [\w] matches, in ASCII: a letter, a digit or the underscore. *)
Definition isword (c : ascii) : bool :=
  let n := nat_of_ascii c in
  ((48 <=? n) && (n <=? 57) || (65 <=? n) && (n <=? 90)
   || (97 <=? n) && (n <=? 122) || (n =? 95))%nat.

Definition isword_at (c : option ascii) : bool :=
  match c with
  | Some c => isword c
  | None => false
  end.

Definition head_char (s : string) : option ascii :=
  match s with
  | EmptyString => None
  | String c _ => Some c
  end.

(** [\b] between two neighbours, either of which may be past an end of
    the text. *)
Definition boundary (before after : option ascii) : bool :=
  negb (Bool.eqb (isword_at before) (isword_at after)).

(** A literal matched under [re.IGNORECASE] at the head of [s]. *)
Definition prefix_ignorecase (literal s : string) : bool :=
  String.prefix (lower literal) (lower s).

(** [\b literal \b] matched at the head of [s], whose left neighbour in
    the text is [before]. *)
Definition word_at (before : option ascii) (literal s : string) : bool :=
  prefix_ignorecase literal s
  && boundary before (head_char s)
  && boundary (last_char (substring 0 (String.length literal) s))
              (head_char (drop (String.length literal) s)).

Fixpoint search_word_from (before : option ascii) (literal s : string) : bool :=
  word_at before literal s
  || match s with
     | EmptyString => false
     | String c s' => search_word_from (Some c) literal s'
     end.

(** Whether [re.search(r'\b' + re.escape(literal) + r'\b', s, re.IGNORECASE)]
    finds a match, for a non-empty [literal]. *)
Definition search_word (literal s : string) : bool := search_word_from None literal s.

(** *** The pattern of an axis score *)

Definition newline : ascii := "010"%char.

(** The characters up to the first newline: what [.*?] takes before the
    lookahead [(?=\n|$)]. *)
Fixpoint first_line (s : string) : string :=
  match s with
  | EmptyString => EmptyString
  | String c s' => if Ascii.eqb c newline then EmptyString else String c (first_line s')
  end.

(** [.*?-] at the head of [s]: what follows the first dash of the line. *)
Fixpoint after_dash (s : string) : option string :=
  match s with
  | EmptyString => None
  | String c s' =>
      if Ascii.eqb c "-" then Some s'
      else if Ascii.eqb c newline then None
      else after_dash s'
  end.

(** [\s*(\d+).*?-\s*(.*?)(?=\n|$)] at the head of [s]: group 1, and group
    2 stripped. *)
Definition score_and_feedback (s : string) : option (string * string) :=
  let rest := lstrip s in
  let digits := take_digits rest in
  if String.eqb digits "" then None
  else
    match after_dash (drop (String.length digits) rest) with
    | Some tail => Some (digits, strip (first_line (lstrip tail)))
    | None => None
    end.

(** The groups of
    [re.search(label + r'\s*(\d+).*?-\s*(.*?)(?=\n|$)', s, re.IGNORECASE)]. *)
Fixpoint search_scored (label s : string) : option (string * string) :=
  match (if prefix_ignorecase label s
         then score_and_feedback (drop (String.length label) s) else None) with
  | Some m => Some m
  | None =>
      match s with
      | EmptyString => None
      | String _ s' => search_scored label s'
      end
  end.


End Py.
Export Py.

#[global] Instance outcome_ret : MRet Py.outcome := @Py.Returned.
#[global] Instance outcome_bind : MBind Py.outcome := fun A B k m => Py.bind m k.

(** ** The agent runtime, as the program sees it *)

Module Adk.

(** An event of a streamed run: its content's parts, when it has any; a
    part's text, when it has one. *)
Record Part := { text : option string }.
Record Event := { parts : option (list Part) }.

(** The first part of the list with a non-empty text. *)
Fixpoint first_text (ps : list Part) : string :=
  match ps with
  | [] => ""
  | p :: ps' =>
      match text p with
      | Some t => if String.eqb t "" then first_text ps' else t
      | None => first_text ps'
      end
  end.

Fixpoint scan (events : list Event) : string :=
  match events with
  | [] => ""
  | ev :: rest =>
      let response := match parts ev with Some ps => first_text ps | None => "" end in
      if String.eqb response "" then scan rest else response
  end.

(** The loop every agent's [_extract_final_response] runs: the text of the
    last event that has one. *)
Definition final_text (events : list Event) : string := scan (rev events).

End Adk.

(** ** agents/transcription_agent.py *)

Module Transcription.

Record AudioInfo := {
  size_bytes : Z;
  size_kb : float;
  estimated_duration : float;
  mime_type : string;
  quality_estimate : string
}.

Record Checks := {
  min_words : bool;
  reasonable_length : bool;
  has_punctuation : bool;
  not_repetitive : bool;
  duration_match : bool
}.

(** The validation dict; [reason] is set on the empty-transcription return
    only, the last three keys on the other one. *)
Record Validation := {
  valid : bool;
  confidence : float;
  reason : option string;
  checked_word_count : option Z;
  checked_duration : option float;
  checks : option Checks
}.

Record Result := {
  transcribed_text : string;
  word_count : Z;
  status : string;
  method : string;
  audio_info : option AudioInfo;
  validation : option Validation;
  error : option string;
  fallback_message : option string
}.

(** What the agent sends the runtime: the instruction is fixed, the audio
    goes inline (as base64 text in the source) with its MIME type. *)
Record Request := { req_mime_type : string; req_audio : list Byte.byte }.

Definition Runtime := Request -> outcome (list Adk.Event).

(** [_extract_final_response]: [response.strip() if response else ""]. *)
Definition _extract_final_response (events : list Adk.Event) : string :=
  strip (Adk.final_text events).

(** [len(audio_data)]; a bytes object is shorter than 2^63, so the true
    divisions of a length by a literal below cannot raise. *)
Definition size (audio_data : list Byte.byte) : Z := Z.of_nat (length audio_data).

Definition _analyze_audio_data (audio_data : list Byte.byte) (mime : string) : AudioInfo :=
  let size_bytes := size audio_data in
  let size_kb := round1 (quotient size_bytes 1024) in
  let estimated_duration :=
    if String.eqb mime "audio/wav" then quotient size_bytes 16000
    else if String.eqb mime "audio/mp3" then quotient size_bytes 2000
    else if String.eqb mime "audio/webm" then quotient size_bytes 4000
    else quotient size_bytes 8000 in
  {| size_bytes := size_bytes;
     size_kb := size_kb;
     estimated_duration := round1 estimated_duration;
     mime_type := mime;
     quality_estimate := if 5000 <? size_bytes then "good" else "poor" |}.

(** [len(set(text.lower().split()))] *)
Definition distinct_words (text : string) : Z :=
  Z.of_nat (length (remove_dups (split (lower text)))).

Definition count_true (l : list bool) : Z := Z.of_nat (length (filter (fun b => b = true) l)).

Definition checks_list (c : Checks) : list bool :=
  [min_words c; reasonable_length c; has_punctuation c; not_repetitive c; duration_match c].

Definition _validate_transcription (text : string) (info : AudioInfo) : Validation :=
  if String.eqb (strip text) "" then
    {| valid := false; confidence := 0; reason := Some "Empty transcription";
       checked_word_count := None; checked_duration := None; checks := None |}
  else
    let word_count := Z.of_nat (length (split text)) in
    let estimated_duration := estimated_duration info in
    let validations :=
      {| min_words := 3 <=? word_count;
         reasonable_length := (10 <=? len text) && (len text <=? 2000);
         has_punctuation := has_char "." text || has_char "!" text || has_char "?" text;
         not_repetitive := Z.max 1 (word_count / 3) <? distinct_words text;
         duration_match := float_gt estimated_duration 1 |} in
    let valid_checks := count_true (checks_list validations) in
    let confidence := quotient valid_checks (Z.of_nat (length (checks_list validations))) in
    {| valid := float_ge confidence 0.6;
       confidence := confidence;
       reason := None;
       checked_word_count := Some word_count;
       checked_duration := Some estimated_duration;
       checks := Some validations |}.

Definition artifacts_to_remove : list string :=
  [ "[TRANSCRIPTION]"; "[END TRANSCRIPTION]";
    "**Transcribed text:**"; "**Clean transcription:**";
    "Here is the transcription:"; "The transcription is:";
    "Transcribed content:"; "Audio transcription:";
    "The audio says:"; "I hear:"; "The speaker says:" ].

Definition _basic_text_cleanup (text : string) : string :=
  if String.eqb (strip text) "" then ""
  else
    let text := strip text in
    let text := fold_left (fun t artifact => remove_all artifact t) artifacts_to_remove text in
    let text := join " " (split text) in
    if negb (String.eqb text "") && negb (ends_sentence text) && (2 <? length (split text))%nat
    then text ++ "."
    else text.

Definition _generate_error_response (audio_data : list Byte.byte) (error_msg : string) : Result :=
  let too_short :=
    match audio_data with
    | [] => true
    | _ => PrimFloat.ltb (quotient (size audio_data) 1024) 1
    end in
  let fallback_text :=
    if too_short then
      "Audio recording was too short. Please record for at least 3-5 seconds."
    else if contains "multimodal" (lower error_msg) || contains "audio" (lower error_msg) then
      "Unable to process audio. Please ensure good audio quality and try again."
    else
      "Transcription service temporarily unavailable. Please try again or use text input." in
  {| transcribed_text := "";
     word_count := 0;
     status := "failed";
     method := "error_fallback";
     audio_info := None;
     validation := None;
     error := Some error_msg;
     fallback_message := Some fallback_text |}.

(** The body of the [try]: its outcome, and the calls made to the runtime. *)
Definition transcribe_try (runtime : Runtime) (audio_data : list Byte.byte) (mime : string)
  : outcome Result * list Request :=
  if (size audio_data =? 0) || (size audio_data <? 1000) then
    (Raised (ValueError ("Audio data too small: " ++ str_int (size audio_data)
                         ++ " bytes. Need at least 1KB.")), [])
  else
    let request := {| req_mime_type := mime; req_audio := audio_data |} in
    (events ← runtime request;
     let transcribed_text := _extract_final_response events in
     if String.eqb transcribed_text "" then
       Raised (PlainException "No transcription generated from audio")
     else
       let clean_text := _basic_text_cleanup transcribed_text in
       let audio_info := _analyze_audio_data audio_data mime in
       Returned
         {| transcribed_text := clean_text;
            word_count := if String.eqb clean_text "" then 0
                          else Z.of_nat (length (split clean_text));
            status := "success";
            method := "adk_multimodal";
            audio_info := Some audio_info;
            validation := Some (_validate_transcription clean_text audio_info);
            error := None;
            fallback_message := None |},
     [request]).

Definition transcribe_audio_bytes (runtime : Runtime) (audio_data : list Byte.byte) (mime : string)
  : Result * list Request :=
  let '(tried, calls) := transcribe_try runtime audio_data mime in
  (match tried with
   | Returned result => result
   | Raised e => _generate_error_response audio_data (str_exc e)
   end, calls).

(** *** Files *)

Definition mime_type_map : list (string * string) :=
  [ (".wav", "audio/wav"); (".mp3", "audio/mp3"); (".webm", "audio/webm");
    (".ogg", "audio/ogg"); (".m4a", "audio/m4a"); (".flac", "audio/flac");
    (".aac", "audio/aac") ].

Definition _get_mime_type_from_extension (file_path : string) : string :=
  let '(_, ext) := splitext file_path in
  dict_get mime_type_map (lower ext) "audio/wav".

End Transcription.

(** ** agents/speech_coach_agent.py *)

Module SpeechCoach.

(** The context dict the callers pass: the question's competency, the
    response type, and the workflow id when the orchestrator calls. *)
Record Context := {
  ctx_competency : option string;
  question_type : string;
  ctx_workflow_id : option string
}.

Record AxisScore := { score : Z; feedback : string }.

Record AudioMetadata := {
  size_bytes : Z;
  meta_analysis_type : string;
  meta_industry : string;
  meta_job_title : string;
  meta_error : option string
}.

(** A delivery analysis.  The first seven keys are the ones every reader
    takes; the last five are set by some producers only ([context] is the
    caller's dict, [None] for the empty one). *)
Record DeliveryAnalysis := {
  overall_score : Z;
  delivery_assessment : string;
  detailed_scores : gmap string AxisScore;
  strengths : list string;
  improvements : list string;
  coaching_tips : list string;
  industry_advice : string;
  practice_recommendations : option string;
  audio_metadata : option AudioMetadata;
  context : option Context;
  analysis_type : option string;
  workflow_id : option string
}.

(** The agent: its job context, and [_parse_speech_analysis], the regex
    reading of a reply, which is a parameter here. *)
Record Agent := {
  industry : string;
  job_title : string;
  _parse_speech_analysis : string -> list Byte.byte -> option Context -> DeliveryAnalysis
}.

Record Request := {
  req_context : option Context;
  req_mime_type : string;
  req_audio : list Byte.byte
}.

Definition Runtime := Request -> outcome (list Adk.Event).

Definition _extract_final_response (events : list Adk.Event) : string :=
  strip (Adk.final_text events).

Definition size (audio_data : list Byte.byte) : Z := Z.of_nat (length audio_data).

Definition unable (what : string) : AxisScore :=
  {| score := 5; feedback := "Unable to analyze " ++ what ++ " due to processing error" |}.

Definition _generate_fallback_analysis (self : Agent) (audio_data : list Byte.byte)
    (error_msg : string) (ctx : option Context) : DeliveryAnalysis :=
  let audio_size_kb :=
    match audio_data with
    | [] => "0.0"
    | _ => format_1f (quotient (size audio_data) 1024)
    end in
  {| overall_score := 5;
     delivery_assessment :=
       "Speech analysis temporarily unavailable. Audio received (" ++ audio_size_kb
       ++ " KB) but processing failed.";
     detailed_scores :=
       list_to_map
         [ ("pace_rhythm", unable "pace");
           ("clarity_articulation", unable "clarity");
           ("confidence_authority", unable "confidence");
           ("professional_tone", unable "tone");
           ("energy_engagement", unable "energy");
           ("speech_patterns", unable "patterns") ];
     strengths :=
       [ "Audio was successfully recorded";
         "Appropriate recording length for " ++ industry self ++ " interview";
         "Attempted to provide comprehensive response" ];
     improvements :=
       [ "Ensure clear audio quality for optimal analysis";
         "Check microphone settings and environment";
         "Try again with stable internet connection" ];
     coaching_tips :=
       [ "Practice speaking clearly for " ++ industry self ++ " interviews";
         "Record in a quiet environment for best results";
         "Speak at a moderate pace for technical discussions" ];
     industry_advice :=
       "For " ++ industry self ++ " interviews, focus on clear, confident communication that demonstrates technical expertise and professional demeanor.";
     practice_recommendations :=
       Some "Practice speaking aloud, record yourself regularly, and focus on clear articulation and confident delivery.";
     audio_metadata :=
       Some {| size_bytes := size audio_data;
               meta_analysis_type := "speech_delivery_fallback";
               meta_industry := industry self;
               meta_job_title := job_title self;
               meta_error := Some error_msg |};
     context := ctx;
     analysis_type := None;
     workflow_id := None |}.

(** The message of the ValueError the size gate raises. *)
Definition too_small (audio_data : list Byte.byte) : string :=
  "Audio data too small: " ++ str_int (size audio_data) ++ " bytes".

(** The body of the [try]: its outcome, and the calls made to the runtime. *)
Definition analyze_try (self : Agent) (runtime : Runtime) (audio_data : list Byte.byte)
    (mime : string) (ctx : option Context) : outcome DeliveryAnalysis * list Request :=
  if (size audio_data =? 0) || (size audio_data <? 1000) then
    (Raised (ValueError (too_small audio_data)), [])
  else
    let request := {| req_context := ctx; req_mime_type := mime; req_audio := audio_data |} in
    (events ← runtime request;
     let analysis_text := _extract_final_response events in
     if String.eqb analysis_text "" then
       Raised (PlainException "No speech analysis generated")
     else
       Returned (_parse_speech_analysis self analysis_text audio_data ctx),
     [request]).

(** What the caller of [analyze_speech_delivery] gets: the outcome of the
    call (the [except] clause turns every exception of the body into a
    returned fallback), and the calls made to the runtime. *)
Definition analyze_speech_delivery (self : Agent) (runtime : Runtime)
    (audio_data : list Byte.byte) (mime : string) (ctx : option Context)
  : outcome DeliveryAnalysis * list Request :=
  let '(tried, calls) := analyze_try self runtime audio_data mime ctx in
  (match tried with
   | Returned analysis => Returned analysis
   | Raised e => Returned (_generate_fallback_analysis self audio_data (str_exc e) ctx)
   end, calls).

(** *** Reading a reply *)

Module Parsing.

(** What the free-text patterns of [_parse_speech_analysis] find in a
    reply: for each section, the stripped capture when the pattern matches. *)
Record Sections := {
  found_assessment : option string;
  found_strengths : option (list string);
  found_improvements : option (list string);
  found_coaching_tips : option (list string);
  found_industry_advice : option string;
  found_practice_recommendations : option string
}.

(** The keys of the detailed scores with the labels their patterns start
    with. *)
Definition score_patterns : list (string * string) :=
  [ ("pace_rhythm", "Pace & Rhythm:");
    ("clarity_articulation", "Clarity & Articulation:");
    ("confidence_authority", "Confidence & Authority:");
    ("professional_tone", "Professional Tone:");
    ("energy_engagement", "Energy & Engagement:");
    ("speech_patterns", "Speech Patterns:") ].

(** The loop over the score patterns: the detailed scores it has set, and
    whether it ran to its end ([int] may refuse the digits of a score). *)
Fixpoint read_scores (max_str_digits : option nat) (analysis_text : string)
    (patterns : list (string * string)) (detailed_scores : gmap string AxisScore)
  : gmap string AxisScore * bool :=
  match patterns with
  | [] => (detailed_scores, true)
  | (key, label) :: rest =>
      match search_scored label analysis_text with
      | Some (digits, found_feedback) =>
          match int_of_str max_str_digits digits with
          | Returned n =>
              read_scores max_str_digits analysis_text rest
                (<[key := {| score := n; feedback := found_feedback |}]> detailed_scores)
          | Raised _ => (detailed_scores, false)
          end
      | None => read_scores max_str_digits analysis_text rest detailed_scores
      end
  end.

(** [_parse_speech_analysis] of an agent with the given job context:
    [max_str_digits] is the interpreter's limit on int conversions,
    [sections] the free-text patterns. *)
Definition _parse_speech_analysis (industry job_title : string) (max_str_digits : option nat)
    (sections : string -> Sections) (analysis_text : string) (audio_data : list Byte.byte)
    (ctx : option Context) : DeliveryAnalysis :=
  let found := sections analysis_text in
  let analysis (overall_score : Z) (delivery_assessment : string)
      (detailed_scores : gmap string AxisScore) (rest : bool) :=
    {| overall_score := overall_score;
       delivery_assessment := delivery_assessment;
       detailed_scores := detailed_scores;
       strengths := if rest then default [] (found_strengths found) else [];
       improvements := if rest then default [] (found_improvements found) else [];
       coaching_tips := if rest then default [] (found_coaching_tips found) else [];
       industry_advice := if rest then default "" (found_industry_advice found) else "";
       practice_recommendations :=
         Some (if rest then default "" (found_practice_recommendations found) else "");
       audio_metadata :=
         Some {| size_bytes := size audio_data;
                 meta_analysis_type := "speech_delivery";
                 meta_industry := industry;
                 meta_job_title := job_title;
                 meta_error := None |};
       context := ctx;
       analysis_type := None;
       workflow_id := None |} in
  let scored (overall_score : Z) :=
    let '(detailed_scores, completed) :=
      read_scores max_str_digits analysis_text score_patterns ∅ in
    analysis overall_score (default "" (found_assessment found)) detailed_scores completed in
  match search_digits "Overall Delivery Score:" analysis_text with
  | Some digits =>
      match int_of_str max_str_digits digits with
      | Returned n => scored n
      | Raised _ => analysis 5 "" ∅ false
      end
  | None => scored 5
  end.

(** The speech coach whose parser is the one above. *)
Definition agent (industry job_title : string) (max_str_digits : option nat)
    (sections : string -> Sections) : Agent :=
  {| SpeechCoach.industry := industry;
     SpeechCoach.job_title := job_title;
     SpeechCoach._parse_speech_analysis :=
       _parse_speech_analysis industry job_title max_str_digits sections |}.

End Parsing.

(** *** MockSpeechCoachAgent *)

Module Mock.

Record Agent := { industry : string; job_title : string }.

(** [analyze_speech_delivery] of the mock: the analysis, and the [note]
    its audio metadata carries besides. *)
Definition analyze_speech_delivery (self : Agent) (audio_data : list Byte.byte)
    (mime : string) (ctx : option Context) : DeliveryAnalysis * string :=
  let audio_size_kb := quotient (size audio_data) 1024 in
  let base_score := if float_gt audio_size_kb 10 then 6 else 5 in
  let detailed_scores : list (string * AxisScore) :=
    [ ("pace_rhythm",
       {| score := base_score + 1;
          feedback := "Good natural pace, appropriate for technical discussion" |});
      ("clarity_articulation",
       {| score := base_score;
          feedback := "Generally clear pronunciation with minor unclear moments" |});
      ("confidence_authority",
       {| score := base_score;
          feedback := "Shows confidence with some hesitation on technical details" |});
      ("professional_tone",
       {| score := base_score + 1;
          feedback := "Appropriate professional tone for " ++ industry self ++ " interviews" |});
      ("energy_engagement",
       {| score := base_score;
          feedback := "Good energy level, engaged delivery throughout" |});
      ("speech_patterns",
       {| score := base_score - 1;
          feedback := "Some filler words present, generally smooth flow" |}) ] in
  let overall_score :=
    fold_left Z.add (map (fun scores => score (snd scores)) detailed_scores) 0
    / Z.of_nat (length detailed_scores) in
  ({| overall_score := overall_score;
      delivery_assessment :=
        "Good overall delivery for " ++ industry self
        ++ " interview. Clear communication with room for minor improvements in confidence and reducing filler words.";
      SpeechCoach.detailed_scores := list_to_map detailed_scores;
      strengths :=
        [ "Clear and professional communication style";
          "Appropriate pace for technical explanations";
          "Good energy and engagement throughout" ];
      improvements :=
        [ "Reduce filler words (um, uh) for more polished delivery";
          "Increase vocal confidence on technical topics";
          "Practice smoother transitions between ideas" ];
      coaching_tips :=
        [ "Practice speaking technical concepts aloud to build confidence";
          "Record yourself and listen for filler words";
          "Use strategic pauses instead of filler words" ];
      industry_advice :=
        "For " ++ industry self
        ++ " interviews, focus on clear technical explanations with confident, measured delivery that demonstrates expertise.";
      practice_recommendations :=
        Some "Practice explaining technical concepts clearly, work on eliminating filler words, and build confidence through regular speaking practice.";
      audio_metadata :=
        Some {| size_bytes := size audio_data;
                meta_analysis_type := "mock_speech_delivery";
                meta_industry := industry self;
                meta_job_title := job_title self;
                meta_error := None |};
      context := ctx;
      analysis_type := None;
      workflow_id := None |},
   "This is a mock analysis for testing purposes").

End Mock.

End SpeechCoach.

(** ** The question dict *)

Module Interview.

Record Question := {
  id : option string;
  competency : option string;
  sub_competency : option string;
  question : option string;
  expected_answer : option string
}.

End Interview.

(** ** agents/competency_agent.py *)

Module Competency.

Record StarAnalysis := {
  situation : string;
  task : string;
  action : string;
  result : string
}.

Record Evaluation := {
  score : Z;
  overall_assessment : string;
  star_analysis : StarAnalysis;
  strengths : list string;
  improvements : list string;
  missing_elements : list string;
  advice : string;
  sample_answer : string;
  competency : string;
  original_answer : string
}.

(** What the free-text patterns of [_parse_evaluation_response] find in a
    reply: for each section, the stripped capture when the pattern matches. *)
Record Sections := {
  found_assessment : option string;
  found_situation : option string;
  found_task : option string;
  found_action : option string;
  found_result : option string;
  found_strengths : option (list string);
  found_improvements : option (list string);
  found_missing_elements : option (list string);
  found_advice : option string;
  found_sample_answer : option string
}.

(** The agent: its competency and job context, the interpreter's limit on
    int conversions, and the section patterns as a parameter. *)
Record Agent := {
  agent_competency : string;
  industry : string;
  job_title : string;
  max_str_digits : option nat;
  sections : string -> Sections
}.

Record Request := { req_question : Interview.Question; req_answer : string }.

Definition Runtime := Request -> outcome (list Adk.Event).

(** [_extract_final_response]: [response or "No response generated"]. *)
Definition _extract_final_response (events : list Adk.Event) : string :=
  let response := Adk.final_text events in
  if String.eqb response "" then "No response generated" else response.

Definition or_empty (o : option string) : string := default "" o.
Definition or_nil (o : option (list string)) : list string := default [] o.

Definition _parse_evaluation_response (self : Agent) (response original_answer : string)
  : Evaluation :=
  let evaluation :=
    {| score := 5;
       overall_assessment := "";
       star_analysis := {| situation := ""; task := ""; action := ""; result := "" |};
       strengths := [];
       improvements := [];
       missing_elements := [];
       advice := "";
       sample_answer := "";
       competency := agent_competency self;
       original_answer := original_answer |} in
  let found := sections self response in
  let rest (score : Z) :=
    {| score := score;
       overall_assessment := or_empty (found_assessment found);
       star_analysis :=
         {| situation := or_empty (found_situation found);
            task := or_empty (found_task found);
            action := or_empty (found_action found);
            result := or_empty (found_result found) |};
       strengths := or_nil (found_strengths found);
       improvements := or_nil (found_improvements found);
       missing_elements := or_nil (found_missing_elements found);
       advice := or_empty (found_advice found);
       sample_answer := or_empty (found_sample_answer found);
       competency := agent_competency self;
       original_answer := original_answer |} in
  match search_digits "Score:" response with
  | Some digits =>
      match int_of_str (max_str_digits self) digits with
      | Returned n => rest n
      | Raised _ => evaluation
      end
  | None => rest 5
  end.

Definition star_keywords : list string :=
  ["situation"; "task"; "action"; "result"; "when"; "what"; "how"; "outcome"].

Definition any_in (words : list string) (s : string) : bool :=
  existsb (fun word => contains word s) words.

Definition _generate_fallback_evaluation (self : Agent) (answer : string) : Evaluation :=
  let score := 5 in
  let score := if (100 <? length (split answer))%nat then score + 1 else score in
  let star_count :=
    Z.of_nat (length (filter (fun keyword => contains (lower keyword) (lower answer) = true)
                             star_keywords)) in
  let score :=
    if 4 <=? star_count then score + 2
    else if 2 <=? star_count then score + 1
    else score in
  let comp := agent_competency self in
  {| score := Z.min score 8;
     overall_assessment :=
       "Your answer demonstrates some understanding of " ++ comp
       ++ ". Consider providing more specific details and following the STAR method structure.";
     star_analysis :=
       {| situation := if contains "situation" (lower answer)
                       then "Partially described" else "Could be clearer";
          task := if any_in ["task"; "responsible"; "role"] (lower answer)
                  then "Some task description" else "Needs more detail";
          action := if any_in ["did"; "action"; "approach"] (lower answer)
                    then "Actions mentioned" else "Could be more specific";
          result := if any_in ["result"; "outcome"; "achieved"] (lower answer)
                    then "Results discussed" else "Needs measurable outcomes" |};
     strengths :=
       [ "Shows understanding of " ++ comp;
         "Provided a relevant example";
         "Demonstrates practical experience" ];
     improvements :=
       [ "Use more specific details and examples";
         "Follow STAR method structure more clearly";
         "Include quantifiable results and outcomes" ];
     missing_elements :=
       [ "More detailed situation context";
         "Clearer explanation of specific actions taken";
         "Measurable results and impact" ];
     advice :=
       "To improve your " ++ comp
       ++ " answers, focus on providing a clear STAR structure with specific details about the situation, your role, the actions you took, and the measurable results achieved.";
     sample_answer :=
       "A strong " ++ comp ++ " answer would include: a specific situation from your "
       ++ industry self
       ++ " experience, your clear role and responsibilities, detailed actions you took that demonstrate "
       ++ comp ++ ", and measurable outcomes that show the impact of your work.";
     competency := comp;
     original_answer := answer |}.

(** [evaluate_answer]: the reply parsed, or the heuristic evaluation when
    the call to the runtime raises. *)
Definition evaluate_answer (self : Agent) (runtime : Runtime)
    (question : Interview.Question) (answer : string) : Evaluation :=
  match runtime {| req_question := question; req_answer := answer |} with
  | Returned events =>
      _parse_evaluation_response self (_extract_final_response events) answer
  | Raised _ => _generate_fallback_evaluation self answer
  end.

(** *** Sub-competencies *)

Definition sub_competency_map : list (string * list string) :=
  [ ("Problem Solving",
     ["Root Cause Analysis"; "Solution Design"; "Implementation Planning"; "Problem Prevention"]);
    ("Technical Expertise",
     ["Technical Knowledge"; "Implementation Skills"; "Best Practices"; "Technology Selection"]);
    ("Project Management",
     ["Planning & Organization"; "Timeline Management"; "Resource Allocation";
      "Stakeholder Communication"]);
    ("Analytical Thinking",
     ["Data Analysis"; "Logical Reasoning"; "Pattern Recognition"; "Decision Making"]);
    ("Attention to Detail",
     ["Quality Assurance"; "Error Prevention"; "Documentation"; "Verification Processes"]);
    ("Written Communication",
     ["Clarity & Structure"; "Audience Awareness"; "Technical Writing";
      "Persuasive Communication"]);
    ("Leadership",
     ["Team Management"; "Strategic Thinking"; "Influence & Motivation"; "Change Management"]);
    ("Teamwork",
     ["Collaboration"; "Communication"; "Conflict Resolution"; "Team Contribution"]) ].

(** [self.sub_competencies], set from [_get_sub_competencies] at
    construction. *)
Definition _get_sub_competencies (self : Agent) : list string :=
  dict_get sub_competency_map (agent_competency self) [].

End Competency.

(** ** core/job_analyzer.py *)

Module JobAnalyzer.

(** The keys of the AI analysis that competency extraction reads; each may
    be missing and is then read as the empty list. *)
Record AiAnalysis := {
  responsibilities : option (list string);
  requirements : option (list string);
  skills : option (list string)
}.

Definition competency_keywords : list (string * list string) :=
  [ ("Problem Solving", ["problem"; "solve"; "troubleshoot"; "debug"; "resolve"; "solution"]);
    ("Technical Expertise", ["technical"; "development"; "programming"; "coding"; "engineering"]);
    ("Project Management", ["project"; "manage"; "timeline"; "deadline"; "coordinate"; "plan"]);
    ("Analytical Thinking", ["analyze"; "data"; "insight"; "research"; "evaluate"; "assess"]);
    ("Attention to Detail", ["detail"; "quality"; "accuracy"; "precision"; "thorough"; "careful"]);
    ("Written Communication", ["communication"; "document"; "write"; "report"; "present"]);
    ("Leadership", ["lead"; "manage"; "mentor"; "guide"; "direct"; "supervise"]);
    ("Teamwork", ["team"; "collaborate"; "cooperation"; "work with others"]) ].

Definition essential : list string :=
  ["Problem Solving"; "Technical Expertise"; "Analytical Thinking"].

(** One of the two keyword loops: [score] grows by the occurrences of every
    keyword found in [s]. *)
Definition add_hits (keywords : list string) (s : string) (score : Z) : Z :=
  fold_left (fun score keyword =>
               if contains keyword s then score + count keyword s else score)
            keywords score.

Definition ai_text (ai_analysis : AiAnalysis) : string :=
  lower (join " " (default [] (responsibilities ai_analysis)
                   ++ default [] (requirements ai_analysis)
                   ++ default [] (skills ai_analysis))%list).

Definition competency_score (text_lower : string) (ai_analysis : AiAnalysis)
    (keywords : list string) : Z :=
  add_hits keywords (ai_text ai_analysis) (add_hits keywords text_lower 0).

(** One round of the scoring loop: the competency enters the Counter when
    its score is positive. *)
Definition tally (text_lower : string) (ai_analysis : AiAnalysis)
    (counter : list (string * Z)) (entry : string * list string) : list (string * Z) :=
  let score := competency_score text_lower ai_analysis (snd entry) in
  if 0 <? score then (counter ++ [(fst entry, score)])%list else counter.

(** The Counter after the scoring loop: the competencies with a positive
    score, in the order of the keyword table. *)
Definition competency_scores (text : string) (ai_analysis : AiAnalysis) : list (string * Z) :=
  fold_left (tally (lower text) ai_analysis) competency_keywords [].

Fixpoint insert_by_count (x : string * Z) (sorted : list (string * Z)) : list (string * Z) :=
  match sorted with
  | [] => [x]
  | y :: rest => if snd x <? snd y then y :: insert_by_count x rest else x :: sorted
  end.

(** [Counter.most_common(n)]: the items by decreasing count, items of equal
    count in insertion order, cut to [n]. *)
Definition most_common (n : nat) (counter : list (string * Z)) : list (string * Z) :=
  firstn n (foldr insert_by_count [] counter).

Definition ensure (selected : list string) (essential_comp : string) : list string :=
  if bool_decide (essential_comp ∈ selected) then selected
  else (selected ++ [essential_comp])%list.

Definition _extract_competencies (text : string) (ai_analysis : AiAnalysis) : list string :=
  let selected_competencies := map fst (most_common 6 (competency_scores text ai_analysis)) in
  let selected_competencies := fold_left ensure essential selected_competencies in
  firstn 8 selected_competencies.

(** *** The industry *)

(** [config.INDUSTRY_KEYWORDS] *)
Definition INDUSTRY_KEYWORDS : list (string * list string) :=
  [ ("technology",
     [ "software"; "engineer"; "developer"; "programming"; "coding"; "tech"; "IT";
       "data"; "machine learning"; "AI"; "cloud"; "DevOps"; "frontend"; "backend";
       "full stack"; "mobile"; "web"; "API"; "database"; "python"; "java"; "javascript" ]);
    ("healthcare",
     [ "medical"; "healthcare"; "hospital"; "clinical"; "patient"; "nurse"; "doctor";
       "physician"; "therapy"; "pharmaceutical"; "biotech"; "medical device"; "health";
       "treatment"; "diagnosis"; "care"; "medicine"; "surgery"; "emergency" ]);
    ("finance",
     [ "financial"; "banking"; "investment"; "trading"; "finance"; "analyst"; "portfolio";
       "risk"; "compliance"; "audit"; "accounting"; "fintech"; "insurance"; "credit";
       "wealth"; "capital"; "markets"; "securities"; "derivatives"; "treasury" ]);
    ("consulting",
     [ "consulting"; "consultant"; "advisory"; "strategy"; "management"; "business";
       "analysis"; "transformation"; "optimization"; "process"; "client"; "engagement";
       "project"; "stakeholder"; "solution"; "recommendation"; "implementation" ]);
    ("marketing",
     [ "marketing"; "digital"; "campaign"; "brand"; "advertising"; "content"; "social media";
       "SEO"; "SEM"; "analytics"; "conversion"; "engagement"; "customer"; "acquisition";
       "retention"; "growth"; "creative"; "design"; "copywriting"; "communications" ]) ].

(** The inner loop of [_determine_industry]: 3 for a keyword found in the
    title, 1 for a keyword found in the text. *)
Definition industry_score (text_lower title_lower : string) (keywords : list string) : Z :=
  fold_left (fun score keyword =>
               let score := if contains (lower keyword) title_lower then score + 3 else score in
               if contains (lower keyword) text_lower then score + 1 else score)
            keywords 0.

Definition tally_industry (text_lower title_lower : string)
    (counter : list (string * Z)) (entry : string * list string) : list (string * Z) :=
  let score := industry_score text_lower title_lower (snd entry) in
  if 0 <? score then (counter ++ [(fst entry, score)])%list else counter.

(** The Counter after the loop; [title] is [basic_info.get("title", "")]. *)
Definition industry_scores (text title : string) : list (string * Z) :=
  fold_left (tally_industry (lower text) (lower title)) INDUSTRY_KEYWORDS [].

Definition _determine_industry (text title : string) : string :=
  match industry_scores text title with
  | [] => "technology"
  | counter => fst (hd ("technology", 0) (most_common 1 counter))
  end.

(** *** The technologies of [_extract_basic_info] *)

Definition tech_keywords : list string :=
  [ "Python"; "Java"; "JavaScript"; "React"; "Node.js"; "AWS"; "Docker";
    "Kubernetes"; "SQL"; "NoSQL"; "MongoDB"; "PostgreSQL"; "Git"; "Linux";
    "Django"; "Flask"; "FastAPI"; "Angular"; "Vue"; "TypeScript"; "Go";
    "Rust"; "C++"; "C#"; "Ruby"; "PHP"; "Swift"; "Kotlin"; "Azure"; "GCP" ].

(** [info["technologies"]]: the keywords found as whole words, in the
    order of the list. *)
Definition found_techs (text : string) : list string :=
  filter (fun tech => search_word tech text = true) tech_keywords.

End JobAnalyzer.

(** ** The job description dict *)

Module Job.

(** The keys of [job_info] the interview manager reads; each may be
    missing. *)
Record Info := {
  title : option string;
  industry : option string;
  experience_level : option string;
  competencies : option (list string);
  skills : option (list string);
  technologies : option (list string);
  responsibilities : option (list string)
}.

(** [config.CORE_COMPETENCIES] *)
Definition CORE_COMPETENCIES : list string :=
  [ "Problem Solving"; "Technical Expertise"; "Project Management"; "Analytical Thinking";
    "Attention to Detail"; "Written Communication"; "Leadership"; "Teamwork" ].

End Job.


(** ** agents/interview_manager.py *)

Module InterviewManager.

Record Entry := { score : Z; timestamp : float; notes : string }.

(** [progress_data]: a defaultdict of lists, in insertion order of its keys. *)
Definition ProgressData := list (string * list Entry).

Record Manager := {
  competency_agents : gmap string Competency.Agent;
  progress_data : ProgressData
}.

(** [progress_data[competency].append(entry)] *)
Fixpoint append_entry (data : ProgressData) (competency : string) (entry : Entry) : ProgressData :=
  match data with
  | [] => [(competency, [entry])]
  | (c, entries) :: rest =>
      if String.eqb c competency then (c, (entries ++ [entry])%list) :: rest
      else (c, entries) :: append_entry rest competency entry
  end.

(** [now] is the reading of [time.time()]. *)
Definition _track_progress_async (self : Manager) (now : float) (competency : string)
    (score : Z) (notes : string) : Manager :=
  {| competency_agents := competency_agents self;
     progress_data := append_entry (progress_data self) competency
                        {| score := score; timestamp := now; notes := notes |} |}.

Definition evaluate_answer (self : Manager) (runtime : Competency.Runtime) (now : float)
    (question : Interview.Question) (answer : string)
  : outcome Competency.Evaluation * Manager :=
  let missing (name : string) :=
    (Raised (ValueError ("No agent available for competency: " ++ name)), self) in
  match Interview.competency question with
  | None => missing "None"
  | Some competency =>
      match competency_agents self !! competency with
      | None => missing competency
      | Some agent =>
          let evaluation := Competency.evaluate_answer agent runtime question answer in
          (Returned evaluation,
           _track_progress_async self now competency (Competency.score evaluation)
             ("Question: " ++ default "unknown" (Interview.id question)))
      end
  end.

Record CompetencySummary := {
  average_score : float;
  attempts : Z;
  latest_score : Z;
  best_score : Z;
  improvement : Z
}.

Record Summary := {
  competencies : gmap string CompetencySummary;
  total_attempts : Z;
  overall_trend : string
}.

Definition sum (l : list Z) : Z := fold_left Z.add l 0.

(** [max(scores)] on a list with head [x]. *)
Definition maximum (x : Z) (l : list Z) : Z := fold_left Z.max l x.

(** [sum(l) / len(l)] *)
Definition average (l : list Z) : outcome float :=
  int_truediv (sum l) (Z.of_nat (length l)).

(** The locals of [get_progress_summary] that the loop updates. *)
Record Locals := {
  summary_competencies : gmap string CompetencySummary;
  summary_total_attempts : Z;
  all_recent_scores : list Z;
  all_early_scores : list Z
}.

(** One round of the loop over [progress_data.items()]. *)
Definition round (st : Locals) (item : string * list Entry) : outcome Locals :=
  let '(competency, entries) := item in
  match map score entries with
  | [] => Returned st
  | first :: others =>
      let scores := first :: others in
      let latest := List.last scores first in
      mean ← average scores;
      Returned
        {| summary_competencies :=
             <[competency :=
                 {| average_score := mean;
                    attempts := Z.of_nat (length scores);
                    latest_score := latest;
                    best_score := maximum first others;
                    improvement := if (1 <? length scores)%nat then latest - first else 0 |}]>
               (summary_competencies st);
           summary_total_attempts := summary_total_attempts st + Z.of_nat (length scores);
           all_recent_scores :=
             if (2 <=? length scores)%nat then (all_recent_scores st ++ [latest])%list
             else all_recent_scores st;
           all_early_scores :=
             if (2 <=? length scores)%nat then (all_early_scores st ++ [first])%list
             else all_early_scores st |}
  end.

Fixpoint rounds (st : Locals) (items : ProgressData) : outcome Locals :=
  match items with
  | [] => Returned st
  | item :: rest => st' ← round st item; rounds st' rest
  end.

(** The trend of the two score lists, computed when both are non-empty. *)
Definition trend (recent early : list Z) : outcome string :=
  match recent, early with
  | _ :: _, _ :: _ =>
      recent_avg ← average recent;
      early_avg ← average early;
      Returned
        (if float_gt recent_avg (early_avg + 0.5)%float then "improving"
         else if PrimFloat.ltb recent_avg (early_avg - 0.5)%float then "declining"
         else "stable")
  | _, _ => Returned "no_data"
  end.

Definition get_progress_summary (data : ProgressData) : outcome Summary :=
  st ← rounds {| summary_competencies := ∅; summary_total_attempts := 0;
                 all_recent_scores := []; all_early_scores := [] |} data;
  overall ← trend (all_recent_scores st) (all_early_scores st);
  Returned {| competencies := summary_competencies st;
              total_attempts := summary_total_attempts st;
              overall_trend := overall |}.

(** *** What [__init__] derives from [job_info] *)

(** [self.industry] and [self.competencies]; the functions below that read
    [self.job_info] take it beside the manager. *)
Definition industry_of (job_info : Job.Info) : string :=
  default "technology" (Job.industry job_info).

Definition competencies_of (job_info : Job.Info) : list string :=
  default Job.CORE_COMPETENCIES (Job.competencies job_info).

(** *** Questions *)

(** [answer_question]: [initialized] is the outcome of
    [initialize_conversation_session], [run] the streamed run of the
    coordinator on the prompt built from the question and its context. *)
Definition answer_question (initialized : outcome unit)
    (run : string -> string -> outcome (list Adk.Event)) (question context : string) : string :=
  let apology :=
    "I apologize, but I encountered an error processing your question. Please try again." in
  match initialized with
  | Raised _ => apology
  | Returned _ =>
      match run question context with
      | Raised _ => apology
      | Returned events =>
          let response := Adk.final_text events in
          if String.eqb response "" then
            "I'm here to help with interview preparation. Could you please rephrase your question?"
          else response
      end
  end.

(** The practice question dict of a competency agent. *)
Module Practice.
Record Question := {
  id : string;
  competency : string;
  sub_competency : string;
  difficulty : string;
  question : string;
  expected_answer : string;
  evaluation_criteria : string;
  industry : string;
  job_title : string
}.
End Practice.

(** A competency agent's [generate_practice_question], by the outcome of
    the call. *)
Definition Generator := Competency.Agent -> option string -> string -> outcome Practice.Question.

Definition generate_practice_question (self : Manager) (generate : Generator)
    (competency : string) (sub_competency : option string) (difficulty : string)
  : outcome Practice.Question :=
  match competency_agents self !! competency with
  | None => Raised (ValueError ("No agent available for competency: " ++ competency))
  | Some agent => generate agent sub_competency difficulty
  end.

(** The competencies a test of [num_questions] questions draws on: the
    first [num_questions], once more from the start when there are fewer. *)
Definition competencies_to_use (competencies : list string) (num_questions : Z) : list string :=
  let competencies_to_use := slice_to_int num_questions competencies in
  if Z.of_nat (length competencies_to_use) <? num_questions then
    (competencies_to_use
     ++ slice_to_int (num_questions - Z.of_nat (length competencies_to_use)) competencies)%list
  else competencies_to_use.

(** [generate_practice_test]: one task per competency that has an agent,
    all gathered with [return_exceptions=True], the results that are dicts
    kept.  [generate i] is the generator as the [i]-th task meets it. *)
Definition generate_practice_test (self : Manager) (job_info : Job.Info)
    (generate : nat -> Generator) (num_questions : Z) : list Practice.Question :=
  let tasks :=
    filter (fun competency => is_Some (competency_agents self !! competency))
           (competencies_to_use (competencies_of job_info) num_questions) in
  let questions :=
    imap (fun i competency =>
            generate_practice_question self (generate i) competency None "balanced")
         tasks in
  omap (fun q => match q with Returned q => Some q | Raised _ => None end) questions.

(** *** Performance analysis *)

Module Performance.

Record Breakdown := {
  average_score : float;
  attempts : Z;
  latest_score : Z;
  improvement : Z
}.

(** The analysis dict; [trend] is its progress-trend key. *)
Record Analysis := {
  overall_score : number;
  competency_breakdown : gmap string Breakdown;
  strengths : list string;
  weaknesses : list string;
  recommendations : list string;
  trend : string
}.

(** What [analyze_performance] returns: the error dict or the analysis. *)
Inductive Report :=
| NoEvaluations (error : string)
| Analysed (analysis : Analysis).

End Performance.

(** The recommendation for one weakness, when it has an agent. *)
Definition weakness_recommendation (self : Manager) (weakness : string) : list string :=
  match competency_agents self !! weakness with
  | None => []
  | Some agent =>
      match Competency._get_sub_competencies agent with
      | [] => ["Practice more " ++ weakness ++ " questions to build confidence"]
      | first :: others =>
          [ "Focus on improving " ++ weakness ++ ", particularly " ++ first ++ " and "
            ++ match others with
               | second :: _ => second
               | [] => "related skills"
               end ]
      end
  end.

Definition _generate_recommendations (self : Manager) (analysis : Performance.Analysis)
  : list string :=
  let recommendations :=
    flat_map (weakness_recommendation self) (Performance.weaknesses analysis) in
  let recommendations :=
    match Performance.strengths analysis with
    | [] => recommendations
    | strengths =>
        let recommendation :=
          "Continue leveraging your strengths in " ++ join ", " (slice_to 2 strengths)
          ++ " during interviews" in
        (recommendations ++ [recommendation])%list
    end in
  let overall_score := Performance.overall_score analysis in
  (recommendations
   ++ [ if number_lt overall_score 5 then
          "Consider taking more practice tests to build overall interview skills"
        else if number_lt overall_score 7 then
          "Focus on providing more specific examples and measurable results in your answers"
        else "You're well-prepared! Practice mock interviews to maintain your skills" ])%list.

(** The grouping loop: an evaluation counts under its competency when that
    is not empty (every evaluation has a score). *)
Definition group (competency_scores : list (string * list Z)) (eval_data : Competency.Evaluation)
  : list (string * list Z) :=
  if String.eqb (Competency.competency eval_data) "" then competency_scores
  else dict_append competency_scores (Competency.competency eval_data)
         (Competency.score eval_data).

(** The locals the statistics loop updates. *)
Record Statistics := {
  breakdown : gmap string Performance.Breakdown;
  strong : list string;
  weak : list string;
  all_scores : list Z
}.

Definition statistics_round (st : Statistics) (item : string * list Z) : outcome Statistics :=
  let '(competency, scores) := item in
  match scores with
  | [] => Returned st
  | first :: _ =>
      avg_score ← average scores;
      Returned
        {| breakdown :=
             <[competency :=
                 {| Performance.average_score := avg_score;
                    Performance.attempts := Z.of_nat (length scores);
                    Performance.latest_score := List.last scores 0;
                    Performance.improvement :=
                      if (1 <? length scores)%nat then List.last scores 0 - first else 0 |}]>
               (breakdown st);
           strong := if float_ge avg_score 7 then (strong st ++ [competency])%list
                     else strong st;
           weak := if float_ge avg_score 7 then weak st
                   else if PrimFloat.ltb avg_score 5 then (weak st ++ [competency])%list
                   else weak st;
           all_scores := (all_scores st ++ scores)%list |}
  end.

Fixpoint statistics (st : Statistics) (items : list (string * list Z)) : outcome Statistics :=
  match items with
  | [] => Returned st
  | item :: rest => st' ← statistics_round st item; statistics st' rest
  end.

Definition analyze_performance (self : Manager) (evaluations : list Competency.Evaluation)
  : outcome Performance.Report :=
  match evaluations with
  | [] => Returned (Performance.NoEvaluations "No evaluations to analyze")
  | _ =>
      let competency_scores := fold_left group evaluations [] in
      st ← statistics {| breakdown := ∅; strong := []; weak := []; all_scores := [] |}
             competency_scores;
      overall_score ← match all_scores st with
                      | [] => Returned (Int 0)
                      | scores => mean ← average scores; Returned (Float mean)
                      end;
      let analysis :=
        {| Performance.overall_score := overall_score;
           Performance.competency_breakdown := breakdown st;
           Performance.strengths := strong st;
           Performance.weaknesses := weak st;
           Performance.recommendations := [];
           Performance.trend := "stable" |} in
      Returned
        (Performance.Analysed
           {| Performance.overall_score := overall_score;
              Performance.competency_breakdown := breakdown st;
              Performance.strengths := strong st;
              Performance.weaknesses := weak st;
              Performance.recommendations := _generate_recommendations self analysis;
              Performance.trend := "stable" |})
  end.

(** *** The study plan *)

(** [progress["competencies"].items()]: the summaries in the insertion
    order of the dict, which is the order of [progress_data]. *)
Definition summary_items (data : ProgressData) (progress : Summary)
  : list (string * CompetencySummary) :=
  omap (fun item => pair (fst item) <$> competencies progress !! fst item) data.

Module Plan.

(** An entry of the practice schedule: practice of a focus area, or
    maintenance of a strong one. *)
Inductive Schedule :=
| Practice (sessions_per_week : Z) (sub_competencies : list string)
           (difficulty_progression : list string)
| Maintenance (sessions_per_week : Z) (focus : string) (difficulty_progression : list string).

Record Goals := {
  target_overall_score : float;
  timeline_weeks : Z;
  weak_competency_target : float;
  practice_sessions_total : Z
}.

(** The study plan ([resources] stays the empty dict). *)
Record t := {
  focus_areas : list string;
  practice_schedule : gmap string Schedule;
  goals : Goals
}.

End Plan.

(** One round of the classification loop: the two lists of pairs. *)
Definition classify_competency
    (lists : list (string * float) * list (string * float))
    (item : string * CompetencySummary)
  : list (string * float) * list (string * float) :=
  let '(weak_competencies, strong_competencies) := lists in
  let '(competency, data) := item in
  let avg_score := average_score data in
  if PrimFloat.ltb avg_score 6 then
    ((weak_competencies ++ [(competency, avg_score)])%list, strong_competencies)
  else if float_ge avg_score 7 then
    (weak_competencies, (strong_competencies ++ [(competency, avg_score)])%list)
  else lists.

Fixpoint insert_by_average (x : string * float) (sorted : list (string * float))
  : list (string * float) :=
  match sorted with
  | [] => [x]
  | y :: rest =>
      if PrimFloat.ltb (snd y) (snd x) then y :: insert_by_average x rest else x :: sorted
  end.

(** [l.sort(key=lambda x: x[1])]: ascending by average, pairs of equal
    average in their order (the averages, quotients of ints, are ordered). *)
Definition sort_by_average (l : list (string * float)) : list (string * float) :=
  foldr insert_by_average [] l.

Definition schedule_focus (self : Manager) (schedule : gmap string Plan.Schedule)
    (competency : string) : gmap string Plan.Schedule :=
  match competency_agents self !! competency with
  | Some agent =>
      <[competency := Plan.Practice 3 (Competency._get_sub_competencies agent)
                        ["easy"; "balanced"; "challenging"]]> schedule
  | None => schedule
  end.

Definition schedule_maintenance (schedule : gmap string Plan.Schedule)
    (item : string * float) : gmap string Plan.Schedule :=
  <[fst item := Plan.Maintenance 1 "maintenance" ["challenging"]]> schedule.

Definition create_personalized_study_plan (self : Manager) : outcome Plan.t :=
  progress ← get_progress_summary (progress_data self);
  let '(weak_competencies, strong_competencies) :=
    fold_left classify_competency (summary_items (progress_data self) progress) ([], []) in
  let weak_competencies := sort_by_average weak_competencies in
  let focus_areas := map fst (slice_to 3 weak_competencies) in
  let practice_schedule := fold_left (schedule_focus self) focus_areas ∅ in
  let practice_schedule :=
    fold_left schedule_maintenance (slice_to 2 strong_competencies) practice_schedule in
  Returned
    {| Plan.focus_areas := focus_areas;
       Plan.practice_schedule := practice_schedule;
       Plan.goals :=
         {| Plan.target_overall_score := 7.5;
            Plan.timeline_weeks := 4;
            Plan.weak_competency_target := 6;
            Plan.practice_sessions_total := Z.of_nat (length focus_areas) * 3 * 4 |} |}.

(** *** The progress report *)

Definition _assess_readiness_level (avg_score : float) : string :=
  if float_ge avg_score 8 then "Excellent"
  else if float_ge avg_score 6 then "Good"
  else if float_ge avg_score 4 then "Developing"
  else "Needs Improvement".

Module ProgressReport.

Record CompetencyAnalysis := {
  readiness_level : string;
  key_strengths : list string;
  improvement_areas : list string;
  next_steps : list string
}.

Record CandidateInfo := {
  target_role : string;
  industry : string;
  preparation_date : string
}.

(** The report ([system_info] is a dict of four constants). *)
Record t := {
  candidate_info : CandidateInfo;
  performance_summary : Summary;
  detailed_history : ProgressData;
  competency_analysis : gmap string CompetencyAnalysis;
  recommendations : list string
}.

End ProgressReport.

(** The analysis of one competency: the dict with the level of
    [_assess_readiness_level], then the level and the step of the chain of
    comparisons. *)
Definition analyse_competency (comp_data : CompetencySummary)
  : ProgressReport.CompetencyAnalysis :=
  let analysis :=
    {| ProgressReport.readiness_level := _assess_readiness_level (average_score comp_data);
       ProgressReport.key_strengths := [];
       ProgressReport.improvement_areas := [];
       ProgressReport.next_steps := [] |} in
  let avg_score := average_score comp_data in
  let decided (level step : string) :=
    {| ProgressReport.readiness_level := level;
       ProgressReport.key_strengths := ProgressReport.key_strengths analysis;
       ProgressReport.improvement_areas := ProgressReport.improvement_areas analysis;
       ProgressReport.next_steps := (ProgressReport.next_steps analysis ++ [step])%list |} in
  if float_ge avg_score 8 then
    decided "Excellent - Interview Ready" "Maintain skills with periodic practice"
  else if float_ge avg_score 6 then
    decided "Good - Nearly Ready" "Practice challenging scenarios"
  else if float_ge avg_score 4 then
    decided "Developing - Needs Practice" "Focus on STAR method structure"
  else
    decided "Needs Significant Improvement" "Start with basic competency understanding".

Definition report_round (progress : Summary)
    (competency_analysis : gmap string ProgressReport.CompetencyAnalysis) (competency : string)
  : gmap string ProgressReport.CompetencyAnalysis :=
  match competencies progress !! competency with
  | Some comp_data => <[competency := analyse_competency comp_data]> competency_analysis
  | None => competency_analysis
  end.

Definition export_progress_report (self : Manager) (job_info : Job.Info)
  : outcome ProgressReport.t :=
  progress ← get_progress_summary (progress_data self);
  Returned
    {| ProgressReport.candidate_info :=
         {| ProgressReport.target_role := default "Unknown" (Job.title job_info);
            ProgressReport.industry := industry_of job_info;
            ProgressReport.preparation_date := "current_time" |};
       ProgressReport.performance_summary := progress;
       ProgressReport.detailed_history := progress_data self;
       ProgressReport.competency_analysis :=
         fold_left (report_round progress) (competencies_of job_info) ∅;
       ProgressReport.recommendations := [] |}.

End InterviewManager.

(** ** agents/enhanced_voice_workflow_agent.py *)

Module Workflow.

(** The metadata [_analyze_content] attaches to an evaluation;
    [validation] is [None] for the empty dict read when the transcription
    result has none. *)
Record TranscriptionMetadata := {
  original_text : string;
  word_count : Z;
  audio_processed : bool;
  validation : option Transcription.Validation
}.

(** The dict of the content branch: a failure report ([status], [stage],
    [error]) or an evaluation (all keys of [Competency.Evaluation] at once)
    with its metadata. *)
Module Content.
Record t := {
  status : option string;
  stage : option string;
  error : option string;
  workflow_id : option string;
  evaluation : option Competency.Evaluation;
  transcription_metadata : option TranscriptionMetadata;
  analysis_type : option string
}.

(** [not content_analysis]: the dict has no key. *)
Definition is_empty (c : t) : bool :=
  match status c, stage c, error c, workflow_id c, evaluation c,
        transcription_metadata c, analysis_type c with
  | None, None, None, None, None, None, None => true
  | _, _, _, _, _, _, _ => false
  end.

(** The reads [content_analysis.get(key, default)] of the orchestrator. *)
Definition score (c : t) : Z := default 0 (Competency.score <$> evaluation c).
Definition overall_assessment (c : t) : string :=
  default "" (Competency.overall_assessment <$> evaluation c).
Definition strengths (c : t) : list string :=
  default [] (Competency.strengths <$> evaluation c).
Definition improvements (c : t) : list string :=
  default [] (Competency.improvements <$> evaluation c).
End Content.

Record ComponentScores := { content_score : Z; delivery_score : Z }.

Module Synthesis.
Record t := {
  overall_score : number;
  comprehensive_assessment : string;
  combined_strengths : list string;
  priority_improvements : list string;
  industry_feedback : string;
  interview_readiness : string;
  development_plan : string;
  component_scores : ComponentScores;
  workflow_id : option string
}.
End Synthesis.

(** What the free-text patterns of [_parse_synthesis_response] find. *)
Record Sections := {
  found_assessment : option string;
  found_combined_strengths : option (list string);
  found_priority_improvements : option (list string);
  found_industry_feedback : option string;
  found_interview_readiness : option string;
  found_development_plan : option string
}.

Record ContentSummary := {
  cs_score : Z;
  cs_assessment : string;
  cs_strengths : list string;
  cs_improvements : list string;
  cs_star_analysis : option Competency.StarAnalysis;
  cs_transcription_metadata : option TranscriptionMetadata
}.

Record DeliverySummary := {
  ds_score : Z;
  ds_assessment : string;
  ds_strengths : list string;
  ds_improvements : list string;
  ds_detailed_scores : gmap string SpeechCoach.AxisScore;
  ds_coaching_tips : list string;
  ds_industry_advice : string
}.

Record WorkflowMetadata := {
  parallel_analysis : bool;
  content_and_delivery : option bool;
  md_industry : string;
  md_job_title : option string;
  md_audio_processed : option bool;
  error_stage : option string
}.

(** The dict [process_voice_question_response] returns: the compiled
    evaluation or the error result. *)
Module Final.
Record t := {
  workflow_id : string;
  status : string;
  evaluation_type : string;
  question : option Interview.Question;
  score : number;
  overall_assessment : string;
  strengths : list string;
  improvements : list string;
  industry_feedback : option string;
  interview_readiness : option string;
  development_plan : option string;
  content_analysis : option ContentSummary;
  delivery_analysis : option DeliverySummary;
  competency : option string;
  stage : option string;
  error : option string;
  workflow_metadata : WorkflowMetadata
}.
End Final.

(** The agent: its job context, and the section patterns of the synthesis
    reply as a parameter. *)
Record Agent := {
  industry : string;
  job_title : string;
  sections : string -> Sections
}.

(** What the synthesis prompt is built from. *)
Record SynthesisRequest := {
  req_content : Content.t;
  req_delivery : SpeechCoach.DeliveryAnalysis;
  req_question : Interview.Question
}.

(** The agents and services the workflow calls, each by the outcome of the
    call, and the interpreter's [str] of a dict. *)
Record Collaborators := {
  transcribe_audio_bytes : list Byte.byte -> string -> outcome Transcription.Result;
  evaluate_answer : Interview.Question -> string -> outcome Competency.Evaluation;
  analyze_speech_delivery :
    list Byte.byte -> string -> option SpeechCoach.Context -> outcome SpeechCoach.DeliveryAnalysis;
  run_synthesis : SynthesisRequest -> outcome (list Adk.Event);
  str_dict : Content.t -> string
}.

Definition failed (stage : option string) (error : string) (workflow_id : option string)
  : Content.t :=
  {| Content.status := Some "failed";
     Content.stage := stage;
     Content.error := Some error;
     Content.workflow_id := workflow_id;
     Content.evaluation := None;
     Content.transcription_metadata := None;
     Content.analysis_type := None |}.

Definition _analyze_content (env : Collaborators) (audio_data : list Byte.byte) (mime : string)
    (question : Interview.Question) (workflow_id : string) : Content.t :=
  match transcribe_audio_bytes env audio_data mime with
  | Raised e => failed (Some "content_analysis") (str_exc e) (Some workflow_id)
  | Returned transcription_result =>
      if negb (String.eqb (Transcription.status transcription_result) "success") then
        failed (Some "transcription")
               (default "Transcription failed" (Transcription.error transcription_result))
               (Some workflow_id)
      else
        let transcribed_text := Transcription.transcribed_text transcription_result in
        match evaluate_answer env question transcribed_text with
        | Raised e => failed (Some "content_analysis") (str_exc e) (Some workflow_id)
        | Returned evaluation =>
            {| Content.status := Some "success";
               Content.stage := None;
               Content.error := None;
               Content.workflow_id := Some workflow_id;
               Content.evaluation := Some evaluation;
               Content.transcription_metadata :=
                 Some {| original_text := transcribed_text;
                         word_count := Z.of_nat (length (split transcribed_text));
                         audio_processed := true;
                         validation := Transcription.validation transcription_result |};
               Content.analysis_type := Some "content" |}
        end
  end.

Definition _generate_fallback_delivery_analysis (self : Agent) (workflow_id : option string)
    (error : string) : SpeechCoach.DeliveryAnalysis :=
  {| SpeechCoach.overall_score := 5;
     SpeechCoach.delivery_assessment :=
       if String.eqb error "" then "Delivery analysis temporarily unavailable."
       else "Delivery analysis unavailable. " ++ error;
     SpeechCoach.detailed_scores := ∅;
     SpeechCoach.strengths :=
       [ "Provided response for " ++ industry self ++ " interview";
         "Attempted comprehensive answer" ];
     SpeechCoach.improvements :=
       [ "Focus on clear delivery"; "Practice professional communication" ];
     SpeechCoach.coaching_tips :=
       [ "Practice speaking clearly"; "Record yourself for self-assessment" ];
     SpeechCoach.industry_advice :=
       "For " ++ industry self ++ " interviews, focus on clear, confident communication.";
     SpeechCoach.practice_recommendations := None;
     SpeechCoach.audio_metadata := None;
     SpeechCoach.context := None;
     SpeechCoach.analysis_type := Some "delivery_fallback";
     SpeechCoach.workflow_id := workflow_id |}.

(** The context dict [_analyze_delivery] builds for the speech coach. *)
Definition delivery_context (question : Interview.Question) (workflow_id : string)
  : SpeechCoach.Context :=
  {| SpeechCoach.ctx_competency := Interview.competency question;
     SpeechCoach.question_type := "interview_response";
     SpeechCoach.ctx_workflow_id := Some workflow_id |}.

Definition _analyze_delivery (env : Collaborators) (self : Agent) (audio_data : list Byte.byte)
    (mime : string) (question : Interview.Question) (workflow_id : string)
  : SpeechCoach.DeliveryAnalysis :=
  let context := delivery_context question workflow_id in
  match analyze_speech_delivery env audio_data mime (Some context) with
  | Returned d =>
      {| SpeechCoach.overall_score := SpeechCoach.overall_score d;
         SpeechCoach.delivery_assessment := SpeechCoach.delivery_assessment d;
         SpeechCoach.detailed_scores := SpeechCoach.detailed_scores d;
         SpeechCoach.strengths := SpeechCoach.strengths d;
         SpeechCoach.improvements := SpeechCoach.improvements d;
         SpeechCoach.coaching_tips := SpeechCoach.coaching_tips d;
         SpeechCoach.industry_advice := SpeechCoach.industry_advice d;
         SpeechCoach.practice_recommendations := SpeechCoach.practice_recommendations d;
         SpeechCoach.audio_metadata := SpeechCoach.audio_metadata d;
         SpeechCoach.context := SpeechCoach.context d;
         SpeechCoach.analysis_type := Some "delivery";
         SpeechCoach.workflow_id := Some workflow_id |}
  | Raised e => _generate_fallback_delivery_analysis self (Some workflow_id) (str_exc e)
  end.

(** What [_run_parallel_analysis] does with the two results of
    [asyncio.gather(..., return_exceptions=True)]: an exception in place of
    a result is replaced, on the content side by a failure report, on the
    delivery side by the fallback. *)
Definition gathered (self : Agent) (content_result : outcome Content.t)
    (delivery_result : outcome SpeechCoach.DeliveryAnalysis)
  : Content.t * SpeechCoach.DeliveryAnalysis :=
  (match content_result with
   | Raised e => failed None (str_exc e) None
   | Returned c => c
   end,
   match delivery_result with
   | Raised _ => _generate_fallback_delivery_analysis self None ""
   | Returned d => d
   end).

(** Both coroutines catch every exception of their own, so the tasks handed
    to [gather] return. *)
Definition _run_parallel_analysis (env : Collaborators) (self : Agent)
    (audio_data : list Byte.byte) (mime : string) (question : Interview.Question)
    (workflow_id : string) : Content.t * SpeechCoach.DeliveryAnalysis :=
  gathered self
    (Returned (_analyze_content env audio_data mime question workflow_id))
    (Returned (_analyze_delivery env self audio_data mime question workflow_id)).

Definition _extract_final_response (events : list Adk.Event) : string :=
  strip (Adk.final_text events).

Definition _parse_synthesis_response (self : Agent) (synthesis_text : string)
    (content_analysis : Content.t) (delivery_analysis : SpeechCoach.DeliveryAnalysis)
  : Synthesis.t :=
  let found := sections self synthesis_text in
  {| Synthesis.overall_score :=
       match search_decimal "Overall Interview Score:" synthesis_text with
       | Some (whole, frac) => Float (float_of_decimal whole frac)
       | None => Int 5
       end;
     Synthesis.comprehensive_assessment := default "" (found_assessment found);
     Synthesis.combined_strengths := default [] (found_combined_strengths found);
     Synthesis.priority_improvements := default [] (found_priority_improvements found);
     Synthesis.industry_feedback := default "" (found_industry_feedback found);
     Synthesis.interview_readiness := default "" (found_interview_readiness found);
     Synthesis.development_plan := default "" (found_development_plan found);
     Synthesis.component_scores :=
       {| content_score := Content.score content_analysis;
          delivery_score := SpeechCoach.overall_score delivery_analysis |};
     Synthesis.workflow_id := None |}.

Definition _generate_fallback_synthesis (self : Agent) (content_analysis : Content.t)
    (delivery_analysis : SpeechCoach.DeliveryAnalysis) (workflow_id : string)
  : outcome Synthesis.t :=
  let content_score := Content.score content_analysis in
  let delivery_score := SpeechCoach.overall_score delivery_analysis in
  c ← int_to_float content_score;
  d ← int_to_float delivery_score;
  let overall_score := (c * 0.6 + d * 0.4)%float in
  Returned
    {| Synthesis.overall_score := Float overall_score;
       Synthesis.comprehensive_assessment :=
         "Combined content and delivery analysis completed. Content scored "
         ++ str_int content_score ++ "/10, delivery scored " ++ str_int delivery_score ++ "/10.";
       Synthesis.combined_strengths :=
         (slice_to 2 (Content.strengths content_analysis)
          ++ slice_to 1 (SpeechCoach.strengths delivery_analysis))%list;
       Synthesis.priority_improvements :=
         (slice_to 2 (Content.improvements content_analysis)
          ++ slice_to 1 (SpeechCoach.improvements delivery_analysis))%list;
       Synthesis.industry_feedback :=
         "For " ++ industry self
         ++ " interviews, continue developing both content knowledge and professional delivery.";
       Synthesis.interview_readiness :=
         "Developing - continue practicing both content and delivery";
       Synthesis.development_plan :=
         "Practice regularly with focus on both technical content and clear communication delivery";
       Synthesis.component_scores :=
         {| content_score := content_score; delivery_score := delivery_score |};
       Synthesis.workflow_id := Some workflow_id |}.

Definition with_workflow_id (s : Synthesis.t) (workflow_id : string) : Synthesis.t :=
  {| Synthesis.overall_score := Synthesis.overall_score s;
     Synthesis.comprehensive_assessment := Synthesis.comprehensive_assessment s;
     Synthesis.combined_strengths := Synthesis.combined_strengths s;
     Synthesis.priority_improvements := Synthesis.priority_improvements s;
     Synthesis.industry_feedback := Synthesis.industry_feedback s;
     Synthesis.interview_readiness := Synthesis.interview_readiness s;
     Synthesis.development_plan := Synthesis.development_plan s;
     Synthesis.component_scores := Synthesis.component_scores s;
     Synthesis.workflow_id := Some workflow_id |}.

(** [_synthesize_evaluations]: the reply parsed; when the call raises, the
    fallback, computed inside the handler (an exception there leaves the
    function). *)
Definition _synthesize_evaluations (env : Collaborators) (self : Agent)
    (content_analysis : Content.t) (delivery_analysis : SpeechCoach.DeliveryAnalysis)
    (question : Interview.Question) (workflow_id : string) : outcome Synthesis.t :=
  match run_synthesis env {| req_content := content_analysis;
                             req_delivery := delivery_analysis;
                             req_question := question |} with
  | Returned events =>
      let synthesis_text := _extract_final_response events in
      Returned (with_workflow_id
                  (_parse_synthesis_response self synthesis_text content_analysis delivery_analysis)
                  workflow_id)
  | Raised _ =>
      _generate_fallback_synthesis self content_analysis delivery_analysis workflow_id
  end.

Definition content_summary (content_analysis : Content.t) : ContentSummary :=
  {| cs_score := Content.score content_analysis;
     cs_assessment := Content.overall_assessment content_analysis;
     cs_strengths := Content.strengths content_analysis;
     cs_improvements := Content.improvements content_analysis;
     cs_star_analysis := Competency.star_analysis <$> Content.evaluation content_analysis;
     cs_transcription_metadata := Content.transcription_metadata content_analysis |}.

Definition delivery_summary (delivery_analysis : SpeechCoach.DeliveryAnalysis) : DeliverySummary :=
  {| ds_score := SpeechCoach.overall_score delivery_analysis;
     ds_assessment := SpeechCoach.delivery_assessment delivery_analysis;
     ds_strengths := SpeechCoach.strengths delivery_analysis;
     ds_improvements := SpeechCoach.improvements delivery_analysis;
     ds_detailed_scores := SpeechCoach.detailed_scores delivery_analysis;
     ds_coaching_tips := SpeechCoach.coaching_tips delivery_analysis;
     ds_industry_advice := SpeechCoach.industry_advice delivery_analysis |}.

Definition _compile_enhanced_result (self : Agent) (workflow_id : string)
    (content_analysis : Content.t) (delivery_analysis : SpeechCoach.DeliveryAnalysis)
    (synthesis_result : Synthesis.t) (question : Interview.Question) : Final.t :=
  {| Final.workflow_id := workflow_id;
     Final.status := "success";
     Final.evaluation_type := "enhanced_voice_analysis";
     Final.question := Some question;
     Final.score := Synthesis.overall_score synthesis_result;
     Final.overall_assessment := Synthesis.comprehensive_assessment synthesis_result;
     Final.strengths := Synthesis.combined_strengths synthesis_result;
     Final.improvements := Synthesis.priority_improvements synthesis_result;
     Final.industry_feedback := Some (Synthesis.industry_feedback synthesis_result);
     Final.interview_readiness := Some (Synthesis.interview_readiness synthesis_result);
     Final.development_plan := Some (Synthesis.development_plan synthesis_result);
     Final.content_analysis := Some (content_summary content_analysis);
     Final.delivery_analysis := Some (delivery_summary delivery_analysis);
     Final.competency := Interview.competency question;
     Final.stage := None;
     Final.error := None;
     Final.workflow_metadata :=
       {| parallel_analysis := true;
          content_and_delivery := Some true;
          md_industry := industry self;
          md_job_title := Some (job_title self);
          md_audio_processed := Some true;
          error_stage := None |} |}.

Definition _generate_error_result (self : Agent) (workflow_id stage error_details : string)
  : Final.t :=
  {| Final.workflow_id := workflow_id;
     Final.status := "failed";
     Final.evaluation_type := "enhanced_voice_analysis_failed";
     Final.question := None;
     Final.score := Int 0;
     Final.overall_assessment := "Analysis failed at " ++ stage ++ " stage. Please try again.";
     Final.strengths := [];
     Final.improvements :=
       [ "Try recording again with clear audio"; "Ensure stable internet connection" ];
     Final.industry_feedback := None;
     Final.interview_readiness := None;
     Final.development_plan := None;
     Final.content_analysis := None;
     Final.delivery_analysis := None;
     Final.competency := None;
     Final.stage := Some stage;
     Final.error := Some error_details;
     Final.workflow_metadata :=
       {| parallel_analysis := false;
          content_and_delivery := None;
          md_industry := industry self;
          md_job_title := None;
          md_audio_processed := None;
          error_stage := Some stage |} |}.

(** [workflow_metrics[key] += 1] on the defaultdict of counters. *)
Definition bump (key : string) (metrics : gmap string Z) : gmap string Z :=
  <[key := default 0 (metrics !! key) + 1]> metrics.

(** The body of [process_voice_question_response] from the two results of
    the parallel step on: the gate on the content analysis, the delivery
    fallback, synthesis and compilation, inside the catch-all handler.
    [workflow_id] is the uuid drawn at entry; the counters are returned with
    the result. *)
Definition completed (env : Collaborators) (self : Agent) (metrics : gmap string Z)
    (workflow_id : string) (question : Interview.Question)
    (analyses : Content.t * SpeechCoach.DeliveryAnalysis) : Final.t * gmap string Z :=
  let '(content_analysis, delivery_analysis) := analyses in
  if Content.is_empty content_analysis
     || negb (bool_decide (Content.status content_analysis = Some "success")) then
    (_generate_error_result self workflow_id "content_analysis" (str_dict env content_analysis),
     metrics)
  else
    let delivery_analysis :=
      if SpeechCoach.overall_score delivery_analysis <? 0
      then _generate_fallback_delivery_analysis self None ""
      else delivery_analysis in
    match _synthesize_evaluations env self content_analysis delivery_analysis
            question workflow_id with
    | Returned synthesis_result =>
        (_compile_enhanced_result self workflow_id content_analysis delivery_analysis
           synthesis_result question,
         bump "content_and_delivery_analyzed" (bump "successful_workflows" metrics))
    | Raised e =>
        (_generate_error_result self workflow_id "workflow_error" (str_exc e),
         bump "failed_workflows" metrics)
    end.

Definition process_voice_question_response (env : Collaborators) (self : Agent)
    (metrics : gmap string Z) (workflow_id : string) (question : Interview.Question)
    (audio_data : list Byte.byte) (mime : string) : Final.t * gmap string Z :=
  completed env self metrics workflow_id question
    (_run_parallel_analysis env self audio_data mime question workflow_id).

(** *** The weighting table of the synthesis tools *)

Definition industry_weights : list (string * (float * float)) :=
  [ ("technology", (0.7, 0.3)%float);
    ("sales", (0.4, 0.6)%float);
    ("consulting", (0.5, 0.5)%float);
    ("healthcare", (0.6, 0.4)%float);
    ("finance", (0.65, 0.35)%float);
    ("marketing", (0.45, 0.55)%float);
    ("education", (0.6, 0.4)%float) ].

Fixpoint lookup_weights (industry : string) (table : list (string * (float * float)))
  : float * float :=
  match table with
  | [] => (0.6, 0.4)%float
  | (name, w) :: rest => if String.eqb name industry then w else lookup_weights industry rest
  end.

(** The number [calculate_weighted_score] works out for its two float
    arguments before it formats its reply. *)
Definition weighted_score (self : Agent) (content_score delivery_score : float) : float :=
  let '(content, delivery) := lookup_weights (industry self) industry_weights in
  (content_score * content + delivery_score * delivery)%float.

(** *** A sequence of runs *)

(** One call of [process_voice_question_response]: its arguments, the uuid
    it draws, and how the collaborators answer during it. *)
Record Run := {
  run_env : Collaborators;
  run_workflow_id : string;
  run_question : Interview.Question;
  run_audio_data : list Byte.byte;
  run_mime_type : string
}.

(** [self.workflow_metrics[key]], read from the defaultdict of ints. *)
Definition metric (key : string) (metrics : gmap string Z) : Z :=
  default 0 (metrics !! key).

Definition run_once (self : Agent) (state : list Final.t * gmap string Z) (run : Run)
  : list Final.t * gmap string Z :=
  let '(results, metrics) := state in
  let '(result, metrics) :=
    process_voice_question_response (run_env run) self metrics (run_workflow_id run)
      (run_question run) (run_audio_data run) (run_mime_type run) in
  ((results ++ [result])%list, metrics).

(** The results of a sequence of calls on one agent, and its counters
    afterwards. *)
Definition session (self : Agent) (runs : list Run) : list Final.t * gmap string Z :=
  fold_left (run_once self) runs ([], ∅).

End Workflow.

(** *** The workflow with its own agents *)

Module Wiring.

(** The collaborators as [EnhancedVoiceWorkflowAgent.__init__] sets them up:
    the transcription agent, the interview manager with its competency
    agents, and the speech coach, each over its runtime; [now] is the clock
    the manager reads. *)
Definition agents (transcription_runtime : Transcription.Runtime)
    (manager : InterviewManager.Manager) (competency_runtime : Competency.Runtime)
    (now : float) (coach : SpeechCoach.Agent) (speech_runtime : SpeechCoach.Runtime)
    (synthesis_runtime : Workflow.SynthesisRequest -> outcome (list Adk.Event))
    (str_dict : Workflow.Content.t -> string) : Workflow.Collaborators :=
  {| Workflow.transcribe_audio_bytes := fun audio_data mime =>
       Returned (fst (Transcription.transcribe_audio_bytes transcription_runtime audio_data mime));
     Workflow.evaluate_answer := fun question answer =>
       fst (InterviewManager.evaluate_answer manager competency_runtime now question answer);
     Workflow.analyze_speech_delivery := fun audio_data mime ctx =>
       fst (SpeechCoach.analyze_speech_delivery coach speech_runtime audio_data mime ctx);
     Workflow.run_synthesis := synthesis_runtime;
     Workflow.str_dict := str_dict |}.

End Wiring.

(** *** StreamlinedEnhancedWorkflow *)

Module Streamlined.

Record EnhancedAnalysis := {
  content_analysis_available : bool;
  delivery_analysis_available : bool;
  content_score : Z;
  delivery_score : Z;
  weighted_overall : float;
  delivery_strengths : list string;
  delivery_improvements : list string;
  speaking_tips : list string;
  industry_delivery_advice : string
}.

(** The updated copy of the content evaluation: [copied] holds the keys of
    the copy; of these [score], [overall_assessment], [strengths] and
    [improvements] are overwritten by the fields that follow. *)
Record EnhancedEvaluation := {
  copied : Competency.Evaluation;
  score : float;
  overall_assessment : string;
  strengths : list string;
  improvements : list string;
  enhanced_analysis : EnhancedAnalysis
}.

(** [job_info.get('industry', 'technology')] *)
Record Workflow := { industry : option string }.

Definition weights (industry : string) : float * float :=
  if bool_decide (industry ∈ ["technology"; "finance"; "healthcare"]) then (0.7, 0.3)%float
  else if bool_decide (industry ∈ ["sales"; "marketing"]) then (0.4, 0.6)%float
  else (0.6, 0.4)%float.

Definition _combine_evaluations (self : Workflow) (content_eval : Competency.Evaluation)
    (delivery_eval : SpeechCoach.DeliveryAnalysis) : outcome EnhancedEvaluation :=
  let content_score := Competency.score content_eval in
  let delivery_score := SpeechCoach.overall_score delivery_eval in
  let industry := default "technology" (industry self) in
  let '(w_content, w_delivery) := weights industry in
  c ← int_to_float content_score;
  d ← int_to_float delivery_score;
  let overall_score := (c * w_content + d * w_delivery)%float in
  Returned
    {| copied := content_eval;
       score := round1 overall_score;
       overall_assessment :=
         "Enhanced analysis: Content " ++ str_int content_score ++ "/10, Delivery "
         ++ str_int delivery_score ++ "/10. " ++ Competency.overall_assessment content_eval;
       enhanced_analysis :=
         {| content_analysis_available := true;
            delivery_analysis_available := true;
            content_score := content_score;
            delivery_score := delivery_score;
            weighted_overall := overall_score;
            delivery_strengths := SpeechCoach.strengths delivery_eval;
            delivery_improvements := SpeechCoach.improvements delivery_eval;
            speaking_tips := SpeechCoach.coaching_tips delivery_eval;
            industry_delivery_advice := SpeechCoach.industry_advice delivery_eval |};
       strengths :=
         (slice_to 2 (Competency.strengths content_eval)
          ++ map (String.append "Speaking: ")
                 (slice_to 1 (SpeechCoach.strengths delivery_eval)))%list;
       improvements :=
         (slice_to 2 (Competency.improvements content_eval)
          ++ map (String.append "Delivery: ")
                 (slice_to 1 (SpeechCoach.improvements delivery_eval)))%list |}.

(** *** The pipeline *)

(** The agents the pipeline calls, each by the outcome of the call. *)
Record Agents := {
  transcribe_audio_bytes : list Byte.byte -> string -> outcome Transcription.Result;
  evaluate_answer : Interview.Question -> string -> outcome Competency.Evaluation;
  analyze_speech_delivery :
    list Byte.byte -> string -> option SpeechCoach.Context
    -> outcome SpeechCoach.DeliveryAnalysis
}.

Record TranscriptionMetadata := {
  original_text : string;
  word_count : Z;
  audio_processed : bool
}.

(** The [enhanced_analysis] of the two fallbacks. *)
Module Degraded.
Record Analysis := {
  content_analysis_available : bool;
  delivery_analysis_available : bool;
  error : string
}.
End Degraded.

(** The dict of the last fallback. *)
Module Failure.
Record t := {
  score : Z;
  overall_assessment : string;
  competency : string;
  error : string;
  enhanced_analysis : Degraded.Analysis
}.
End Failure.

(** What [audio_to_enhanced_evaluation] returns: the combined evaluation
    (a copy of the content evaluation, which carries the transcription
    metadata), the content evaluation of the second attempt with its
    [enhanced_analysis], or the dict of the last fallback. *)
Inductive Result :=
| Enhanced (enhanced_eval : EnhancedEvaluation) (transcription_metadata : TranscriptionMetadata)
| ContentOnly (content_eval : Competency.Evaluation) (enhanced_analysis : Degraded.Analysis)
| Failed (failure : Failure.t).

(** The evaluation, and the [transcription_metadata] set on it. *)
Definition _analyze_content_simple (agents : Agents) (question : Interview.Question)
    (audio_data : list Byte.byte) (mime : string)
  : outcome (Competency.Evaluation * TranscriptionMetadata) :=
  transcription_result ← transcribe_audio_bytes agents audio_data mime;
  if negb (String.eqb (Transcription.status transcription_result) "success") then
    Raised (PlainException "Transcription failed")
  else
    let transcribed_text := Transcription.transcribed_text transcription_result in
    evaluation ← evaluate_answer agents question transcribed_text;
    Returned (evaluation,
              {| original_text := transcribed_text;
                 word_count := Z.of_nat (length (split transcribed_text));
                 audio_processed := true |}).

Definition _analyze_delivery_simple (agents : Agents) (audio_data : list Byte.byte)
    (mime : string) (question : Interview.Question)
  : outcome SpeechCoach.DeliveryAnalysis :=
  let context :=
    {| SpeechCoach.ctx_competency := Interview.competency question;
       SpeechCoach.question_type := "interview_response";
       SpeechCoach.ctx_workflow_id := None |} in
  analyze_speech_delivery agents audio_data mime (Some context).

(** The dict that stands for a delivery analysis that raised: two keys,
    the others read with their defaults. *)
Definition delivery_unavailable : SpeechCoach.DeliveryAnalysis :=
  {| SpeechCoach.overall_score := 5;
     SpeechCoach.delivery_assessment := "Delivery analysis unavailable";
     SpeechCoach.detailed_scores := ∅;
     SpeechCoach.strengths := [];
     SpeechCoach.improvements := [];
     SpeechCoach.coaching_tips := [];
     SpeechCoach.industry_advice := "";
     SpeechCoach.practice_recommendations := None;
     SpeechCoach.audio_metadata := None;
     SpeechCoach.context := None;
     SpeechCoach.analysis_type := None;
     SpeechCoach.workflow_id := None |}.

(** The body of the outer [try]. *)
Definition enhanced_try (self : Workflow) (agents : Agents) (question : Interview.Question)
    (audio_data : list Byte.byte) (mime : string)
  : outcome (EnhancedEvaluation * TranscriptionMetadata) :=
  let content_eval := _analyze_content_simple agents question audio_data mime in
  let delivery_eval := _analyze_delivery_simple agents audio_data mime question in
  match content_eval with
  | Raised e => Raised (PlainException ("Content analysis failed: " ++ str_exc e))
  | Returned (content_eval, transcription_metadata) =>
      let delivery_eval :=
        match delivery_eval with
        | Raised _ => delivery_unavailable
        | Returned delivery_eval => delivery_eval
        end in
      enhanced_eval ← _combine_evaluations self content_eval delivery_eval;
      Returned (enhanced_eval, transcription_metadata)
  end.

(** The inner [try]: the content evaluation of the second attempt, when
    it returns one. *)
Definition content_only (agents : Agents) (question : Interview.Question)
    (audio_data : list Byte.byte) (mime : string) : outcome (option Competency.Evaluation) :=
  transcription_result ← transcribe_audio_bytes agents audio_data mime;
  if String.eqb (Transcription.status transcription_result) "success" then
    content_eval ← evaluate_answer agents question
                     (Transcription.transcribed_text transcription_result);
    Returned (Some content_eval)
  else Returned None.

(** [audio_to_enhanced_evaluation]: [agents] answers the calls of the
    outer [try], [again] those of the fallback. *)
Definition audio_to_enhanced_evaluation (self : Workflow) (agents again : Agents)
    (question : Interview.Question) (audio_data : list Byte.byte) (mime : string) : Result :=
  match enhanced_try self agents question audio_data mime with
  | Returned (enhanced_eval, transcription_metadata) =>
      Enhanced enhanced_eval transcription_metadata
  | Raised e =>
      match content_only again question audio_data mime with
      | Returned (Some content_eval) =>
          ContentOnly content_eval
            {| Degraded.content_analysis_available := true;
               Degraded.delivery_analysis_available := false;
               Degraded.error := str_exc e |}
      | _ =>
          Failed
            {| Failure.score := 0;
               Failure.overall_assessment := "Enhanced analysis failed: " ++ str_exc e;
               Failure.competency := default "Unknown" (Interview.competency question);
               Failure.error := str_exc e;
               Failure.enhanced_analysis :=
                 {| Degraded.content_analysis_available := false;
                    Degraded.delivery_analysis_available := false;
                    Degraded.error := str_exc e |} |}
      end
  end.

(** The agents as [StreamlinedEnhancedWorkflow.__init__] sets them up when
    [get_transcription_agent] and [get_speech_coach_agent] give the agents
    proper (they give the mocks when these fail to initialise): the
    transcription agent, the interview manager and the speech coach, each
    over its runtime; [now] is the clock the manager reads. *)
Definition wired (transcription_runtime : Transcription.Runtime)
    (manager : InterviewManager.Manager) (competency_runtime : Competency.Runtime)
    (now : float) (coach : SpeechCoach.Agent) (speech_runtime : SpeechCoach.Runtime)
  : Agents :=
  {| transcribe_audio_bytes := fun audio_data mime =>
       Returned (fst (Transcription.transcribe_audio_bytes transcription_runtime audio_data mime));
     evaluate_answer := fun question answer =>
       fst (InterviewManager.evaluate_answer manager competency_runtime now question answer);
     analyze_speech_delivery := fun audio_data mime ctx =>
       fst (SpeechCoach.analyze_speech_delivery coach speech_runtime audio_data mime ctx) |}.

End Streamlined.

(** ** The specification's wording of two computations *)

Module Spec.

(** The five checks of transcription validation as the specification words
    them: at least 3 words, a length from 10 to 2000, a terminal punctuation
    mark, more distinct words than one third of the word count, and an
    estimated duration above one second. *)
Definition checks_stated (text : string) (info : Transcription.AudioInfo) : list bool :=
  let word_count := Z.of_nat (length (split text)) in
  [ 3 <=? word_count;
    (10 <=? len text) && (len text <=? 2000);
    has_char "." text || has_char "!" text || has_char "?" text;
    word_count <? 3 * Transcription.distinct_words text;
    float_gt (Transcription.estimated_duration info) 1 ].

(** The confidence and the verdict the specification derives from them. *)
Definition confidence_stated (text : string) (info : Transcription.AudioInfo) : float :=
  quotient (Transcription.count_true (checks_stated text info)) 5.

Definition valid_stated (text : string) (info : Transcription.AudioInfo) : bool :=
  float_ge (confidence_stated text info) 0.6.

(** The score lists of the competencies with at least two attempts, in the
    order of the progress data. *)
Definition qualifying (data : InterviewManager.ProgressData) : list (list Z) :=
  filter (fun scores => (2 <= length scores)%nat)
         (map (fun item => map InterviewManager.score (snd item)) data).

Definition latest (scores : list Z) : Z := List.last scores 0.
Definition earliest (scores : list Z) : Z := hd 0 scores.

(** The trend of a recent and an early average. *)
Definition classify (recent_avg early_avg : float) : string :=
  if float_gt recent_avg (early_avg + 0.5)%float then "improving"
  else if PrimFloat.ltb recent_avg (early_avg - 0.5)%float then "declining"
  else "stable".

(** The overall trend over the qualifying competencies: the average of
    their most recent scores against the average of their first scores. *)
Definition trend_of (data : InterviewManager.ProgressData) : string :=
  match qualifying data with
  | [] => "no_data"
  | q =>
      let n := Z.of_nat (length q) in
      classify (quotient (InterviewManager.sum (map latest q)) n)
               (quotient (InterviewManager.sum (map earliest q)) n)
  end.

(** The keyword-occurrence score of a competency as the specification
    words it: the occurrences of its keywords in the lower-cased text, and
    in the lower-cased AI-extracted fields (responsibilities, requirements
    and skills, joined with blanks). *)
Definition occurrences (keywords : list string) (s : string) : Z :=
  fold_right Z.add 0 (map (fun keyword => count keyword s) keywords).

Definition keyword_score (text : string) (ai_analysis : JobAnalyzer.AiAnalysis)
    (keywords : list string) : Z :=
  occurrences keywords (lower text)
  + occurrences keywords
      (lower (join " " (default [] (JobAnalyzer.responsibilities ai_analysis)
                        ++ default [] (JobAnalyzer.requirements ai_analysis)
                        ++ default [] (JobAnalyzer.skills ai_analysis))%list)).

(** The Counter the specification describes: the competencies of the
    keyword table with a positive score, in the order of the table. *)
Definition scored (text : string) (ai_analysis : JobAnalyzer.AiAnalysis) : list (string * Z) :=
  omap (fun row : string * list string =>
          let score := keyword_score text ai_analysis (snd row) in
          if 0 <? score then Some (fst row, score) else None)
       JobAnalyzer.competency_keywords.


(** A score within the float range. *)
Definition fits (z : Z) : Prop := fits_float z = true.

(** Every recorded score is within the float range. *)
Definition all_fit (data : InterviewManager.ProgressData) : Prop :=
  Forall (fun item => Forall (fun e => fits (InterviewManager.score e)) (snd item)) data.

(** What one competency adds to the qualifying score lists. *)
Definition counted (scores : list Z) : list (list Z) :=
  filter (fun scores => (2 <= length scores)%nat) [scores].

End Spec.

(** ** Sample values *)

Module Samples.

Definition question : Interview.Question :=
  {| Interview.id := Some "q-1";
     Interview.competency := Some "Problem Solving";
     Interview.sub_competency := None;
     Interview.question := Some "Describe a time when you debugged a complex technical issue.";
     Interview.expected_answer := None |}.

(** A run whose last event carries [reply]. *)
Definition reply_events (reply : string) : list Adk.Event :=
  [ {| Adk.parts := None |};
    {| Adk.parts := Some [ {| Adk.text := None |}; {| Adk.text := Some reply |} ] |} ].

Definition unavailable : exception := PlainException "service unavailable".

(** [n] bytes of silence. *)
Definition silence (n : nat) : list Byte.byte := repeat Byte.x00 n.

Definition no_sections : Competency.Sections :=
  {| Competency.found_assessment := None;
     Competency.found_situation := None;
     Competency.found_task := None;
     Competency.found_action := None;
     Competency.found_result := None;
     Competency.found_strengths := None;
     Competency.found_improvements := None;
     Competency.found_missing_elements := None;
     Competency.found_advice := None;
     Competency.found_sample_answer := None |}.

Definition competency_agent : Competency.Agent :=
  {| Competency.agent_competency := "Problem Solving";
     Competency.industry := "technology";
     Competency.job_title := "Software Engineer";
     Competency.max_str_digits := Some 4300%nat;
     Competency.sections := fun _ => no_sections |}.

Definition evaluation (score : Z) : Competency.Evaluation :=
  {| Competency.score := score;
     Competency.overall_assessment := "Clear and structured.";
     Competency.star_analysis :=
       {| Competency.situation := "Stated"; Competency.task := "Stated";
          Competency.action := "Detailed"; Competency.result := "Measured" |};
     Competency.strengths := ["Structure"; "Detail"; "Outcome"];
     Competency.improvements := ["Be briefer"; "Quantify"; "Name the tools"];
     Competency.missing_elements := [];
     Competency.advice := "";
     Competency.sample_answer := "";
     Competency.competency := "Problem Solving";
     Competency.original_answer := "I traced the fault to a cache." |}.

Definition speech_agent : SpeechCoach.Agent :=
  {| SpeechCoach.industry := "technology";
     SpeechCoach.job_title := "Software Engineer";
     SpeechCoach._parse_speech_analysis := fun _ audio_data ctx =>
       {| SpeechCoach.overall_score := 7;
          SpeechCoach.delivery_assessment := "";
          SpeechCoach.detailed_scores := ∅;
          SpeechCoach.strengths := ["Steady pace"];
          SpeechCoach.improvements := ["Fewer fillers"];
          SpeechCoach.coaching_tips := [];
          SpeechCoach.industry_advice := "";
          SpeechCoach.practice_recommendations := Some "";
          SpeechCoach.audio_metadata := None;
          SpeechCoach.context := ctx;
          SpeechCoach.analysis_type := None;
          SpeechCoach.workflow_id := None |} |}.

Definition transcript : Transcription.Result :=
  {| Transcription.transcribed_text := "I traced the fault to a cache.";
     Transcription.word_count := 7;
     Transcription.status := "success";
     Transcription.method := "adk_multimodal";
     Transcription.audio_info := None;
     Transcription.validation := None;
     Transcription.error := None;
     Transcription.fallback_message := None |}.

Definition workflow_agent : Workflow.Agent :=
  {| Workflow.industry := "technology";
     Workflow.job_title := "Software Engineer";
     Workflow.sections := fun _ =>
       {| Workflow.found_assessment := None;
          Workflow.found_combined_strengths := None;
          Workflow.found_priority_improvements := None;
          Workflow.found_industry_feedback := None;
          Workflow.found_interview_readiness := None;
          Workflow.found_development_plan := None |} |}.

(** Collaborators that answer every call with the given outcomes. *)
Definition collaborators (transcribed : outcome Transcription.Result)
    (evaluated : outcome Competency.Evaluation)
    (coached : outcome SpeechCoach.DeliveryAnalysis)
    (synthesis : outcome (list Adk.Event)) : Workflow.Collaborators :=
  {| Workflow.transcribe_audio_bytes := fun _ _ => transcribed;
     Workflow.evaluate_answer := fun _ _ => evaluated;
     Workflow.analyze_speech_delivery := fun _ _ _ => coached;
     Workflow.run_synthesis := fun _ => synthesis;
     Workflow.str_dict := fun _ => "{...}" |}.

(** A run in which the content branch succeeds with the given score, the
    speech coach raises, and the synthesis call has the given outcome. *)
Definition degraded (score : Z) (synthesis : outcome (list Adk.Event))
  : Workflow.Collaborators :=
  collaborators (Returned transcript) (Returned (evaluation score)) (Raised unavailable)
    synthesis.

Definition manager : InterviewManager.Manager :=
  {| InterviewManager.competency_agents := {[ "Problem Solving" := competency_agent ]};
     InterviewManager.progress_data := [] |}.

(** The workflow's own agents, every runtime answering with the given
    outcome. *)
Definition wired (transcription evaluation coaching synthesis : outcome (list Adk.Event))
  : Workflow.Collaborators :=
  Wiring.agents (fun _ => transcription) manager (fun _ => evaluation) 0 speech_agent
    (fun _ => coaching) (fun _ => synthesis) (fun _ => "{...}").

Fixpoint zeros (n : nat) : string :=
  match n with
  | O => ""
  | S n' => String "0" (zeros n')
  end.

(** A reply of the evaluation model that states a score of 10^400. *)
Definition huge_score_reply : string := "Score: 1" ++ zeros 400 ++ "/10".

(** The dict of a content branch that succeeded with the given score. *)
Definition content (score : Z) : Workflow.Content.t :=
  {| Workflow.Content.status := Some "success";
     Workflow.Content.stage := None;
     Workflow.Content.error := None;
     Workflow.Content.workflow_id := Some "wf-1";
     Workflow.Content.evaluation := Some (evaluation score);
     Workflow.Content.transcription_metadata := None;
     Workflow.Content.analysis_type := Some "content" |}.

(** A delivery analysis with the given overall score. *)
Definition delivery (score : Z) : SpeechCoach.DeliveryAnalysis :=
  {| SpeechCoach.overall_score := score;
     SpeechCoach.delivery_assessment := "Measured and clear.";
     SpeechCoach.detailed_scores :=
       {[ "pace_rhythm" := {| SpeechCoach.score := score; SpeechCoach.feedback := "Even" |} ]};
     SpeechCoach.strengths := ["Steady pace"; "Clear diction"];
     SpeechCoach.improvements := ["Fewer fillers"; "More energy"];
     SpeechCoach.coaching_tips := ["Pause before answering"];
     SpeechCoach.industry_advice := "";
     SpeechCoach.practice_recommendations := None;
     SpeechCoach.audio_metadata := None;
     SpeechCoach.context := None;
     SpeechCoach.analysis_type := Some "delivery";
     SpeechCoach.workflow_id := Some "wf-1" |}.

Definition entry (score : Z) : InterviewManager.Entry :=
  {| InterviewManager.score := score;
     InterviewManager.timestamp := 0;
     InterviewManager.notes := "" |}.

Definition wav_info (seconds : float) : Transcription.AudioInfo :=
  {| Transcription.size_bytes := 80000;
     Transcription.size_kb := 78.1;
     Transcription.estimated_duration := seconds;
     Transcription.mime_type := "audio/wav";
     Transcription.quality_estimate := "good" |}.


End Samples.

(** ** Notions the statements use *)

Module Notions.

(** The text an event contributes to the final response. *)
Definition event_text (ev : Adk.Event) : string :=
  match Adk.parts ev with
  | Some ps => Adk.first_text ps
  | None => ""
  end.

(** An event without a non-empty text part. *)
Definition silent (ev : Adk.Event) : Prop := event_text ev = "".

(** A word of [str.split]: not empty, and free of whitespace. *)
Definition word (w : string) : Prop :=
  w <> "" /\ Forall (fun c => isspace c = false) (list_ascii_of_string w).

(** The number of results with the given status, and with the given stage. *)
Definition with_status (status : string) (results : list Workflow.Final.t) : Z :=
  Z.of_nat (length (filter (fun r => Workflow.Final.status r = status) results)).

Definition at_stage (stage : string) (results : list Workflow.Final.t) : Z :=
  Z.of_nat (length (filter (fun r => Workflow.Final.stage r = Some stage) results)).

(** What the progress summary holds for a competency with these scores. *)
Definition summarises (scores : list Z) (stats : InterviewManager.CompetencySummary) : Prop :=
  InterviewManager.average_score stats
  = quotient (InterviewManager.sum scores) (Z.of_nat (length scores))
  /\ InterviewManager.attempts stats = Z.of_nat (length scores)
  /\ InterviewManager.latest_score stats = List.last scores 0
  /\ InterviewManager.improvement stats = List.last scores 0 - hd 0 scores
  /\ Forall (fun x => x <= InterviewManager.best_score stats) scores
  /\ In (InterviewManager.best_score stats) scores.

(** Weakest first: the average of the second is not below that of the
    first. *)
Definition by_average (x y : string * float) : Prop := PrimFloat.ltb (snd y) (snd x) = false.

(** The readiness level the progress report writes, for the level
    [_assess_readiness_level] gives. *)
Definition full_label (level : string) : string :=
  dict_get [ ("Excellent", "Excellent - Interview Ready");
             ("Good", "Good - Nearly Ready");
             ("Developing", "Developing - Needs Practice");
             ("Needs Improvement", "Needs Significant Improvement") ] level "".

(** The three recommendations one of which closes every list. *)
Definition closing_recommendations : list string :=
  [ "Consider taking more practice tests to build overall interview skills";
    "Focus on providing more specific examples and measurable results in your answers";
    "You're well-prepared! Practice mock interviews to maintain your skills" ].

End Notions.


(** ** Further sample inputs *)

Module Examples.

(** A history of three answers in two competencies. *)
Definition history : InterviewManager.ProgressData :=
  [ ("Problem Solving", [Samples.entry 4; Samples.entry 5]);
    ("Leadership", [Samples.entry 8]) ].

(** A manager with that history and an agent for one of the two. *)
Definition manager : InterviewManager.Manager :=
  {| InterviewManager.competency_agents := {[ "Problem Solving" := Samples.competency_agent ]};
     InterviewManager.progress_data := history |}.

Definition job_info : Job.Info :=
  {| Job.title := Some "Software Engineer";
     Job.industry := Some "technology";
     Job.experience_level := None;
     Job.competencies := Some ["Problem Solving"; "Leadership"];
     Job.skills := None;
     Job.technologies := None;
     Job.responsibilities := None |}.



(** A question on a competency the sample manager has no agent for. *)
Definition unlisted_question : Interview.Question :=
  {| Interview.id := Some "q-2";
     Interview.competency := Some "Negotiation";
     Interview.sub_competency := None;
     Interview.question := Some "Tell me about a negotiation you led.";
     Interview.expected_answer := None |}.

(** A job with the one competency the sample manager of [Samples] has an
    agent for, and a generator that always returns the same question. *)
Definition single_job : Job.Info :=
  {| Job.title := Some "Software Engineer";
     Job.industry := Some "technology";
     Job.experience_level := None;
     Job.competencies := Some ["Problem Solving"];
     Job.skills := None;
     Job.technologies := None;
     Job.responsibilities := None |}.

Definition practice_question : InterviewManager.Practice.Question :=
  {| InterviewManager.Practice.id := "7f1c";
     InterviewManager.Practice.competency := "Problem Solving";
     InterviewManager.Practice.sub_competency := "";
     InterviewManager.Practice.difficulty := "balanced";
     InterviewManager.Practice.question :=
       "Describe a time when you debugged a complex technical issue.";
     InterviewManager.Practice.expected_answer := "";
     InterviewManager.Practice.evaluation_criteria := "";
     InterviewManager.Practice.industry := "technology";
     InterviewManager.Practice.job_title := "Software Engineer" |}.

Definition generator : nat -> InterviewManager.Generator :=
  fun _ _ _ _ => Returned practice_question.

(** Agents none of which can be reached. *)
Definition offline : Streamlined.Agents :=
  {| Streamlined.transcribe_audio_bytes := fun _ _ => Raised Samples.unavailable;
     Streamlined.evaluate_answer := fun _ _ => Raised Samples.unavailable;
     Streamlined.analyze_speech_delivery := fun _ _ _ => Raised Samples.unavailable |}.

End Examples.


(** * Properties *)

(** ** Transcription: the size gate *)

Section TranscriptionGate.
Import Transcription.

Lemma transcribe_try_short runtime audio_data mime :
  size audio_data < 1000 ->
  exists e, transcribe_try runtime audio_data mime = (Raised e, []).
Proof.
  intros Hsmall. unfold transcribe_try.
  destruct (Z.ltb_spec (size audio_data) 1000) as [_ | Hge]; [| lia].
  rewrite orb_true_r. eauto.
Qed.

Lemma transcribe_try_long runtime audio_data mime :
  1000 <= size audio_data ->
  snd (transcribe_try runtime audio_data mime)
  = [ {| req_mime_type := mime; req_audio := audio_data |} ].
Proof.
  intros Hlong. unfold transcribe_try.
  destruct (Z.eqb_spec (size audio_data) 0) as [Hz | _]; [lia |].
  destruct (Z.ltb_spec (size audio_data) 1000) as [Hlt | _]; [lia |].
  reflexivity.
Qed.

(** C6.  For every audio input of fewer than 1000 bytes,
    [transcribe_audio_bytes] returns a result with status "failed", empty
    transcribed text and word count 0, and makes no call to the runtime,
    whatever the runtime would have answered; from 1000 bytes on it makes
    exactly one call, carrying the audio.  So 999 bytes fail without a call
    and 1001 bytes attempt it. *)
Theorem transcribe_size_gate (runtime : Runtime) (audio_data : list Byte.byte) (mime : string) :
  (size audio_data < 1000 ->
   let '(result, calls) := transcribe_audio_bytes runtime audio_data mime in
   status result = "failed" /\ transcribed_text result = "" /\ word_count result = 0
   /\ calls = [])
  /\
  (1000 <= size audio_data ->
   snd (transcribe_audio_bytes runtime audio_data mime)
   = [ {| req_mime_type := mime; req_audio := audio_data |} ]).
Proof.
  split.
  - intros Hsmall.
    destruct (transcribe_try_short runtime audio_data mime Hsmall) as [e He].
    unfold transcribe_audio_bytes. rewrite He. cbn. auto.
  - intros Hlong.
    pose proof (transcribe_try_long runtime audio_data mime Hlong) as Hcalls.
    unfold transcribe_audio_bytes.
    destruct (transcribe_try runtime audio_data mime) as [tried calls].
    exact Hcalls.
Qed.

End TranscriptionGate.

(** The gate at 999 and at 1001 bytes, with a runtime that would answer. *)
Lemma transcribe_size_gate_witness :
  (let '(result, calls) :=
     Transcription.transcribe_audio_bytes
       (fun _ => Returned (Samples.reply_events "I led the team.")) (Samples.silence 999)
       "audio/wav" in
   Transcription.status result = "failed" /\ Transcription.transcribed_text result = ""
   /\ Transcription.word_count result = 0 /\ calls = [])
  /\
  snd (Transcription.transcribe_audio_bytes
         (fun _ => Returned (Samples.reply_events "I led the team.")) (Samples.silence 1001)
         "audio/wav")
  = [ {| Transcription.req_mime_type := "audio/wav";
         Transcription.req_audio := Samples.silence 1001 |} ].
Proof.
  split.
  - apply (transcribe_size_gate _ (Samples.silence 999) "audio/wav"). vm_compute. reflexivity.
  - apply (transcribe_size_gate _ (Samples.silence 1001) "audio/wav"). vm_compute. discriminate.
Defined.

(** ** The speech coach: the size gate and the fallback *)

Section SpeechCoachGate.
Import SpeechCoach.

Lemma analyze_try_short self runtime audio_data mime ctx :
  size audio_data < 1000 ->
  analyze_try self runtime audio_data mime ctx
  = (Raised (ValueError (too_small audio_data)), []).
Proof.
  intros Hsmall. unfold analyze_try.
  destruct (Z.ltb_spec (size audio_data) 1000) as [_ | Hge]; [| lia].
  rewrite orb_true_r. reflexivity.
Qed.

(** C5, as the code has it.  For every audio input of fewer than 1000
    bytes, the ValueError of the size gate is raised inside the [try] of
    [analyze_speech_delivery] and caught by its own handler: the caller is
    returned the fallback analysis (overall score 5) whose audio metadata
    carries the message of the ValueError, no exception reaches the caller,
    and no call is made to the runtime. *)
Theorem short_audio_returns_fallback (self : Agent) (runtime : Runtime)
    (audio_data : list Byte.byte) (mime : string) (ctx : option Context) :
  size audio_data < 1000 ->
  exists analysis,
    analyze_speech_delivery self runtime audio_data mime ctx = (Returned analysis, [])
    /\ analysis = _generate_fallback_analysis self audio_data (too_small audio_data) ctx
    /\ overall_score analysis = 5
    /\ (meta_error <$> audio_metadata analysis) = Some (Some (too_small audio_data)).
Proof.
  intros Hsmall. eexists. split; [| split; [reflexivity | split; reflexivity]].
  unfold analyze_speech_delivery.
  rewrite (analyze_try_short self runtime audio_data mime ctx Hsmall).
  reflexivity.
Qed.

End SpeechCoachGate.

(** The gate at 500 bytes. *)
Lemma short_audio_returns_fallback_witness :
  exists analysis,
    SpeechCoach.analyze_speech_delivery Samples.speech_agent
      (fun _ => Returned (Samples.reply_events "Overall Delivery Score: 7/10"))
      (Samples.silence 500) "audio/wav" None = (Returned analysis, [])
    /\ analysis = SpeechCoach._generate_fallback_analysis Samples.speech_agent
                    (Samples.silence 500)
                    (SpeechCoach.too_small (Samples.silence 500)) None
    /\ SpeechCoach.overall_score analysis = 5
    /\ (SpeechCoach.meta_error <$> SpeechCoach.audio_metadata analysis)
       = Some (Some (SpeechCoach.too_small (Samples.silence 500))).
Proof.
  apply (short_audio_returns_fallback Samples.speech_agent _ (Samples.silence 500)
           "audio/wav" None).
  vm_compute. reflexivity.
Defined.

(** C5, as stated, fails: on 500 bytes of audio the call returns (the
    fallback analysis); it does not raise the ValueError. *)
Lemma short_audio_does_not_raise :
  (SpeechCoach.size (Samples.silence 500) <? 1000) = true
  /\ fst (SpeechCoach.analyze_speech_delivery Samples.speech_agent
            (fun _ => Returned (Samples.reply_events "Overall Delivery Score: 7/10"))
            (Samples.silence 500) "audio/wav" None)
     = Returned (SpeechCoach._generate_fallback_analysis Samples.speech_agent
                   (Samples.silence 500) "Audio data too small: 500 bytes" None).
Proof. split; vm_compute; reflexivity. Qed.

(** ** The workflow *)

Section Conversions.

Lemma int_to_float_fits z :
  fits_float z = true -> int_to_float z = Returned (float_of_Z z).
Proof. intros H. unfold int_to_float. rewrite H. reflexivity. Qed.

Lemma int_to_float_overflow z :
  fits_float z = false -> exists e, int_to_float z = Raised e.
Proof. intros H. unfold int_to_float. rewrite H. eauto. Qed.

(** The fallback delivery score converts. *)
Lemma five_fits : fits_float 5 = true.
Proof. vm_compute. reflexivity. Qed.

(** Every score of the 0 to 10 scale converts. *)
Lemma scale_fits z : 0 <= z <= 10 -> fits_float z = true.
Proof.
  intros H. unfold fits_float. apply Z.ltb_lt.
  assert (Hbig : 10 < float_overflow) by (vm_compute; reflexivity).
  lia.
Qed.

End Conversions.

Section WorkflowFallbacks.
Import Workflow.

Variable env : Collaborators.
Variable self : Agent.

Lemma fallback_synthesis_fits content delivery workflow_id :
  fits_float (Content.score content) = true ->
  fits_float (SpeechCoach.overall_score delivery) = true ->
  exists s,
    _generate_fallback_synthesis self content delivery workflow_id = Returned s
    /\ Synthesis.overall_score s
       = Float (float_of_Z (Content.score content) * 0.6
                + float_of_Z (SpeechCoach.overall_score delivery) * 0.4)%float
    /\ Synthesis.combined_strengths s
       = (firstn 2 (Content.strengths content)
          ++ firstn 1 (SpeechCoach.strengths delivery))%list
    /\ Synthesis.priority_improvements s
       = (firstn 2 (Content.improvements content)
          ++ firstn 1 (SpeechCoach.improvements delivery))%list.
Proof.
  intros Hc Hd. unfold _generate_fallback_synthesis.
  rewrite (int_to_float_fits _ Hc), (int_to_float_fits _ Hd).
  eexists. split; [reflexivity |]. repeat split.
Qed.

Lemma synthesis_returns_on_reply content delivery question workflow_id events :
  run_synthesis env {| req_content := content; req_delivery := delivery;
                       req_question := question |} = Returned events ->
  exists s, _synthesize_evaluations env self content delivery question workflow_id = Returned s.
Proof. intros H. unfold _synthesize_evaluations. rewrite H. eauto. Qed.

Lemma synthesis_returns_when_fits content delivery question workflow_id :
  fits_float (Content.score content) = true ->
  fits_float (SpeechCoach.overall_score delivery) = true ->
  exists s, _synthesize_evaluations env self content delivery question workflow_id = Returned s.
Proof.
  intros Hc Hd. unfold _synthesize_evaluations.
  destruct (run_synthesis env _) as [events | e]; [eauto |].
  destruct (fallback_synthesis_fits content delivery workflow_id Hc Hd) as [s [Hs _]].
  eauto.
Qed.

End WorkflowFallbacks.

(** C3.  Whenever the synthesis call raises, [_synthesize_evaluations]
    returns the fallback synthesis: its overall score is exactly
    [content_score * 0.6 + delivery_score * 0.4] (the two int scores
    converted to float, which every score within the float range allows),
    its combined strengths are the first two strengths of the content
    analysis followed by the first strength of the delivery analysis, and
    its priority improvements are the first two content improvements followed
    by the first delivery improvement. *)
Theorem fallback_synthesis_on_failure (env : Workflow.Collaborators) (self : Workflow.Agent)
    (content : Workflow.Content.t) (delivery : SpeechCoach.DeliveryAnalysis)
    (question : Interview.Question) (workflow_id : string) (e : exception) :
  Workflow.run_synthesis env
    {| Workflow.req_content := content; Workflow.req_delivery := delivery;
       Workflow.req_question := question |} = Raised e ->
  fits_float (Workflow.Content.score content) = true ->
  fits_float (SpeechCoach.overall_score delivery) = true ->
  exists s,
    Workflow._synthesize_evaluations env self content delivery question workflow_id = Returned s
    /\ Workflow.Synthesis.overall_score s
       = Float (float_of_Z (Workflow.Content.score content) * 0.6
                + float_of_Z (SpeechCoach.overall_score delivery) * 0.4)%float
    /\ Workflow.Synthesis.combined_strengths s
       = (firstn 2 (Workflow.Content.strengths content)
          ++ firstn 1 (SpeechCoach.strengths delivery))%list
    /\ Workflow.Synthesis.priority_improvements s
       = (firstn 2 (Workflow.Content.improvements content)
          ++ firstn 1 (SpeechCoach.improvements delivery))%list
    /\ (forall c1 c2 cs d1 ds,
          Workflow.Content.strengths content = c1 :: c2 :: cs ->
          SpeechCoach.strengths delivery = d1 :: ds ->
          Workflow.Synthesis.combined_strengths s = [c1; c2; d1])
    /\ (forall c1 c2 cs d1 ds,
          Workflow.Content.improvements content = c1 :: c2 :: cs ->
          SpeechCoach.improvements delivery = d1 :: ds ->
          Workflow.Synthesis.priority_improvements s = [c1; c2; d1]).
Proof.
  intros Hraise Hc Hd.
  destruct (fallback_synthesis_fits self content delivery workflow_id Hc Hd)
    as [s [Hs [Hscore [Hstr Himp]]]].
  exists s. unfold Workflow._synthesize_evaluations. rewrite Hraise.
  repeat split; try assumption.
  - intros c1 c2 cs d1 ds Hcs Hds. rewrite Hstr, Hcs, Hds. reflexivity.
  - intros c1 c2 cs d1 ds Hcs Hds. rewrite Himp, Hcs, Hds. reflexivity.
Qed.

(** The fallback at content score 8 and delivery score 4. *)
Lemma fallback_synthesis_on_failure_witness :
  exists s,
    Workflow._synthesize_evaluations (Samples.degraded 8 (Raised Samples.unavailable))
      Samples.workflow_agent (Samples.content 8) (Samples.delivery 4) Samples.question "wf-1"
    = Returned s
    /\ Workflow.Synthesis.overall_score s = Float (8 * 0.6 + 4 * 0.4)%float
    /\ Workflow.Synthesis.combined_strengths s = ["Structure"; "Detail"; "Steady pace"]
    /\ Workflow.Synthesis.priority_improvements s = ["Be briefer"; "Quantify"; "Fewer fillers"].
Proof.
  destruct (fallback_synthesis_on_failure
              (Samples.degraded 8 (Raised Samples.unavailable))
              Samples.workflow_agent (Samples.content 8) (Samples.delivery 4)
              Samples.question "wf-1" Samples.unavailable)
    as [s [Hs [Hscore [_ [_ [Hstr Himp]]]]]];
    [reflexivity | vm_compute; reflexivity | vm_compute; reflexivity |].
  exists s. split; [exact Hs |]. split; [exact Hscore |]. split.
  - exact (Hstr _ _ _ _ _ eq_refl eq_refl).
  - exact (Himp _ _ _ _ _ eq_refl eq_refl).
Defined.

Section Orchestrator.
Import Workflow.

Variable env : Collaborators.
Variable self : Agent.
Variable metrics : gmap string Z.
Variable workflow_id : string.
Variable question : Interview.Question.

Lemma completed_content_failed content delivery :
  Content.status content <> Some "success" ->
  fst (completed env self metrics workflow_id question (content, delivery))
  = _generate_error_result self workflow_id "content_analysis" (str_dict env content).
Proof.
  intros Hstatus. unfold completed.
  rewrite (bool_decide_eq_false_2 _ Hstatus). rewrite orb_true_r. reflexivity.
Qed.

Lemma completed_compiles content delivery s :
  Content.status content = Some "success" ->
  (SpeechCoach.overall_score delivery <? 0) = false ->
  _synthesize_evaluations env self content delivery question workflow_id = Returned s ->
  fst (completed env self metrics workflow_id question (content, delivery))
  = _compile_enhanced_result self workflow_id content delivery s question.
Proof.
  intros Hstatus Hscore Hs. unfold completed.
  rewrite (bool_decide_eq_true_2 _ Hstatus).
  replace (Content.is_empty content) with false
    by (unfold Content.is_empty; rewrite Hstatus; reflexivity).
  cbn [orb negb]. rewrite Hscore, Hs. reflexivity.
Qed.

Lemma completed_negative_score content delivery s :
  Content.status content = Some "success" ->
  (SpeechCoach.overall_score delivery <? 0) = true ->
  _synthesize_evaluations env self content
    (_generate_fallback_delivery_analysis self None "") question workflow_id = Returned s ->
  fst (completed env self metrics workflow_id question (content, delivery))
  = _compile_enhanced_result self workflow_id content
      (_generate_fallback_delivery_analysis self None "") s question.
Proof.
  intros Hstatus Hscore Hs. unfold completed.
  rewrite (bool_decide_eq_true_2 _ Hstatus).
  replace (Content.is_empty content) with false
    by (unfold Content.is_empty; rewrite Hstatus; reflexivity).
  cbn [orb negb]. rewrite Hscore, Hs. reflexivity.
Qed.

(** With a content analysis that succeeded and a substituted fallback, the
    synthesis stage returns as soon as the content score converts. *)
Lemma completed_with_fallback content w err :
  Content.status content = Some "success" ->
  fits_float (Content.score content) = true ->
  exists s,
    fst (completed env self metrics workflow_id question
           (content, _generate_fallback_delivery_analysis self w err))
    = _compile_enhanced_result self workflow_id content
        (_generate_fallback_delivery_analysis self w err) s question.
Proof.
  intros Hstatus Hfits.
  destruct (synthesis_returns_when_fits env self content
              (_generate_fallback_delivery_analysis self w err) question workflow_id
              Hfits five_fits) as [s Hs].
  exists s. apply completed_compiles; [assumption | reflexivity | assumption].
Qed.

Lemma content_score_of content ev :
  Content.evaluation content = Some ev -> Content.score content = Competency.score ev.
Proof. intros H. unfold Content.score. rewrite H. reflexivity. Qed.

(** The content branch reports a failure whenever a collaborator of it
    fails. *)
Lemma analyze_content_failed audio_data mime :
  (exists e, transcribe_audio_bytes env audio_data mime = Raised e)
  \/ (exists tr, transcribe_audio_bytes env audio_data mime = Returned tr
                 /\ Transcription.status tr <> "success")
  \/ (exists tr e, transcribe_audio_bytes env audio_data mime = Returned tr
                   /\ evaluate_answer env question (Transcription.transcribed_text tr) = Raised e) ->
  Content.status (_analyze_content env audio_data mime question workflow_id) = Some "failed".
Proof.
  unfold _analyze_content.
  intros [[e He] | [[tr [Htr Hstatus]] | [tr [e [Htr He]]]]].
  - rewrite He. reflexivity.
  - rewrite Htr. apply String.eqb_neq in Hstatus. rewrite Hstatus. reflexivity.
  - rewrite Htr. destruct (String.eqb _ "success"); [| reflexivity].
    cbn [negb]. rewrite He. reflexivity.
Qed.

Lemma analyze_content_succeeded audio_data mime tr ev :
  transcribe_audio_bytes env audio_data mime = Returned tr ->
  Transcription.status tr = "success" ->
  evaluate_answer env question (Transcription.transcribed_text tr) = Returned ev ->
  let content := _analyze_content env audio_data mime question workflow_id in
  Content.status content = Some "success" /\ Content.evaluation content = Some ev.
Proof.
  intros Htr Hstatus Hev. unfold _analyze_content.
  rewrite Htr, Hstatus. cbn. rewrite Hev. split; reflexivity.
Qed.

End Orchestrator.

Section OrchestratorClaims.
Import Workflow.

Variable env : Collaborators.
Variable self : Agent.
Variable metrics : gmap string Z.
Variable workflow_id : string.
Variable question : Interview.Question.

(** The content analysis of the compiled result, read off the evaluation. *)
Lemma content_summary_of content ev :
  Content.evaluation content = Some ev ->
  cs_score (content_summary content) = Competency.score ev
  /\ cs_assessment (content_summary content) = Competency.overall_assessment ev
  /\ cs_strengths (content_summary content) = Competency.strengths ev
  /\ cs_improvements (content_summary content) = Competency.improvements ev
  /\ cs_star_analysis (content_summary content) = Some (Competency.star_analysis ev).
Proof.
  intros H.
  unfold content_summary, Content.score, Content.overall_assessment, Content.strengths,
    Content.improvements.
  cbn. rewrite H. cbn. repeat split.
Qed.

Lemma speech_raised audio_data mime e :
  analyze_speech_delivery env audio_data mime (Some (delivery_context question workflow_id))
  = Raised e ->
  _analyze_delivery env self audio_data mime question workflow_id
  = _generate_fallback_delivery_analysis self (Some workflow_id) (str_exc e).
Proof. intros H. unfold _analyze_delivery. cbn zeta. rewrite H. reflexivity. Qed.

(** C1.  The orchestrator is robust to a failing branch, on every score of
    the content evaluation that converts to a float (every score of the
    0 to 10 scale does).
    - If the delivery branch raises while the content branch succeeds, be it
      the task handed to [gather] or the speech coach inside
      [_analyze_delivery], the result has status "success", a content
      analysis populated from the evaluation, and the substituted fallback as
      its delivery analysis.
    - If the content branch raises or reports a failure, the result has
      status "failed" and score 0 whatever the delivery branch did.
    - In each case a result is returned: the function is total, its
      catch-all handler turns an exception of a stage into an error result. *)
Theorem orchestrator_robustness :
  (forall content ev e,
      Content.status content = Some "success" ->
      Content.evaluation content = Some ev ->
      fits_float (Competency.score ev) = true ->
      let r := fst (completed env self metrics workflow_id question
                      (gathered self (Returned content) (Raised e))) in
      Final.status r = "success"
      /\ Final.content_analysis r = Some (content_summary content)
      /\ cs_score (content_summary content) = Competency.score ev
      /\ cs_strengths (content_summary content) = Competency.strengths ev
      /\ Final.delivery_analysis r
         = Some (delivery_summary (_generate_fallback_delivery_analysis self None "")))
  /\
  (forall audio_data mime tr ev e,
      transcribe_audio_bytes env audio_data mime = Returned tr ->
      Transcription.status tr = "success" ->
      evaluate_answer env question (Transcription.transcribed_text tr) = Returned ev ->
      fits_float (Competency.score ev) = true ->
      analyze_speech_delivery env audio_data mime
        (Some (delivery_context question workflow_id)) = Raised e ->
      let r := fst (process_voice_question_response env self metrics workflow_id question
                      audio_data mime) in
      Final.status r = "success"
      /\ (exists cs, Final.content_analysis r = Some cs
                     /\ cs_score cs = Competency.score ev
                     /\ cs_assessment cs = Competency.overall_assessment ev
                     /\ cs_strengths cs = Competency.strengths ev
                     /\ cs_improvements cs = Competency.improvements ev
                     /\ cs_star_analysis cs = Some (Competency.star_analysis ev))
      /\ Final.delivery_analysis r
         = Some (delivery_summary
                   (_generate_fallback_delivery_analysis self (Some workflow_id) (str_exc e))))
  /\
  (forall content_task delivery_task,
      (exists e, content_task = Raised e)
      \/ (exists content, content_task = Returned content
                          /\ Content.status content <> Some "success") ->
      let r := fst (completed env self metrics workflow_id question
                      (gathered self content_task delivery_task)) in
      Final.status r = "failed" /\ Final.score r = Int 0)
  /\
  (forall audio_data mime,
      (exists e, transcribe_audio_bytes env audio_data mime = Raised e)
      \/ (exists tr, transcribe_audio_bytes env audio_data mime = Returned tr
                     /\ Transcription.status tr <> "success")
      \/ (exists tr e, transcribe_audio_bytes env audio_data mime = Returned tr
                       /\ evaluate_answer env question (Transcription.transcribed_text tr)
                          = Raised e) ->
      let r := fst (process_voice_question_response env self metrics workflow_id question
                      audio_data mime) in
      Final.status r = "failed" /\ Final.score r = Int 0).
Proof.
  repeat apply conj.
  - intros content ev e Hstatus Hev Hfits r.
    rewrite <- (content_score_of content ev Hev) in Hfits.
    destruct (completed_with_fallback env self metrics workflow_id question content None ""
                Hstatus Hfits) as [s Hs].
    destruct (content_summary_of content ev Hev) as [Hsc [_ [Hst _]]].
    subst r. unfold gathered. rewrite Hs. cbn. auto.
  - intros audio_data mime tr ev e Htr Hstatus Hev Hfits Hraise r.
    destruct (analyze_content_succeeded env workflow_id question audio_data mime tr ev
                Htr Hstatus Hev) as [Hok Heval].
    rewrite <- (content_score_of _ ev Heval) in Hfits.
    destruct (completed_with_fallback env self metrics workflow_id question _
                (Some workflow_id) (str_exc e) Hok Hfits) as [s Hs].
    subst r. unfold process_voice_question_response, _run_parallel_analysis, gathered.
    rewrite (speech_raised audio_data mime e Hraise), Hs. cbn.
    split; [reflexivity |]. split; [| reflexivity].
    eexists. split; [reflexivity |]. apply content_summary_of. exact Heval.
  - intros content_task delivery_task Hfail r. subst r. unfold gathered.
    destruct Hfail as [[e ->] | [content [-> Hstatus]]].
    + rewrite completed_content_failed by (cbn; discriminate). split; reflexivity.
    + rewrite completed_content_failed by assumption. split; reflexivity.
  - intros audio_data mime Hfail r. subst r.
    pose proof (analyze_content_failed env workflow_id question audio_data mime Hfail) as Hst.
    unfold process_voice_question_response, _run_parallel_analysis, gathered.
    rewrite completed_content_failed by (rewrite Hst; discriminate). split; reflexivity.
Qed.

(** C10.  The orchestrator's own fallback delivery object has overall score
    5 and an empty [detailed_scores]; wherever the orchestrator substitutes
    it (the delivery task raised, the delivery score was negative, or the
    speech coach raised inside [_analyze_delivery]) the delivery analysis of
    the compiled result has score 5 and no per-axis score.  The speech
    coach's own fallback has overall score 5 and exactly the six axes, each
    with score 5. *)
Theorem orchestrator_fallback_has_no_axis_scores :
  (forall w err,
      SpeechCoach.overall_score (_generate_fallback_delivery_analysis self w err) = 5
      /\ SpeechCoach.detailed_scores (_generate_fallback_delivery_analysis self w err) = ∅)
  /\
  (forall content delivery_task,
      Content.status content = Some "success" ->
      fits_float (Content.score content) = true ->
      (exists e, delivery_task = Raised e)
      \/ (exists d, delivery_task = Returned d /\ SpeechCoach.overall_score d < 0) ->
      let r := fst (completed env self metrics workflow_id question
                      (gathered self (Returned content) delivery_task)) in
      Final.status r = "success"
      /\ exists ds, Final.delivery_analysis r = Some ds
                    /\ ds_score ds = 5 /\ ds_detailed_scores ds = ∅)
  /\
  (forall audio_data mime tr ev e,
      transcribe_audio_bytes env audio_data mime = Returned tr ->
      Transcription.status tr = "success" ->
      evaluate_answer env question (Transcription.transcribed_text tr) = Returned ev ->
      fits_float (Competency.score ev) = true ->
      analyze_speech_delivery env audio_data mime
        (Some (delivery_context question workflow_id)) = Raised e ->
      let r := fst (process_voice_question_response env self metrics workflow_id question
                      audio_data mime) in
      Final.status r = "success"
      /\ exists ds, Final.delivery_analysis r = Some ds
                    /\ ds_score ds = 5 /\ ds_detailed_scores ds = ∅)
  /\
  (forall coach audio_data error_msg ctx,
      let fallback := SpeechCoach._generate_fallback_analysis coach audio_data error_msg ctx in
      SpeechCoach.overall_score fallback = 5
      /\ dom (SpeechCoach.detailed_scores fallback)
         = list_to_set [ "pace_rhythm"; "clarity_articulation"; "confidence_authority";
                         "professional_tone"; "energy_engagement"; "speech_patterns" ]
      /\ forall axis a, SpeechCoach.detailed_scores fallback !! axis = Some a ->
                        SpeechCoach.score a = 5).
Proof.
  repeat apply conj.
  - intros w err. split; reflexivity.
  - intros content delivery_task Hstatus Hfits Hsub r. subst r. unfold gathered.
    destruct Hsub as [[e ->] | [d [-> Hneg]]].
    + destruct (completed_with_fallback env self metrics workflow_id question content None ""
                  Hstatus Hfits) as [s Hs].
      rewrite Hs. cbn. eauto.
    + destruct (synthesis_returns_when_fits env self content
                  (_generate_fallback_delivery_analysis self None "") question workflow_id
                  Hfits five_fits) as [s Hs].
      rewrite (completed_negative_score env self metrics workflow_id question content d s
                 Hstatus (proj2 (Z.ltb_lt _ _) Hneg) Hs).
      cbn. eauto.
  - intros audio_data mime tr ev e Htr Hstatus Hev Hfits Hraise r.
    destruct (analyze_content_succeeded env workflow_id question audio_data mime tr ev
                Htr Hstatus Hev) as [Hok Heval].
    rewrite <- (content_score_of _ ev Heval) in Hfits.
    destruct (completed_with_fallback env self metrics workflow_id question _
                (Some workflow_id) (str_exc e) Hok Hfits) as [s Hs].
    subst r. unfold process_voice_question_response, _run_parallel_analysis, gathered.
    rewrite (speech_raised audio_data mime e Hraise), Hs. cbn. eauto.
  - intros coach audio_data error_msg ctx fallback. subst fallback.
    split; [reflexivity |]. split.
    + cbn. vm_compute. reflexivity.
    + cbn [SpeechCoach.detailed_scores SpeechCoach._generate_fallback_analysis].
      intros axis a Hlookup.
      apply elem_of_list_to_map_2 in Hlookup.
      repeat (apply elem_of_cons in Hlookup; destruct Hlookup as [Heq | Hlookup];
              [inversion Heq; reflexivity |]).
      apply elem_of_nil in Hlookup. contradiction.
Qed.

End OrchestratorClaims.

(** A run in which the speech coach raises and the synthesis call fails as
    well, and one in which transcription is down. *)
Lemma orchestrator_robustness_witness :
  (let r := fst (Workflow.process_voice_question_response
                   (Samples.degraded 8 (Raised Samples.unavailable)) Samples.workflow_agent ∅
                   "wf-1" Samples.question (Samples.silence 2000) "audio/wav") in
   Workflow.Final.status r = "success"
   /\ (exists cs, Workflow.Final.content_analysis r = Some cs /\ Workflow.cs_score cs = 8)
   /\ Workflow.Final.delivery_analysis r
      = Some (Workflow.delivery_summary
                (Workflow._generate_fallback_delivery_analysis Samples.workflow_agent
                   (Some "wf-1") "service unavailable")))
  /\
  (let r := fst (Workflow.process_voice_question_response
                   (Samples.collaborators (Raised Samples.unavailable)
                      (Returned (Samples.evaluation 8)) (Returned (Samples.delivery 4))
                      (Returned (Samples.reply_events "Overall Interview Score: 7/10")))
                   Samples.workflow_agent ∅ "wf-1" Samples.question (Samples.silence 2000)
                   "audio/wav") in
   Workflow.Final.status r = "failed" /\ Workflow.Final.score r = Int 0).
Proof.
  split.
  - destruct (orchestrator_robustness (Samples.degraded 8 (Raised Samples.unavailable))
                Samples.workflow_agent ∅ "wf-1" Samples.question) as [_ [H _]].
    destruct (H (Samples.silence 2000) "audio/wav" Samples.transcript (Samples.evaluation 8)
                Samples.unavailable eq_refl eq_refl eq_refl) as [Hs [[cs [Hcs [Hsc _]]] Hd]];
      [vm_compute; reflexivity | reflexivity |].
    split; [exact Hs |]. split; [| exact Hd]. exists cs. split; [exact Hcs | exact Hsc].
  - destruct (orchestrator_robustness
                (Samples.collaborators (Raised Samples.unavailable)
                   (Returned (Samples.evaluation 8)) (Returned (Samples.delivery 4))
                   (Returned (Samples.reply_events "Overall Interview Score: 7/10")))
                Samples.workflow_agent ∅ "wf-1" Samples.question) as [_ [_ [_ H]]].
    apply (H (Samples.silence 2000) "audio/wav"). left. exists Samples.unavailable. reflexivity.
Defined.

(** C1, as stated for every invocation, fails past the float range.  The
    workflow runs its own agents.  Transcription succeeds; the evaluation
    model states a score of 10^400, which the competency agent reads as it
    stands, so the content branch succeeds; the speech call raises and the
    synthesis call raises.  The fallback synthesis multiplies the score by a
    float, which raises OverflowError, and the catch-all handler returns a
    failed result.  It is the same when the speech coach itself raises. *)
Lemma overflowing_score_fails_the_workflow :
  let env :=
    Samples.wired (Returned (Samples.reply_events "I traced the fault to a cache."))
      (Returned (Samples.reply_events Samples.huge_score_reply))
      (Raised Samples.unavailable) (Raised Samples.unavailable) in
  let content :=
    Workflow._analyze_content env (Samples.silence 2000) "audio/wav" Samples.question "wf-1" in
  let r := fst (Workflow.process_voice_question_response env Samples.workflow_agent ∅ "wf-1"
                  Samples.question (Samples.silence 2000) "audio/wav") in
  let r' := fst (Workflow.process_voice_question_response
                   (Samples.degraded (10 ^ 400) (Raised Samples.unavailable))
                   Samples.workflow_agent ∅ "wf-1" Samples.question (Samples.silence 2000)
                   "audio/wav") in
  Workflow.Content.status content = Some "success"
  /\ Workflow.Content.score content = 10 ^ 400
  /\ Workflow.Final.status r = "failed"
  /\ Workflow.Final.stage r = Some "workflow_error"
  /\ Workflow.Final.error r = Some "int too large to convert to float"
  /\ Workflow.Final.status r' = "failed".
Proof. vm_compute. repeat split. Qed.

(** The same run with a score of the scale compiles a result. *)
Lemma orchestrator_fallback_has_no_axis_scores_witness :
  let r := fst (Workflow.process_voice_question_response
                  (Samples.degraded 8 (Raised Samples.unavailable)) Samples.workflow_agent ∅
                  "wf-1" Samples.question (Samples.silence 2000) "audio/wav") in
  Workflow.Final.status r = "success"
  /\ exists ds, Workflow.Final.delivery_analysis r = Some ds
                /\ Workflow.ds_score ds = 5 /\ Workflow.ds_detailed_scores ds = ∅.
Proof.
  destruct (orchestrator_fallback_has_no_axis_scores
              (Samples.degraded 8 (Raised Samples.unavailable))
              Samples.workflow_agent ∅ "wf-1" Samples.question) as [_ [_ [H _]]].
  apply (H (Samples.silence 2000) "audio/wav" Samples.transcript (Samples.evaluation 8)
           Samples.unavailable eq_refl eq_refl eq_refl);
    [vm_compute; reflexivity | reflexivity].
Defined.

(** ** The weighting of the two scores *)

(** The score a reply states. *)

Section ReplyScore.

Lemma prefix_empty s : String.prefix "" s = true.
Proof. destruct s; reflexivity. Qed.

Lemma prefix_append (a b : string) : String.prefix a (a ++ b) = true.
Proof.
  induction a as [| c a IH]; [apply prefix_empty |].
  change (String c a ++ b) with (String c (a ++ b)). cbn [String.prefix].
  destruct (Ascii.ascii_dec c c) as [_ | Hne]; [exact IH | contradiction].
Qed.

Lemma drop_append (a b : string) : drop (String.length a) (a ++ b) = b.
Proof.
  induction a as [| c a IH]; [destruct b; reflexivity |].
  change (String c a ++ b) with (String c (a ++ b)). cbn [String.length drop]. exact IH.
Qed.

Lemma isdigit_not_space c : isdigit c = true -> isspace c = false.
Proof.
  intros H. destruct c as [[] [] [] [] [] [] [] []]; vm_compute in H |- *;
    first [reflexivity | discriminate].
Qed.

(** The digits at the head of a run of digits followed by something that
    is not a digit. *)
Lemma take_digits_append (digits rest : string) :
  forallb isdigit (list_ascii_of_string digits) = true ->
  take_digits rest = "" ->
  take_digits (digits ++ rest) = digits.
Proof.
  intros Hdigits Hrest. induction digits as [| c digits IH]; [exact Hrest |].
  change (String c digits ++ rest) with (String c (digits ++ rest)).
  cbn [list_ascii_of_string forallb] in Hdigits. apply andb_true_iff in Hdigits.
  destruct Hdigits as [Hc Hdigits]. cbn [take_digits]. rewrite Hc, (IH Hdigits). reflexivity.
Qed.

Lemma lstrip_digits (digits rest : string) :
  digits <> "" ->
  forallb isdigit (list_ascii_of_string digits) = true ->
  lstrip (String " " (digits ++ rest)) = (digits ++ rest).
Proof.
  intros Hsome Hdigits. cbn [lstrip].
  replace (isspace " ") with true by reflexivity.
  destruct digits as [| c digits]; [contradiction |].
  change (String c digits ++ rest) with (String c (digits ++ rest)).
  cbn [list_ascii_of_string forallb] in Hdigits. apply andb_true_iff in Hdigits.
  cbn [lstrip]. rewrite (isdigit_not_space c (proj1 Hdigits)). reflexivity.
Qed.

Lemma search_decimal_head (label s : string) (found : string * string) :
  String.prefix label s = true ->
  spaces_decimal (drop (String.length label) s) = Some found ->
  search_decimal label s = Some found.
Proof.
  intros Hprefix Hhead. destruct s as [| c s]; cbn [search_decimal];
    rewrite Hprefix, Hhead; reflexivity.
Qed.

Lemma stated_score_found (label whole rest : string) (found : string * string) :
  whole <> "" ->
  forallb isdigit (list_ascii_of_string whole) = true ->
  take_digits rest = "" ->
  found = match rest with
          | String "." after => (whole, take_digits after)
          | _ => (whole, "")
          end ->
  search_decimal label (label ++ String " " (whole ++ rest)) = Some found.
Proof.
  intros Hsome Hdigits Hrest ->.
  assert (spaces_decimal (String " " (whole ++ rest))
          = Some match rest with
                 | String "." after => (whole, take_digits after)
                 | _ => (whole, "")
                 end) as Hhead.
  { unfold spaces_decimal. rewrite (lstrip_digits whole rest Hsome Hdigits).
    rewrite (take_digits_append whole rest Hdigits Hrest).
    destruct (String.eqb_spec whole "") as [Hempty | _]; [contradiction |].
    rewrite drop_append.
    destruct rest as [| c after]; [reflexivity |].
    destruct c as [[] [] [] [] [] [] [] []]; reflexivity. }
  apply search_decimal_head; [apply prefix_append | rewrite drop_append; exact Hhead].
Qed.

End ReplyScore.

Section Weighting.

Lemma streamlined_weights_sum industry :
  (fst (Streamlined.weights industry) + snd (Streamlined.weights industry) = 1)%float
  /\ PrimFloat.leb 0 (fst (Streamlined.weights industry)) = true
  /\ PrimFloat.leb 0 (snd (Streamlined.weights industry)) = true.
Proof.
  unfold Streamlined.weights.
  repeat case_bool_decide; cbn [fst snd]; repeat split; reflexivity.
Qed.

(** C2, as the code has it.  The overall score is a convex combination of
    the two component scores exactly where the program computes it.
    - Every weight pair of the synthesis tool's table, its default and the
      three pairs of [_combine_evaluations] are non-negative and sum to 1.
    - [_combine_evaluations] weighs the content and delivery scores 0.7/0.3
      for technology, finance and healthcare, 0.4/0.6 for sales and
      marketing, and 0.6/0.4 for every other industry; it reports the sum as
      [weighted_overall] and the sum rounded to one decimal as the score,
      beside the two scores it combined.
    - The fallback synthesis weighs them 0.6/0.4 for every industry.
    - For technology, content score 8 and delivery score 4 combine to 6.8,
      in [_combine_evaluations] and in the synthesis tool alike.
    - A synthesis parsed from the model's reply keeps the two component
      scores but carries as overall score the number the reply states after
      "Overall Interview Score:", and the int 5 when it states none: the
      overall score is the same whatever the two analyses are.  A reply that
      holds the label, a blank and digits, with or without a fraction, is
      read as those digits. *)
Theorem weights_applied_where_computed :
  Forall (fun w : float * float =>
            (fst w + snd w = 1)%float
            /\ PrimFloat.leb 0 (fst w) = true /\ PrimFloat.leb 0 (snd w) = true)
         ((0.6, 0.4)%float :: map snd Workflow.industry_weights)
  /\
  (forall self content_eval delivery_eval,
      fits_float (Competency.score content_eval) = true ->
      fits_float (SpeechCoach.overall_score delivery_eval) = true ->
      let w := Streamlined.weights (default "technology" (Streamlined.industry self)) in
      let combined :=
        (float_of_Z (Competency.score content_eval) * fst w
         + float_of_Z (SpeechCoach.overall_score delivery_eval) * snd w)%float in
      (fst w + snd w = 1)%float
      /\ exists r,
           Streamlined._combine_evaluations self content_eval delivery_eval = Returned r
           /\ Streamlined.weighted_overall (Streamlined.enhanced_analysis r) = combined
           /\ Streamlined.score r = round1 combined)
  /\
  (forall self content delivery workflow_id,
      fits_float (Workflow.Content.score content) = true ->
      fits_float (SpeechCoach.overall_score delivery) = true ->
      (0.6 + 0.4 = 1)%float
      /\ exists s,
           Workflow._generate_fallback_synthesis self content delivery workflow_id = Returned s
           /\ Workflow.Synthesis.overall_score s
              = Float (float_of_Z (Workflow.Content.score content) * 0.6
                       + float_of_Z (SpeechCoach.overall_score delivery) * 0.4)%float)
  /\
  (forall self content_eval delivery_eval,
      default "technology" (Streamlined.industry self) = "technology" ->
      Competency.score content_eval = 8 ->
      SpeechCoach.overall_score delivery_eval = 4 ->
      (8 * 0.7 + 4 * 0.3 = 6.8)%float
      /\ exists r,
           Streamlined._combine_evaluations self content_eval delivery_eval = Returned r
           /\ Streamlined.weighted_overall (Streamlined.enhanced_analysis r) = 6.8%float
           /\ Streamlined.score r = 6.8%float)
  /\
  (forall self,
      Workflow.industry self = "technology" ->
      Workflow.weighted_score self 8 4 = 6.8%float)
  /\
  Forall (fun w : float * float =>
            (fst w + snd w = 1)%float
            /\ PrimFloat.leb 0 (fst w) = true /\ PrimFloat.leb 0 (snd w) = true)
         [(0.7, 0.3)%float; (0.4, 0.6)%float; (0.6, 0.4)%float]
  /\
  (forall self content_eval delivery_eval,
      fits_float (Competency.score content_eval) = true ->
      fits_float (SpeechCoach.overall_score delivery_eval) = true ->
      let industry := default "technology" (Streamlined.industry self) in
      let c := float_of_Z (Competency.score content_eval) in
      let d := float_of_Z (SpeechCoach.overall_score delivery_eval) in
      exists r,
        Streamlined._combine_evaluations self content_eval delivery_eval = Returned r
        /\ (industry ∈ ["technology"; "finance"; "healthcare"] ->
            Streamlined.weighted_overall (Streamlined.enhanced_analysis r)
            = (c * 0.7 + d * 0.3)%float)
        /\ (industry ∈ ["sales"; "marketing"] ->
            Streamlined.weighted_overall (Streamlined.enhanced_analysis r)
            = (c * 0.4 + d * 0.6)%float)
        /\ (industry ∉ ["technology"; "finance"; "healthcare"; "sales"; "marketing"] ->
            Streamlined.weighted_overall (Streamlined.enhanced_analysis r)
            = (c * 0.6 + d * 0.4)%float)
        /\ Streamlined.score r
           = round1 (Streamlined.weighted_overall (Streamlined.enhanced_analysis r))
        /\ Streamlined.content_score (Streamlined.enhanced_analysis r)
           = Competency.score content_eval
        /\ Streamlined.delivery_score (Streamlined.enhanced_analysis r)
           = SpeechCoach.overall_score delivery_eval)
  /\
  (forall env self content delivery question workflow_id events,
      Workflow.run_synthesis env
        {| Workflow.req_content := content; Workflow.req_delivery := delivery;
           Workflow.req_question := question |} = Returned events ->
      let reply := Workflow._extract_final_response events in
      exists s,
        Workflow._synthesize_evaluations env self content delivery question workflow_id
        = Returned s
        /\ Workflow.Synthesis.component_scores s
           = {| Workflow.content_score := Workflow.Content.score content;
                Workflow.delivery_score := SpeechCoach.overall_score delivery |}
        /\ (search_decimal "Overall Interview Score:" reply = None ->
            Workflow.Synthesis.overall_score s = Int 5)
        /\ (forall whole frac,
               search_decimal "Overall Interview Score:" reply = Some (whole, frac) ->
               Workflow.Synthesis.overall_score s = Float (float_of_decimal whole frac))
        /\ (forall content' delivery',
               Workflow.Synthesis.overall_score s
               = Workflow.Synthesis.overall_score
                   (Workflow._parse_synthesis_response self reply content' delivery')))
  /\
  (forall whole rest,
      whole <> "" ->
      forallb isdigit (list_ascii_of_string whole) = true ->
      take_digits rest = "" ->
      search_decimal "Overall Interview Score:"
        ("Overall Interview Score:" ++ String " " (whole ++ rest))
      = Some match rest with
             | String "." after => (whole, take_digits after)
             | _ => (whole, "")
             end).
Proof.
  assert (Hpairs : forall industry,
             let w := Streamlined.weights industry in
             (industry ∈ ["technology"; "finance"; "healthcare"] -> w = (0.7, 0.3)%float)
             /\ (industry ∈ ["sales"; "marketing"] -> w = (0.4, 0.6)%float)
             /\ (industry ∉ ["technology"; "finance"; "healthcare"; "sales"; "marketing"] ->
                 w = (0.6, 0.4)%float)).
  { intros industry. cbv zeta. unfold Streamlined.weights.
    repeat case_bool_decide; repeat apply conj; intros Hin; try reflexivity;
      exfalso; rewrite ?elem_of_cons, ?elem_of_nil in *; intuition congruence. }
  repeat apply conj.
  - repeat constructor.
  - intros self content_eval delivery_eval Hc Hd w combined. subst combined w.
    split; [apply streamlined_weights_sum |].
    unfold Streamlined._combine_evaluations. cbn zeta.
    destruct (Streamlined.weights _) as [w_content w_delivery].
    rewrite (int_to_float_fits _ Hc), (int_to_float_fits _ Hd).
    eexists. split; [reflexivity |]. split; reflexivity.
  - intros self content delivery workflow_id Hc Hd. split; [reflexivity |].
    destruct (fallback_synthesis_fits self content delivery workflow_id Hc Hd)
      as [s [Hs [Hscore _]]].
    exists s. split; assumption.
  - intros self content_eval delivery_eval Hind Hc Hd. split; [reflexivity |].
    unfold Streamlined._combine_evaluations. rewrite Hind, Hc, Hd.
    eexists. split; [reflexivity |]. split; reflexivity.
  - intros self Hind. unfold Workflow.weighted_score. rewrite Hind. reflexivity.
  - repeat constructor.
  - intros self content_eval delivery_eval Hc Hd industry c d.
    destruct (Hpairs industry) as [Hfirst [Hsecond Hother]]. cbv zeta in *.
    unfold Streamlined._combine_evaluations. cbn zeta. fold industry.
    destruct (Streamlined.weights industry) as [w_content w_delivery].
    rewrite (int_to_float_fits _ Hc), (int_to_float_fits _ Hd).
    eexists. split; [reflexivity |].
    cbn [Streamlined.enhanced_analysis Streamlined.weighted_overall Streamlined.score
         Streamlined.content_score Streamlined.delivery_score mbind outcome_bind Py.bind].
    repeat apply conj; try reflexivity.
    + intros Hin. specialize (Hfirst Hin). injection Hfirst as -> ->. reflexivity.
    + intros Hin. specialize (Hsecond Hin). injection Hsecond as -> ->. reflexivity.
    + intros Hin. specialize (Hother Hin). injection Hother as -> ->. reflexivity.
  - intros env self content delivery question workflow_id events Hrun reply.
    unfold Workflow._synthesize_evaluations. rewrite Hrun.
    eexists. split; [reflexivity |]. fold reply.
    cbn [Workflow.with_workflow_id Workflow._parse_synthesis_response
         Workflow.Synthesis.component_scores Workflow.Synthesis.overall_score].
    repeat apply conj.
    + reflexivity.
    + intros ->. reflexivity.
    + intros whole frac ->. reflexivity.
    + intros content' delivery'. reflexivity.
  - intros whole rest Hsome Hdigits Hrest.
    apply stated_score_found; [exact Hsome | exact Hdigits | exact Hrest | reflexivity].
Qed.

End Weighting.

(** The combination at content score 8 and delivery score 4, for
    technology, for sales and for education, and a parsed synthesis whose
    reply states 7.5. *)
Lemma weights_applied_where_computed_witness :
  (exists r,
      Streamlined._combine_evaluations {| Streamlined.industry := Some "technology" |}
        (Samples.evaluation 8) (Samples.delivery 4) = Returned r
      /\ Streamlined.weighted_overall (Streamlined.enhanced_analysis r) = 6.8%float
      /\ Streamlined.score r = 6.8%float)
  /\
  (exists r,
      Streamlined._combine_evaluations {| Streamlined.industry := Some "sales" |}
        (Samples.evaluation 8) (Samples.delivery 4) = Returned r
      /\ Streamlined.weighted_overall (Streamlined.enhanced_analysis r)
         = (8 * 0.4 + 4 * 0.6)%float)
  /\
  (exists s,
      Workflow._generate_fallback_synthesis Samples.workflow_agent (Samples.content 8)
        (Samples.delivery 4) "wf-1" = Returned s
      /\ Workflow.Synthesis.overall_score s = Float (8 * 0.6 + 4 * 0.4)%float)
  /\
  (exists r,
      Streamlined._combine_evaluations {| Streamlined.industry := Some "education" |}
        (Samples.evaluation 8) (Samples.delivery 4) = Returned r
      /\ Streamlined.weighted_overall (Streamlined.enhanced_analysis r)
         = (8 * 0.6 + 4 * 0.4)%float)
  /\
  (exists s,
      Workflow._synthesize_evaluations
        (Samples.degraded 2 (Returned (Samples.reply_events "Overall Interview Score: 7.5/10")))
        Samples.workflow_agent (Samples.content 2) (Samples.delivery 2) Samples.question "wf-1"
      = Returned s
      /\ Workflow.Synthesis.overall_score s = Float 7.5).
Proof.
  destruct weights_applied_where_computed
    as [_ [Hcombine [Hfallback [Htech [_ [_ [Hpairs [Hparsed Hread]]]]]]]].
  repeat apply conj.
  - apply (Htech {| Streamlined.industry := Some "technology" |} (Samples.evaluation 8)
             (Samples.delivery 4)); reflexivity.
  - destruct (Hcombine {| Streamlined.industry := Some "sales" |} (Samples.evaluation 8)
                (Samples.delivery 4)) as [_ [r [Hr [Hw _]]]];
      [vm_compute; reflexivity | vm_compute; reflexivity |].
    exists r. split; [exact Hr | exact Hw].
  - apply (Hfallback Samples.workflow_agent (Samples.content 8) (Samples.delivery 4) "wf-1");
      vm_compute; reflexivity.
  - destruct (Hpairs {| Streamlined.industry := Some "education" |} (Samples.evaluation 8)
                (Samples.delivery 4)) as [r [Hr [_ [_ [Hother _]]]]];
      [vm_compute; reflexivity | vm_compute; reflexivity |].
    exists r. split; [exact Hr |]. apply Hother.
    cbn [Streamlined.industry default]. rewrite !not_elem_of_cons.
    repeat split; try discriminate. apply not_elem_of_nil.
  - destruct (Hparsed
                (Samples.degraded 2
                   (Returned (Samples.reply_events "Overall Interview Score: 7.5/10")))
                Samples.workflow_agent (Samples.content 2) (Samples.delivery 2)
                Samples.question "wf-1"
                (Samples.reply_events "Overall Interview Score: 7.5/10") eq_refl)
      as [s [Hs [_ [_ [Hstated _]]]]].
    exists s. split; [exact Hs |].
    rewrite (Hstated "7" "5"); [vm_compute; reflexivity |].
    exact (Hread "7" ".5/10" ltac:(discriminate) eq_refl eq_refl).
Defined.

(** C2, as stated for every synthesized evaluation, fails on the parse
    path.  With content score 2 and delivery score 2 and a reply that states
    "Overall Interview Score: 9/10", the synthesis has overall score 9,
    which no weight pair of the program yields from 2 and 2. *)
Lemma parsed_synthesis_is_not_weighted :
  exists s,
    Workflow._synthesize_evaluations
      (Samples.degraded 2 (Returned (Samples.reply_events "Overall Interview Score: 9/10")))
      Samples.workflow_agent (Samples.content 2) (Samples.delivery 2) Samples.question "wf-1"
    = Returned s
    /\ Workflow.Synthesis.component_scores s
       = {| Workflow.content_score := 2; Workflow.delivery_score := 2 |}
    /\ Workflow.Synthesis.overall_score s = Float 9
    /\ Forall (fun w : float * float => PrimFloat.eqb (2 * fst w + 2 * snd w) 9 = false)
              ((0.6, 0.4)%float :: (0.7, 0.3)%float :: (0.4, 0.6)%float
               :: map snd Workflow.industry_weights).
Proof.
  eexists. split; [vm_compute; reflexivity |].
  split; [reflexivity |]. split; [reflexivity |]. repeat constructor.
Qed.

(** ** The competency agent: the range of the score *)

Section ScoreRange.

Lemma digit_value_nonneg c : isdigit c = true -> 0 <= digit_value c <= 9.
Proof.
  unfold isdigit, digit_value. intros H.
  apply andb_true_iff in H. destruct H as [Hlo Hhi].
  apply Nat.leb_le in Hlo. apply Nat.leb_le in Hhi. lia.
Qed.

Lemma digits_value_nonneg s : forall acc, 0 <= acc -> 0 <= digits_value acc (take_digits s).
Proof.
  induction s as [| c s IH]; intros acc Hacc; cbn [take_digits].
  - exact Hacc.
  - destruct (isdigit c) eqn:Hc; cbn [digits_value]; [| exact Hacc].
    apply IH. pose proof (digit_value_nonneg c Hc). lia.
Qed.

Lemma spaces_digits_run s digits :
  spaces_digits s = Some digits -> exists t, digits = take_digits t.
Proof.
  unfold spaces_digits. destruct (String.eqb _ ""); [discriminate |].
  intros H. injection H as <-. eauto.
Qed.

Lemma search_digits_run label s digits :
  search_digits label s = Some digits -> exists t, digits = take_digits t.
Proof.
  induction s as [| c s IH]; cbn [search_digits].
  - destruct (String.prefix label ""); [| discriminate].
    destruct (spaces_digits _) eqn:Hm; [| discriminate].
    intros H. injection H as <-. eapply spaces_digits_run. exact Hm.
  - destruct (String.prefix label (String c s)).
    + destruct (spaces_digits _) eqn:Hm.
      * intros H. injection H as <-. eapply spaces_digits_run. exact Hm.
      * exact IH.
    + exact IH.
Qed.

Lemma found_score_nonneg label s digits :
  search_digits label s = Some digits -> 0 <= int_of_digits digits.
Proof.
  intros H. destruct (search_digits_run label s digits H) as [t ->].
  apply digits_value_nonneg. lia.
Qed.

Lemma fallback_score_range self answer :
  5 <= Competency.score (Competency._generate_fallback_evaluation self answer) <= 8.
Proof.
  unfold Competency._generate_fallback_evaluation. cbn [Competency.score].
  repeat match goal with
         | |- context [if ?b then _ else _] => destruct b
         end; lia.
Qed.

Lemma parsed_score self response answer :
  Competency.score (Competency._parse_evaluation_response self response answer)
  = match search_digits "Score:" response with
    | Some digits =>
        match int_of_str (Competency.max_str_digits self) digits with
        | Returned n => n
        | Raised _ => 5
        end
    | None => 5
    end.
Proof.
  unfold Competency._parse_evaluation_response.
  destruct (search_digits "Score:" response) as [digits |]; [| reflexivity].
  destruct (int_of_str _ digits); reflexivity.
Qed.

Lemma int_of_str_value limit digits n :
  int_of_str limit digits = Returned n -> n = int_of_digits digits.
Proof.
  unfold int_of_str. destruct limit as [k |].
  - destruct (k <? _)%nat; [discriminate |]. intros H. injection H as <-. reflexivity.
  - intros H. injection H as <-. reflexivity.
Qed.

(** C4, as the code has it.  For every answer and every outcome of the
    model call, the score [evaluate_answer] returns is a non-negative
    integer.  When the call raises, the heuristic fallback gives a score
    from 5 to 8.  When it returns, the score is the integer written after
    the first "Score:" of the reply that is followed by digits, of any size,
    and 5 when there is none (or when [int] refuses the digits for their
    number). *)
Theorem evaluation_score_range (self : Competency.Agent) (runtime : Competency.Runtime)
    (question : Interview.Question) (answer : string) :
  let request := {| Competency.req_question := question; Competency.req_answer := answer |} in
  let score := Competency.score (Competency.evaluate_answer self runtime question answer) in
  0 <= score
  /\ (forall e, runtime request = Raised e -> 5 <= score <= 8)
  /\ (forall events,
        runtime request = Returned events ->
        search_digits "Score:" (Competency._extract_final_response events) = None ->
        score = 5)
  /\ (forall events digits,
        runtime request = Returned events ->
        search_digits "Score:" (Competency._extract_final_response events) = Some digits ->
        score = int_of_digits digits
        \/ (score = 5 /\ exists limit, Competency.max_str_digits self = Some limit
                                       /\ (limit < String.length digits)%nat)).
Proof.
  intros request score. subst score request. unfold Competency.evaluate_answer.
  destruct (runtime _) as [events | e].
  - rewrite parsed_score. repeat apply conj.
    + destruct (search_digits _ _) as [digits |] eqn:Hfound; [| lia].
      destruct (int_of_str _ digits) as [n |] eqn:Hn; [| lia].
      rewrite (int_of_str_value _ _ _ Hn). eapply found_score_nonneg. exact Hfound.
    + intros e He. discriminate.
    + intros events' He Hnone. injection He as <-. rewrite Hnone. reflexivity.
    + intros events' digits He Hsome. injection He as <-. rewrite Hsome.
      unfold int_of_str. destruct (Competency.max_str_digits self) as [limit |]; [| auto].
      destruct (Nat.ltb_spec limit (String.length digits)) as [Hover | _]; [| auto].
      right. split; [reflexivity |]. eauto.
  - pose proof (fallback_score_range self answer) as Hrange. repeat apply conj.
    + lia.
    + intros _ _. exact Hrange.
    + intros events He. discriminate.
    + intros events digits He. discriminate.
Qed.

End ScoreRange.

(** C4, as stated, fails on the parse path: the reply "Score: 15/10" is
    read as the score 15, above the range. *)
Lemma parsed_score_exceeds_ten :
  Competency.score
    (Competency.evaluate_answer Samples.competency_agent
       (fun _ => Returned (Samples.reply_events "Score: 15/10
Overall Assessment: Outstanding."))
       Samples.question "I traced the fault to a cache.") = 15.
Proof. vm_compute. reflexivity. Qed.

(** ** Transcription: validation *)

Section Validation.
Import Transcription.

(** The five fractions and their verdicts. *)
Lemma fifths (k : Z) :
  0 <= k <= 5 ->
  float_ge (quotient k 5) 0.6 = (3 <=? k)
  /\ (k = 5 -> quotient k 5 = 1%float)
  /\ (k = 2 -> quotient k 5 = 0.4%float).
Proof.
  intros Hk.
  assert (Hcases : k = 0 \/ k = 1 \/ k = 2 \/ k = 3 \/ k = 4 \/ k = 5) by lia.
  destruct Hcases as [-> | [-> | [-> | [-> | [-> | ->]]]]];
    (split; [reflexivity | split; intros H; try discriminate H; reflexivity]).
Qed.

Lemma count_true_checks c : 0 <= count_true (checks_list c) <= 5.
Proof. destruct c as [[] [] [] [] []]; vm_compute; split; discriminate. Qed.

(** More distinct words than a third of the words, for three words and more. *)
Lemma diversity_third (word_count distinct : Z) :
  3 <= word_count ->
  (Z.max 1 (word_count / 3) <? distinct) = (word_count <? 3 * distinct).
Proof.
  intros Hw.
  pose proof (Z.div_mod word_count 3 ltac:(lia)) as Hdiv.
  pose proof (Z.mod_pos_bound word_count 3 ltac:(lia)) as Hmod.
  destruct (Z.max_spec 1 (word_count / 3)) as [[Hmax ->] | [Hmax ->]];
    destruct (Z.ltb_spec (word_count / 3) distinct);
    destruct (Z.ltb_spec 1 distinct);
    destruct (Z.ltb_spec word_count (3 * distinct)); try reflexivity; exfalso; lia.
Qed.

(** C7, as the code has it.  For every transcript with a character that is
    not whitespace, and every audio metadata, validation evaluates five
    checks: at least 3 words; a length from 10 to 2000; one of the marks
    [.], [!], [?]; more distinct lower-cased words than
    [max(1, word_count // 3)]; an estimated duration above 1.0.  The
    confidence is the number of passed checks divided by 5, and the verdict
    is valid exactly when the confidence is at least 0.6, which is when at
    least 3 checks pass: 5 of 5 give confidence 1.0 and valid, 2 of 5 give
    0.4 and not valid.  From three words on, the diversity check is the
    comparison with one third of the word count.  A blank transcript
    returns confidence 0.0 and not valid, with the reason "Empty
    transcription" and without evaluating the checks. *)
Theorem validation_confidence (text : string) (info : AudioInfo) :
  let v := _validate_transcription text info in
  let word_count := Z.of_nat (length (split text)) in
  let passed :=
    count_true
      [ 3 <=? word_count;
        (10 <=? len text) && (len text <=? 2000);
        has_char "." text || has_char "!" text || has_char "?" text;
        Z.max 1 (word_count / 3) <? distinct_words text;
        float_gt (estimated_duration info) 1 ] in
  (strip text <> "" ->
   0 <= passed <= 5
   /\ confidence v = quotient passed 5
   /\ valid v = (3 <=? passed)
   /\ (passed = 5 -> confidence v = 1%float /\ valid v = true)
   /\ (passed = 2 -> confidence v = 0.4%float /\ valid v = false)
   /\ (3 <= word_count ->
       (Z.max 1 (word_count / 3) <? distinct_words text)
       = (word_count <? 3 * distinct_words text))
   /\ valid v = float_ge (confidence v) 0.6
   /\ checks v
      = Some {| min_words := 3 <=? word_count;
                reasonable_length := (10 <=? len text) && (len text <=? 2000);
                has_punctuation :=
                  has_char "." text || has_char "!" text || has_char "?" text;
                not_repetitive := Z.max 1 (word_count / 3) <? distinct_words text;
                duration_match := float_gt (estimated_duration info) 1 |}
   /\ reason v = None
   /\ checked_word_count v = Some word_count
   /\ checked_duration v = Some (estimated_duration info))
  /\
  (strip text = "" ->
   confidence v = 0%float
   /\ valid v = false
   /\ float_ge (confidence v) 0.6 = false
   /\ checks v = None
   /\ reason v = Some "Empty transcription"
   /\ checked_word_count v = None
   /\ checked_duration v = None).
Proof.
  intros v word_count passed. split.
  - intros Hblank. apply String.eqb_neq in Hblank.
    subst v. unfold _validate_transcription. rewrite Hblank.
    cbn [confidence valid checks reason checked_word_count checked_duration].
    set (c := {| min_words := _ |}).
    change passed with (count_true (checks_list c)).
    change (Z.of_nat (length (checks_list c))) with 5.
    pose proof (count_true_checks c) as Hrange.
    destruct (fifths (count_true (checks_list c)) Hrange) as [Hvalid [Hfive Htwo]].
    split; [exact Hrange |]. split; [reflexivity |]. split; [exact Hvalid |].
    split; [intros H; split; [apply Hfive; exact H | rewrite Hvalid, H; reflexivity] |].
    split; [intros H; split; [apply Htwo; exact H | rewrite Hvalid, H; reflexivity] |].
    split; [apply diversity_third |].
    repeat split.
  - intros Hblank. subst v. unfold _validate_transcription.
    rewrite Hblank. repeat split.
Qed.

End Validation.

(** A transcript that passes all five checks, one that passes two, and a
    blank one. *)
Lemma validation_confidence_witness :
  (let v := Transcription._validate_transcription "I led the migration of the billing service."
              (Samples.wav_info 5) in
   Transcription.confidence v = 1%float /\ Transcription.valid v = true)
  /\
  (let v := Transcription._validate_transcription "hello hello" (Samples.wav_info 5) in
   Transcription.confidence v = 0.4%float /\ Transcription.valid v = false)
  /\
  (let v := Transcription._validate_transcription "          " (Samples.wav_info 5) in
   Transcription.confidence v = 0%float /\ Transcription.valid v = false
   /\ Transcription.checks v = None).
Proof.
  pose proof (validation_confidence "I led the migration of the billing service."
                (Samples.wav_info 5)) as Hfull.
  pose proof (validation_confidence "hello hello" (Samples.wav_info 5)) as Hpair.
  pose proof (validation_confidence "          " (Samples.wav_info 5)) as Hblank.
  cbv zeta in Hfull, Hpair, Hblank.
  destruct Hfull as [Hfull _]. destruct Hpair as [Hpair _]. destruct Hblank as [_ Hblank].
  destruct Hfull as [_ [_ [_ [Hfive _]]]]; [vm_compute; discriminate |].
  destruct Hpair as [_ [_ [_ [_ [Htwo _]]]]]; [vm_compute; discriminate |].
  destruct (Hblank eq_refl) as [Hconfidence [Hvalid [_ [Hchecks _]]]].
  split; [apply Hfive; vm_compute; reflexivity |].
  split; [apply Htwo; vm_compute; reflexivity |].
  cbv zeta. repeat split; assumption.
Defined.

(** C7, as stated, fails on transcripts of one or two words and on blank
    ones.  For "hello hello" over five seconds of audio three of the stated
    checks pass (length, diversity: one distinct word is more than a third of
    two, duration), which would make the confidence 0.6 and the transcript
    valid; the code requires more than [max(1, 2 // 3) = 1] distinct words,
    counts two checks, and returns confidence 0.4 and not valid.  For ten
    blanks two stated checks pass; the code returns confidence 0.0 without
    evaluating any. *)
Lemma stated_checks_differ :
  Transcription.count_true (Spec.checks_stated "hello hello" (Samples.wav_info 5)) = 3
  /\ Spec.confidence_stated "hello hello" (Samples.wav_info 5) = 0.6%float
  /\ Spec.valid_stated "hello hello" (Samples.wav_info 5) = true
  /\ Transcription.confidence
       (Transcription._validate_transcription "hello hello" (Samples.wav_info 5)) = 0.4%float
  /\ Transcription.valid
       (Transcription._validate_transcription "hello hello" (Samples.wav_info 5)) = false
  /\ Spec.confidence_stated "          " (Samples.wav_info 5) = 0.4%float
  /\ Transcription.confidence
       (Transcription._validate_transcription "          " (Samples.wav_info 5)) = 0%float
  /\ Transcription.checks
       (Transcription._validate_transcription "          " (Samples.wav_info 5)) = None.
Proof. vm_compute. repeat split. Qed.

(** ** The interview manager: the progress summary *)

Section Progress.
Import InterviewManager.

Lemma fits_bound z : Spec.fits z <-> Z.abs z < float_overflow.
Proof. unfold Spec.fits, fits_float. apply Z.ltb_lt. Qed.

Lemma overflow_positive : 0 < float_overflow.
Proof. vm_compute. reflexivity. Qed.

Lemma fold_add_bound (K : Z) (l : list Z) :
  forall acc,
    Forall (fun x => Z.abs x < K) l ->
    Z.abs (fold_left Z.add l acc) <= Z.abs acc + (K - 1) * Z.of_nat (length l).
Proof.
  induction l as [| x l IH]; intros acc Hall; cbn [fold_left length].
  - lia.
  - inversion Hall as [| ? ? Hx Hl]; subst.
    specialize (IH (acc + x) Hl). lia.
Qed.

(** The average of scores within the float range is their rounded quotient. *)
Lemma average_returns (l : list Z) :
  l <> [] -> Forall Spec.fits l ->
  average l = Returned (quotient (sum l) (Z.of_nat (length l))).
Proof.
  intros Hne Hall. unfold average, int_truediv.
  assert (Hlen : 0 < Z.of_nat (length l)) by (destruct l; [congruence | cbn; lia]).
  destruct (Z.eqb_spec (Z.of_nat (length l)) 0) as [Hz | _]; [lia |].
  assert (Hbound : Z.abs (sum l) < float_overflow * Z.abs (Z.of_nat (length l))).
  { pose proof overflow_positive as Hpos.
    assert (Hall' : Forall (fun x => Z.abs x < float_overflow) l).
    { eapply Forall_impl; [exact Hall |]. intros x Hx. apply fits_bound. exact Hx. }
    pose proof (fold_add_bound float_overflow l 0 Hall') as Hsum.
    unfold sum. revert Hpos Hsum. generalize float_overflow. intros K Hpos Hsum. nia. }
  apply Z.ltb_lt in Hbound. rewrite Hbound. reflexivity.
Qed.

Lemma last_default (x : Z) (l : list Z) (d d' : Z) :
  List.last (x :: l) d = List.last (x :: l) d'.
Proof.
  revert x. induction l as [| y l IH]; intros x; [reflexivity |].
  change (List.last (y :: l) d = List.last (y :: l) d'). apply IH.
Qed.

Lemma last_in (x : Z) (l : list Z) (d : Z) : In (List.last (x :: l) d) (x :: l).
Proof.
  revert x. induction l as [| y l IH]; intros x; [left; reflexivity |].
  right. change (In (List.last (y :: l) d) (y :: l)). apply IH.
Qed.

Lemma round_returns st competency entries :
  Forall (fun e => Spec.fits (score e)) entries ->
  exists st',
    round st (competency, entries) = Returned st'
    /\ all_recent_scores st'
       = (all_recent_scores st ++ map Spec.latest (Spec.counted (map score entries)))%list
    /\ all_early_scores st'
       = (all_early_scores st ++ map Spec.earliest (Spec.counted (map score entries)))%list.
Proof.
  intros Hall. unfold round, Spec.counted.
  assert (Hscores : Forall Spec.fits (map score entries)).
  { apply Forall_map. exact Hall. }
  destruct (map score entries) as [| first others] eqn:Hmap.
  - exists st. rewrite filter_cons_False by (cbn; lia).
    rewrite filter_nil. cbn [map]. rewrite !app_nil_r. auto.
  - rewrite (average_returns (first :: others)) by (congruence || assumption).
    eexists. split; [reflexivity |]. cbn [all_recent_scores all_early_scores].
    destruct (Nat.leb_spec 2 (length (first :: others))) as [Htwo | Hone].
    + rewrite filter_cons_True by exact Htwo. rewrite filter_nil. cbn [map].
      unfold Spec.latest, Spec.earliest. cbn [hd].
      rewrite (last_default first others first 0). auto.
    + rewrite filter_cons_False by lia. rewrite filter_nil. cbn [map].
      rewrite !app_nil_r. auto.
Qed.

Lemma qualifying_cons item data :
  Spec.qualifying (item :: data)
  = (Spec.counted (map score (snd item)) ++ Spec.qualifying data)%list.
Proof.
  unfold Spec.qualifying, Spec.counted. cbn [map].
  rewrite filter_cons, (filter_cons _ _ []), filter_nil.
  case_decide; reflexivity.
Qed.

Lemma rounds_return data :
  forall st,
    Spec.all_fit data ->
    exists st',
      rounds st data = Returned st'
      /\ all_recent_scores st'
         = (all_recent_scores st ++ map Spec.latest (Spec.qualifying data))%list
      /\ all_early_scores st'
         = (all_early_scores st ++ map Spec.earliest (Spec.qualifying data))%list.
Proof.
  induction data as [| [competency entries] data IH]; intros st Hall.
  - exists st. cbn. rewrite !app_nil_r. auto.
  - inversion Hall as [| ? ? Hitem Hrest]; subst.
    destruct (round_returns st competency entries Hitem) as [st1 [Hround [Hrecent Hearly]]].
    destruct (IH st1 Hrest) as [st' [Hrounds [Hrecent' Hearly']]].
    exists st'. rewrite qualifying_cons, !map_app. cbn [snd rounds].
    rewrite Hround. split; [exact Hrounds |].
    rewrite Hrecent', Hrecent, Hearly', Hearly, <- !app_assoc. auto.
Qed.

(** The scores the trend reads are scores of the data. *)
Lemma qualifying_fit data :
  Spec.all_fit data ->
  Forall Spec.fits (map Spec.latest (Spec.qualifying data))
  /\ Forall Spec.fits (map Spec.earliest (Spec.qualifying data)).
Proof.
  intros Hall.
  assert (Hq : Forall (fun scores => (2 <= length scores)%nat /\ Forall Spec.fits scores)
                      (Spec.qualifying data)).
  { unfold Spec.qualifying. apply Forall_forall. intros scores Hin.
    apply list_elem_of_filter in Hin. destruct Hin as [Htwo Hin].
    split; [exact Htwo |].
    apply list_elem_of_fmap in Hin. destruct Hin as [item [-> Hitem]].
    apply Forall_map. unfold Spec.all_fit in Hall. rewrite Forall_forall in Hall.
    apply Hall. exact Hitem. }
  split; apply Forall_map; (eapply Forall_impl; [exact Hq |]);
    intros scores [Htwo Hfit]; cbn beta.
  - destruct scores as [| x l]; [cbn in Htwo; lia |].
    rewrite Forall_forall in Hfit. apply Hfit. apply list_elem_of_In, last_in.
  - destruct scores as [| x l]; [cbn in Htwo; lia |].
    inversion Hfit. assumption.
Qed.

Lemma trend_returns (q : list (list Z)) :
  Forall Spec.fits (map Spec.latest q) -> Forall Spec.fits (map Spec.earliest q) ->
  trend (map Spec.latest q) (map Spec.earliest q)
  = Returned
      match q with
      | [] => "no_data"
      | _ => let n := Z.of_nat (length q) in
             Spec.classify (quotient (sum (map Spec.latest q)) n)
                           (quotient (sum (map Spec.earliest q)) n)
      end.
Proof.
  intros Hrecent Hearly. destruct q as [| scores q]; [reflexivity |].
  unfold trend. cbn [map].
  change (Spec.latest scores :: map Spec.latest q) with (map Spec.latest (scores :: q)).
  change (Spec.earliest scores :: map Spec.earliest q) with (map Spec.earliest (scores :: q)).
  rewrite (average_returns (map Spec.latest (scores :: q))) by (cbn; congruence || assumption).
  rewrite (average_returns (map Spec.earliest (scores :: q))) by (cbn; congruence || assumption).
  rewrite !length_map. reflexivity.
Qed.

Lemma classify_data recent_avg early_avg : Spec.classify recent_avg early_avg <> "no_data".
Proof.
  unfold Spec.classify.
  destruct (float_gt _ _); [discriminate |]. destruct (PrimFloat.ltb _ _); discriminate.
Qed.

(** C8, as the code has it.  For every progress history whose scores are
    within the float range, the summary is returned and its overall trend is
    computed over the competencies with at least 2 attempts: the average of
    their most recent scores against the average of their first scores,
    "improving" when the recent average is above the early one plus 0.5,
    "declining" when it is below the early one minus 0.5, "stable"
    otherwise; it is "no_data" exactly when no competency has 2 attempts.
    A single competency scored 4, 5, 6, 8 has latest score 8, best score 8,
    improvement 4, and on its own makes the trend "improving". *)
Theorem progress_trend :
  (forall data,
      Spec.all_fit data ->
      exists s,
        get_progress_summary data = Returned s
        /\ overall_trend s = Spec.trend_of data
        /\ (overall_trend s = "no_data" <-> Spec.qualifying data = []))
  /\
  (exists s stats,
      get_progress_summary
        [("Problem Solving",
          [Samples.entry 4; Samples.entry 5; Samples.entry 6; Samples.entry 8])]
      = Returned s
      /\ competencies s !! "Problem Solving" = Some stats
      /\ attempts stats = 4 /\ latest_score stats = 8 /\ best_score stats = 8
      /\ improvement stats = 4
      /\ overall_trend s = "improving").
Proof.
  split.
  - intros data Hall. unfold get_progress_summary.
    destruct (rounds_return data
                {| summary_competencies := ∅; summary_total_attempts := 0;
                   all_recent_scores := []; all_early_scores := [] |} Hall)
      as [st [Hrounds [Hrecent Hearly]]].
    cbn [all_recent_scores all_early_scores app] in Hrecent, Hearly.
    destruct (qualifying_fit data Hall) as [Hfr Hfe].
    rewrite Hrounds. cbn. rewrite Hrecent, Hearly.
    rewrite (trend_returns (Spec.qualifying data) Hfr Hfe). cbn.
    eexists. split; [reflexivity |]. cbn [overall_trend]. unfold Spec.trend_of.
    destruct (Spec.qualifying data) as [| scores q].
    + split; [reflexivity | split; reflexivity].
    + split; [reflexivity |]. split; [| discriminate].
      intros H. exfalso. exact (classify_data _ _ H).
  - eexists. eexists. split; [vm_compute; reflexivity |].
    split; [vm_compute; reflexivity |]. repeat split.
Qed.

End Progress.

(** The trend of three competencies: two that moved from 4 to 8 and from 6 to
    7, and one with a single attempt. *)
Lemma progress_trend_witness :
  exists s,
    InterviewManager.get_progress_summary
      [ ("Problem Solving", [Samples.entry 4; Samples.entry 5; Samples.entry 8]);
        ("Leadership", [Samples.entry 3]);
        ("Teamwork", [Samples.entry 6; Samples.entry 7]) ] = Returned s
    /\ InterviewManager.overall_trend s = "improving".
Proof.
  destruct progress_trend as [H _].
  destruct (H [ ("Problem Solving", [Samples.entry 4; Samples.entry 5; Samples.entry 8]);
                ("Leadership", [Samples.entry 3]);
                ("Teamwork", [Samples.entry 6; Samples.entry 7]) ])
    as [s [Hs [Htrend _]]].
  - repeat constructor.
  - exists s. split; [exact Hs |]. rewrite Htrend. vm_compute. reflexivity.
Defined.

(** C8, as stated, fails where exactly one competency has two attempts or
    more: for the single competency scored 4, 5, 6, 8 fewer than 2
    competencies qualify, and the trend is "improving", not "no_data". *)
Lemma single_competency_has_a_trend :
  length (Spec.qualifying
            [("Problem Solving",
              [Samples.entry 4; Samples.entry 5; Samples.entry 6; Samples.entry 8])]) = 1%nat
  /\ exists s,
       InterviewManager.get_progress_summary
         [("Problem Solving",
           [Samples.entry 4; Samples.entry 5; Samples.entry 6; Samples.entry 8])]
       = Returned s
       /\ InterviewManager.overall_trend s = "improving".
Proof. split; [reflexivity |]. eexists. split; vm_compute; reflexivity. Qed.

(** ** The job analyzer: the selected competencies *)

Section Competencies.
Import JobAnalyzer.

Variable text : string.
Variable ai_analysis : AiAnalysis.

(** The Counter entry of a row of the keyword table, when it has one. *)
Let entry_of (row : string * list string) : option (string * Z) :=
  let score := competency_score (lower text) ai_analysis (snd row) in
  if 0 <? score then Some (fst row, score) else None.

Lemma tally_fold table :
  forall counter,
    fold_left (tally (lower text) ai_analysis) table counter
    = (counter ++ omap entry_of table)%list.
Proof.
  induction table as [| row table IH]; intros counter; cbn [fold_left omap list_omap].
  - rewrite app_nil_r. reflexivity.
  - rewrite IH. unfold tally, entry_of.
    destruct (0 <? competency_score (lower text) ai_analysis (snd row)).
    + rewrite <- app_assoc. reflexivity.
    + reflexivity.
Qed.

Lemma counter_is text_counter :
  text_counter = competency_scores text ai_analysis ->
  text_counter = omap entry_of competency_keywords.
Proof. intros ->. unfold competency_scores. rewrite tally_fold. reflexivity. Qed.

Lemma omap_names (table : list (string * list string)) :
  (fst <$> omap entry_of table) `sublist_of` (fst <$> table).
Proof.
  induction table as [| row table IH]; cbn [omap list_omap fmap list_fmap].
  - constructor.
  - unfold entry_of at 1.
    destruct (0 <? competency_score (lower text) ai_analysis (snd row)); cbn.
    + apply sublist_skip. exact IH.
    + apply sublist_cons. exact IH.
Qed.

Lemma table_names_distinct : NoDup (fst <$> competency_keywords).
Proof. apply (bool_decide_unpack _). vm_compute. exact I. Qed.

Lemma counter_names_distinct : NoDup (fst <$> competency_scores text ai_analysis).
Proof.
  rewrite (counter_is _ eq_refl).
  eapply sublist_NoDup; [apply table_names_distinct | apply omap_names].
Qed.

Lemma insert_perm x sorted : insert_by_count x sorted ≡ₚ x :: sorted.
Proof.
  induction sorted as [| y rest IH]; cbn [insert_by_count]; [reflexivity |].
  destruct (snd x <? snd y); [| reflexivity].
  rewrite IH. apply Permutation_swap.
Qed.

Lemma sort_perm counter : foldr insert_by_count [] counter ≡ₚ counter.
Proof.
  induction counter as [| x counter IH]; cbn [foldr]; [reflexivity |].
  rewrite insert_perm, IH. reflexivity.
Qed.

Lemma insert_sorted x sorted :
  StronglySorted (fun a b : string * Z => snd b <= snd a) sorted ->
  StronglySorted (fun a b : string * Z => snd b <= snd a) (insert_by_count x sorted).
Proof.
  induction sorted as [| y rest IH]; intros Hsorted; cbn [insert_by_count].
  - repeat constructor.
  - apply StronglySorted_inv in Hsorted. destruct Hsorted as [Hrest Hy].
    destruct (Z.ltb_spec (snd x) (snd y)) as [Hlt | Hge].
    + constructor; [apply IH; exact Hrest |].
      rewrite insert_perm. constructor; [lia | exact Hy].
    + constructor; [constructor; assumption |].
      constructor; [exact Hge |].
      eapply Forall_impl; [exact Hy |]. cbn beta. intros z Hz. lia.
Qed.

Lemma sort_sorted counter :
  StronglySorted (fun a b : string * Z => snd b <= snd a) (foldr insert_by_count [] counter).
Proof.
  induction counter as [| x counter IH]; cbn [foldr]; [constructor |].
  apply insert_sorted. exact IH.
Qed.


End Competencies.

Section Selection.
Import JobAnalyzer.

Lemma filter_agree {A} (P Q : A -> Prop) `{!forall x, Decision (P x), !forall x, Decision (Q x)}
    (l : list A) :
  Forall (fun x => P x <-> Q x) l -> filter P l = filter Q l.
Proof.
  induction 1 as [| x l Hx Hl IH]; [reflexivity |].
  rewrite !filter_cons, IH.
  destruct (decide (P x)) as [HP | HP], (decide (Q x)) as [HQ | HQ];
    try reflexivity; exfalso; tauto.
Qed.

Lemma ensure_missing (ess : list string) :
  NoDup ess ->
  forall selected,
    fold_left ensure ess selected
    = (selected ++ filter (fun e => e ∉ selected) ess)%list.
Proof.
  induction 1 as [| e rest Hfresh Hdistinct IH]; intros selected; cbn [fold_left].
  - rewrite filter_nil, app_nil_r. reflexivity.
  - rewrite IH. unfold ensure. rewrite filter_cons.
    case_bool_decide as Hin.
    + rewrite decide_False by (intros Hout; exact (Hout Hin)). reflexivity.
    + rewrite decide_True by exact Hin. rewrite <- app_assoc. cbn [app].
      do 2 f_equal. apply filter_agree.
      apply Forall_forall. intros x Hx. rewrite elem_of_app, list_elem_of_singleton.
      split; [tauto |]. intros Hout [Hsel | ->]; [exact (Hout Hsel) | exact (Hfresh Hx)].
Qed.

Lemma essential_distinct : NoDup essential.
Proof. apply (bool_decide_unpack _). vm_compute. exact I. Qed.

Lemma essential_in_table e : e ∈ essential -> e ∈ (fst <$> competency_keywords).
Proof.
  unfold essential. rewrite !elem_of_cons, elem_of_nil.
  intros [-> | [-> | [-> | []]]]; apply (bool_decide_unpack _); vm_compute; exact I.
Qed.

(** A selection of distinct table names, with the missing essential ones
    behind it, has at most 8 entries. *)
Lemma selection_fits (selected : list string) :
  NoDup selected ->
  (forall x, x ∈ selected -> x ∈ (fst <$> competency_keywords)) ->
  (length (selected ++ filter (fun e => e ∉ selected) essential) <= 8)%nat.
Proof.
  intros Hdistinct Hsub.
  change 8%nat with (length (fst <$> competency_keywords)).
  apply submseteq_length, NoDup_submseteq.
  - apply NoDup_app. split; [exact Hdistinct |]. split.
    + intros x Hx Hin. apply list_elem_of_filter in Hin. destruct Hin as [Hout _].
      exact (Hout Hx).
    + apply NoDup_filter, essential_distinct.
  - intros x Hx. apply elem_of_app in Hx. destruct Hx as [Hx | Hx]; [apply Hsub; exact Hx |].
    apply list_elem_of_filter in Hx. apply essential_in_table. tauto.
Qed.

End Selection.

Lemma map_fmap {A B} (f : A -> B) (l : list A) : map f l = f <$> l.
Proof. induction l as [| x l IH]; [reflexivity |]. cbn. rewrite IH. reflexivity. Qed.

(** The score as occurrences, and the ranking of the Counter. *)

Section Scores.
Import JobAnalyzer.










End Scores.



(** A run of the competency agent on each path. *)
Lemma evaluation_score_range_witness :
  (5 <= Competency.score
          (Competency.evaluate_answer Samples.competency_agent
             (fun _ => Raised Samples.unavailable) Samples.question
             "The situation was an outage. My task was to find the cause. The action I took was a bisect, and the result was a fix.")
   <= 8)
  /\ Competency.score
       (Competency.evaluate_answer Samples.competency_agent
          (fun _ => Returned (Samples.reply_events "The answer rambles."))
          Samples.question "I traced the fault to a cache.") = 5.
Proof.
  split.
  - apply (evaluation_score_range Samples.competency_agent
             (fun _ => Raised Samples.unavailable) Samples.question _) with (e := Samples.unavailable).
    reflexivity.
  - apply (evaluation_score_range Samples.competency_agent
             (fun _ => Returned (Samples.reply_events "The answer rambles."))
             Samples.question "I traced the fault to a cache.")
      with (events := Samples.reply_events "The answer rambles.");
      [reflexivity | vm_compute; reflexivity].
Defined.

(** * Further properties *)

(** ** Words, and the cleanup of a transcription *)

Section Words.
Import Notions.

Lemma chars_app (a b : string) :
  list_ascii_of_string (a ++ b) = (list_ascii_of_string a ++ list_ascii_of_string b)%list.
Proof.
  induction a as [| c a IH]; [reflexivity |].
  change (c :: list_ascii_of_string (a ++ b)
          = c :: (list_ascii_of_string a ++ list_ascii_of_string b)%list).
  f_equal. exact IH.
Qed.

Lemma append_cons (c : ascii) (a b : string) : String c a ++ b = String c (a ++ b).
Proof. reflexivity. Qed.

Lemma append_nil_l (b : string) : "" ++ b = b.
Proof. reflexivity. Qed.

Lemma append_nil_r (a : string) : a ++ "" = a.
Proof. induction a as [| c a IH]; [reflexivity |]. rewrite append_cons, IH. reflexivity. Qed.

Lemma append_assoc (a b c : string) : (a ++ b) ++ c = a ++ (b ++ c).
Proof.
  induction a as [| x a IH]; [reflexivity |]. rewrite !append_cons, IH. reflexivity.
Qed.

Lemma append_empty (a b : string) : a ++ b = "" -> a = "" /\ b = "".
Proof. destruct a; [rewrite append_nil_l; auto | discriminate]. Qed.

Lemma word_snoc (cur : string) (c : ascii) :
  cur = "" \/ word cur -> isspace c = false -> word (cur ++ String c "").
Proof.
  intros Hcur Hc. split.
  - intros H. apply append_empty in H. destruct H as [_ H]. discriminate.
  - rewrite chars_app. apply Forall_app. split.
    + destruct Hcur as [-> | [_ H]]; [constructor | exact H].
    + cbn. constructor; [exact Hc | constructor].
Qed.

Lemma split_from_words (s : string) :
  forall cur, cur = "" \/ word cur -> Forall word (split_from cur s).
Proof.
  induction s as [| c s IH]; intros cur Hcur; cbn.
  - destruct (String.eqb_spec cur ""); [constructor |].
    destruct Hcur as [-> | H]; [contradiction |]. constructor; [exact H | constructor].
  - destruct (isspace c) eqn:Hc.
    + destruct (String.eqb_spec cur "").
      * apply IH. left. reflexivity.
      * destruct Hcur as [-> | H]; [contradiction |].
        constructor; [exact H |]. apply IH. left. reflexivity.
    + apply IH. right. apply word_snoc; assumption.
Qed.

Lemma split_words (s : string) : Forall word (split s).
Proof. apply split_from_words. left. reflexivity. Qed.

Lemma split_from_spaceless (w rest : string) :
  Forall (fun c => isspace c = false) (list_ascii_of_string w) ->
  forall cur, split_from cur (w ++ rest) = split_from (cur ++ w) rest.
Proof.
  induction w as [| c w IH]; intros Hw cur.
  - rewrite append_nil_l, append_nil_r. reflexivity.
  - cbn in Hw. apply Forall_cons in Hw. destruct Hw as [Hc Hw].
    rewrite append_cons. cbn [split_from]. rewrite Hc.
    rewrite IH by exact Hw. rewrite append_assoc. reflexivity.
Qed.

Lemma split_join (ws : list string) : Forall word ws -> split (join " " ws) = ws.
Proof.
  induction 1 as [| w ws [Hne Hw] Hws IH]; [reflexivity |].
  unfold split, join. cbn [String.concat].
  destruct ws as [| w2 ws].
  - rewrite <- (append_nil_r w) at 1. rewrite split_from_spaceless by exact Hw.
    rewrite append_nil_l. cbn [split_from].
    destruct (String.eqb_spec w ""); [contradiction | reflexivity].
  - rewrite split_from_spaceless by exact Hw. rewrite append_nil_l, append_cons.
    cbn [split_from]. replace (isspace " ") with true by reflexivity.
    destruct (String.eqb_spec w ""); [contradiction |].
    rewrite append_nil_l. f_equal. exact IH.
Qed.

Lemma join_split_join (s : string) : join " " (split (join " " (split s))) = join " " (split s).
Proof. rewrite split_join; [reflexivity | apply split_words]. Qed.

Lemma concat_cons (sep v : string) (ws : list string) :
  ws <> [] -> String.concat sep (v :: ws) = v ++ sep ++ String.concat sep ws.
Proof. destruct ws; [contradiction | reflexivity]. Qed.

(** Appending to the text appends to its last word. *)
Lemma join_snoc (ws : list string) (w x : string) :
  join " " (ws ++ [w]) ++ x = join " " (ws ++ [String.append w x]).
Proof.
  unfold join. induction ws as [| v ws IH]; [reflexivity |].
  cbn [app]. rewrite !concat_cons by (destruct ws; discriminate).
  rewrite !append_assoc. rewrite IH. reflexivity.
Qed.

Lemma word_append (w x : string) : word w -> word x -> word (w ++ x).
Proof.
  intros [Hne Hw] [_ Hx]. split.
  - intros H. apply append_empty in H. tauto.
  - rewrite chars_app. apply Forall_app. auto.
Qed.

Lemma join_split_append (ws : list string) (x : string) :
  Forall word ws -> ws <> [] -> word x ->
  join " " (split (join " " ws ++ x)) = join " " ws ++ x
  /\ length (split (join " " ws ++ x)) = length ws.
Proof.
  intros Hws Hne Hx.
  destruct (exists_last Hne) as [init [w ->]].
  rewrite join_snoc.
  assert (Forall word (init ++ [String.append w x])) as Hwords.
  { apply Forall_app in Hws. destruct Hws as [Hinit Hw].
    apply Forall_app. split; [exact Hinit |].
    constructor; [| constructor]. apply word_append; [| exact Hx].
    apply Forall_inv in Hw. exact Hw. }
  rewrite split_join by exact Hwords. split; [reflexivity |].
  rewrite !length_app. reflexivity.
Qed.

Lemma last_char_append (s : string) (c : ascii) : last_char (s ++ String c "") = Some c.
Proof.
  induction s as [| d s IH]; [reflexivity |].
  rewrite append_cons. cbn [last_char]. rewrite IH.
  destruct (s ++ String c "") eqn:E; [destruct s; discriminate | reflexivity].
Qed.

End Words.

Section Cleanup.
Import Transcription Notions.

Lemma cleanup_cases (text : string) :
  exists ws, Forall word ws
    /\ (_basic_text_cleanup text = join " " ws
        /\ split (_basic_text_cleanup text) = ws
        /\ (ws = [] \/ ends_sentence (join " " ws) = true \/ (length ws <= 2)%nat)
        \/ _basic_text_cleanup text = join " " ws ++ "."
           /\ (2 < length ws)%nat).
Proof.
  unfold _basic_text_cleanup.
  destruct (String.eqb_spec (strip text) "") as [Hblank | Hsome].
  - exists []. split; [constructor |]. left. repeat split. left. reflexivity.
  - set (removed := fold_left (fun t artifact => remove_all artifact t)
                              artifacts_to_remove (strip text)).
    exists (split removed). split; [apply split_words |].
    rewrite split_join by apply split_words.
    destruct (negb (String.eqb (join " " (split removed)) "")
              && negb (ends_sentence (join " " (split removed)))
              && (2 <? length (split removed))%nat) eqn:Hcond.
    + right. apply andb_prop in Hcond. destruct Hcond as [_ Hlen].
      apply Nat.ltb_lt in Hlen. auto.
    + left. rewrite split_join by apply split_words. repeat split.
      apply andb_false_iff in Hcond. destruct Hcond as [Hcond | Hlen].
      * apply andb_false_iff in Hcond. destruct Hcond as [Hempty | Hends].
        -- left. apply negb_false_iff in Hempty. apply String.eqb_eq in Hempty.
           destruct (split removed) as [| w ws] eqn:E; [reflexivity |].
           exfalso. pose proof (split_words removed) as Hw. rewrite E in Hw.
           apply Forall_inv in Hw. destruct Hw as [Hne _].
           unfold join in Hempty. cbn in Hempty. destruct ws.
           ++ contradiction.
           ++ apply append_empty in Hempty. tauto.
        -- right. left. apply negb_false_iff in Hends. exact Hends.
      * right. right. apply Nat.ltb_ge in Hlen. exact Hlen.
Qed.

End Cleanup.

Section CleanupTheorem.
Import Transcription Notions.

(** X1. The text [_basic_text_cleanup] returns is in normal form: joining
    its words with single spaces gives it back, so it has no space at either
    end and no run of whitespace inside.  It is empty when the input is
    blank, and when it has more than two words it ends in a full stop, an
    exclamation mark or a question mark. *)
Theorem cleanup_normal_form (text : string) :
  let clean := _basic_text_cleanup text in
  join " " (split clean) = clean
  /\ (strip text = "" -> clean = "")
  /\ ((2 < length (split clean))%nat -> ends_sentence clean = true).
Proof.
  cbv zeta. repeat apply conj.
  - destruct (cleanup_cases text) as [ws [Hws [[Hclean [Hsplit _]] | [Hclean Hlen]]]].
    + rewrite Hsplit. symmetry. exact Hclean.
    + rewrite Hclean. apply join_split_append.
      * exact Hws.
      * intros ->. cbn in Hlen. lia.
      * split; [discriminate | repeat constructor].
  - intros Hblank. unfold _basic_text_cleanup. rewrite Hblank. reflexivity.
  - destruct (cleanup_cases text) as [ws [Hws [[Hclean [Hsplit Hwhy]] | [Hclean Hlen]]]].
    + rewrite Hsplit. intros Hlen. rewrite Hclean.
      destruct Hwhy as [-> | [Hends | Hshort]]; [cbn in Hlen; lia | exact Hends | lia].
    + intros _. rewrite Hclean. unfold ends_sentence.
      rewrite last_char_append. reflexivity.
Qed.

Lemma below_one_kb (n : Z) :
  0 <= n < 1024 -> PrimFloat.ltb (quotient n 1024) 1 = true.
Proof.
  intros Hn.
  assert (forallb (fun k => PrimFloat.ltb (quotient (Z.of_nat k) 1024) 1) (seq 0 1024) = true)
    as Hall by (vm_compute; reflexivity).
  rewrite forallb_forall in Hall. specialize (Hall (Z.to_nat n)).
  rewrite Z2Nat.id in Hall by lia. apply Hall. apply in_seq. lia.
Qed.

Lemma error_response_fields (audio_data : list Byte.byte) (msg : string) :
  let r := _generate_error_response audio_data msg in
  status r = "failed" /\ transcribed_text r = "" /\ word_count r = 0
  /\ audio_info r = None /\ validation r = None
  /\ error r = Some msg /\ is_Some (fallback_message r)
  /\ (size audio_data < 1024 ->
      fallback_message r
      = Some "Audio recording was too short. Please record for at least 3-5 seconds.").
Proof.
  cbv zeta. unfold _generate_error_response.
  cbn [status transcribed_text word_count audio_info validation error fallback_message].
  repeat apply conj; try reflexivity.
  - eexists. reflexivity.
  - intros Hlt. destruct audio_data as [| b audio]; [reflexivity |].
    rewrite below_one_kb; [reflexivity |]. unfold size in *. lia.
Qed.

Lemma transcribe_try_cases (runtime : Runtime) (audio_data : list Byte.byte) (mime : string) :
  let request := {| req_mime_type := mime; req_audio := audio_data |} in
  match fst (transcribe_try runtime audio_data mime) with
  | Returned result =>
      1000 <= size audio_data
      /\ exists events,
           runtime request = Returned events
           /\ _extract_final_response events <> ""
           /\ result
              = (let clean_text := _basic_text_cleanup (_extract_final_response events) in
                 let audio_info := _analyze_audio_data audio_data mime in
                 {| transcribed_text := clean_text;
                    word_count := if String.eqb clean_text "" then 0
                                  else Z.of_nat (length (split clean_text));
                    status := "success";
                    method := "adk_multimodal";
                    audio_info := Some audio_info;
                    validation := Some (_validate_transcription clean_text audio_info);
                    error := None;
                    fallback_message := None |})
  | Raised e =>
      (size audio_data < 1000
       /\ str_exc e = "Audio data too small: " ++ str_int (size audio_data)
                      ++ " bytes. Need at least 1KB.")
      \/ runtime request = Raised e
      \/ exists events, runtime request = Returned events
                        /\ _extract_final_response events = ""
                        /\ str_exc e = "No transcription generated from audio"
  end.
Proof.
  cbv zeta. unfold transcribe_try.
  destruct ((size audio_data =? 0) || (size audio_data <? 1000)) eqn:Hgate.
  - cbn [fst]. left. split; [| reflexivity].
    apply orb_true_iff in Hgate. destruct Hgate as [H | H]; lia.
  - apply orb_false_iff in Hgate. destruct Hgate as [_ Hgate]. apply Z.ltb_ge in Hgate.
    cbn [fst].
    destruct (runtime {| req_mime_type := mime; req_audio := audio_data |})
      as [events | e] eqn:Hrun.
    + cbn [mbind outcome_bind Py.bind].
      destruct (String.eqb_spec (_extract_final_response events) "") as [Hblank | Htext].
      * right. right. exists events. auto.
      * split; [exact Hgate |]. exists events. auto.
    + cbn [mbind outcome_bind Py.bind]. right. left. reflexivity.
Qed.

(** X2. [transcribe_audio_bytes] returns one of two shapes and never
    raises.  A success needs at least 1000 bytes and a run whose final text
    is not blank: it carries the cleaned text, its word count, the audio
    analysis and the validation, and no error.  Every other call gives
    status "failed" with empty text, count 0, no analysis, and an error
    naming the cause: the size below 1000 bytes, the exception of the
    runtime, or the missing transcription.  Below 1024 bytes the fallback
    message is the one about a recording that is too short. *)
Theorem transcription_outcome (runtime : Runtime) (audio_data : list Byte.byte) (mime : string) :
  let request := {| req_mime_type := mime; req_audio := audio_data |} in
  let result := fst (transcribe_audio_bytes runtime audio_data mime) in
  (status result = "success"
   /\ 1000 <= size audio_data
   /\ (exists events,
          runtime request = Returned events
          /\ _extract_final_response events <> ""
          /\ transcribed_text result = _basic_text_cleanup (_extract_final_response events))
   /\ word_count result = Z.of_nat (length (split (transcribed_text result)))
   /\ audio_info result = Some (_analyze_audio_data audio_data mime)
   /\ validation result
      = Some (_validate_transcription (transcribed_text result)
                (_analyze_audio_data audio_data mime))
   /\ error result = None /\ fallback_message result = None)
  \/
  (status result = "failed"
   /\ transcribed_text result = "" /\ word_count result = 0
   /\ audio_info result = None /\ validation result = None
   /\ is_Some (fallback_message result)
   /\ (size audio_data < 1000
       /\ error result
          = Some ("Audio data too small: " ++ str_int (size audio_data)
                  ++ " bytes. Need at least 1KB.")
       \/ (exists e, runtime request = Raised e /\ error result = Some (str_exc e))
       \/ (exists events,
              runtime request = Returned events
              /\ _extract_final_response events = ""
              /\ error result = Some "No transcription generated from audio"))
   /\ (size audio_data < 1024 ->
       fallback_message result
       = Some "Audio recording was too short. Please record for at least 3-5 seconds.")).
Proof.
  cbv zeta. pose proof (transcribe_try_cases runtime audio_data mime) as Htry.
  cbv zeta in Htry. unfold transcribe_audio_bytes.
  destruct (transcribe_try runtime audio_data mime) as [tried calls].
  cbn [fst] in *. destruct tried as [result | e].
  - left. destruct Htry as [Hsize [events [Hrun [Htext ->]]]].
    cbn [status transcribed_text word_count audio_info validation error fallback_message].
    repeat apply conj; try reflexivity; try assumption.
    + exists events. auto.
    + destruct (String.eqb_spec (_basic_text_cleanup (_extract_final_response events)) "")
        as [-> | _]; reflexivity.
  - right.
    destruct (error_response_fields audio_data (str_exc e))
      as [Hstatus [Htext [Hcount [Hinfo [Hvalid [Herror [Hmessage Hshort]]]]]]].
    repeat apply conj; try assumption.
    rewrite Herror.
    destruct Htry as [[Hsmall ->] | [Hrun | [events [Hrun [Hblank ->]]]]].
    + left. auto.
    + right. left. exists e. auto.
    + right. right. exists events. auto.
Qed.

End CleanupTheorem.

(** ** Transcription: the MIME type of a file *)

Section Paths.
Import Transcription.

Lemma length_append (a b : string) :
  String.length (a ++ b) = (String.length a + String.length b)%nat.
Proof.
  induction a as [| c a IH]; [reflexivity |]. rewrite append_cons. cbn [String.length].
  rewrite IH. reflexivity.
Qed.

Lemma length_lower (s : string) : String.length (lower s) = String.length s.
Proof. induction s as [| c s IH]; [reflexivity |]. cbn. rewrite IH. reflexivity. Qed.

Lemma rfind_from_app (c : ascii) (a b : string) :
  forall i found,
    rfind_from c (a ++ b) i found
    = rfind_from c b (i + Z.of_nat (String.length a)) (rfind_from c a i found).
Proof.
  induction a as [| d a IH]; intros i found.
  - rewrite append_nil_l. cbn. rewrite Z.add_0_r. reflexivity.
  - rewrite append_cons. cbn [rfind_from String.length]. rewrite IH.
    f_equal. lia.
Qed.

Lemma rfind_from_absent (c : ascii) (s : string) :
  has_char c s = false -> forall i found, rfind_from c s i found = found.
Proof.
  induction s as [| d s IH]; intros Habsent i found; [reflexivity |].
  cbn in Habsent. apply orb_false_iff in Habsent. destruct Habsent as [Hd Hs].
  cbn [rfind_from]. rewrite Hd. apply IH. exact Hs.
Qed.

Lemma rfind_from_last (c : ascii) (s : string) :
  last_char s = Some c ->
  forall i found, rfind_from c s i found = i + Z.of_nat (String.length s) - 1.
Proof.
  induction s as [| d s IH]; intros Hlast i found; [discriminate |].
  cbn [rfind_from String.length]. destruct s as [| e s].
  - cbn in Hlast. injection Hlast as ->. cbn [rfind_from String.length].
    rewrite Ascii.eqb_refl. lia.
  - rewrite IH by exact Hlast. cbn [String.length]. lia.
Qed.

Lemma substring_middle (a b c : string) :
  substring (String.length a) (String.length b) (a ++ b ++ c) = b.
Proof.
  induction a as [| x a IH].
  - rewrite append_nil_l. cbn [String.length].
    induction b as [| y b IHb]; [destruct c; reflexivity |].
    rewrite append_cons. cbn [String.length substring]. rewrite IHb. reflexivity.
  - rewrite append_cons. cbn [String.length substring]. exact IH.
Qed.

Lemma substring_end (a c : string) :
  substring (String.length a) (String.length c) (a ++ c) = c.
Proof.
  pose proof (substring_middle a c "") as H. rewrite append_nil_r in H. exact H.
Qed.

Lemma dot_lower (d : ascii) : Ascii.eqb "." (lower_char d) = Ascii.eqb "." d.
Proof. destruct d as [[] [] [] [] [] [] [] []]; reflexivity. Qed.

Lemma slash_lower (d : ascii) : Ascii.eqb "/" (lower_char d) = Ascii.eqb "/" d.
Proof. destruct d as [[] [] [] [] [] [] [] []]; reflexivity. Qed.

Lemma rfind_from_lower (c : ascii) (s : string) :
  (forall d, Ascii.eqb c (lower_char d) = Ascii.eqb c d) ->
  forall i found, rfind_from c (lower s) i found = rfind_from c s i found.
Proof.
  intros Hc. induction s as [| d s IH]; intros i found; [reflexivity |].
  cbn [lower rfind_from]. rewrite Hc. apply IH.
Qed.

Lemma has_char_app (c : ascii) (a b : string) :
  has_char c (a ++ b) = has_char c a || has_char c b.
Proof.
  induction a as [| d a IH]; [reflexivity |].
  rewrite append_cons. cbn [has_char]. rewrite IH. apply orb_assoc.
Qed.

Lemma dict_get_in (key value : string) :
  In (key, value) mime_type_map -> dict_get mime_type_map key "audio/wav" = value.
Proof.
  intros Hin. cbn in Hin.
  repeat (destruct Hin as [Hin | Hin]; [injection Hin as <- <-; reflexivity |]).
  contradiction.
Qed.

Lemma extension_shape (ext value : string) :
  In (lower ext, value) mime_type_map ->
  (forall i found, rfind_from "." ext i found = i)
  /\ (forall i found, rfind_from "/" ext i found = found).
Proof.
  intros Hin. split; intros i found.
  - rewrite <- (rfind_from_lower "." ext dot_lower).
    cbn in Hin.
    repeat (destruct Hin as [Hin | Hin]; [injection Hin as <- _; reflexivity |]).
    contradiction.
  - rewrite <- (rfind_from_lower "/" ext slash_lower).
    cbn in Hin.
    repeat (destruct Hin as [Hin | Hin]; [injection Hin as <- _; reflexivity |]).
    contradiction.
Qed.

Lemma splitext_extension (dir name ext value : string) :
  dir = "" \/ last_char dir = Some "/"%char ->
  has_char "/" name = false ->
  all_dots name = false ->
  In (lower ext, value) mime_type_map ->
  splitext (dir ++ name ++ ext) = (dir ++ name, ext).
Proof.
  intros Hdir Hname Hdots Hin.
  destruct (extension_shape ext value Hin) as [Hdot Hslash].
  unfold splitext, rfind.
  assert (rfind_from "/" (dir ++ name ++ ext) 0 (-1) = Z.of_nat (String.length dir) - 1)
    as Hsep.
  { rewrite !rfind_from_app, Hslash, (rfind_from_absent "/" name Hname).
    destruct Hdir as [-> | Hlast]; [reflexivity |].
    rewrite (rfind_from_last "/" dir Hlast). lia. }
  assert (rfind_from "." (dir ++ name ++ ext) 0 (-1)
          = Z.of_nat (String.length dir) + Z.of_nat (String.length name)) as Hdotidx.
  { rewrite !rfind_from_app, Hdot. lia. }
  rewrite Hsep, Hdotidx.
  destruct (Z.ltb_spec (Z.of_nat (String.length dir) - 1)
              (Z.of_nat (String.length dir) + Z.of_nat (String.length name))); [| lia].
  unfold slice.
  replace (Z.to_nat (Z.of_nat (String.length dir) - 1 + 1)) with (String.length dir) by lia.
  replace (Z.to_nat (Z.of_nat (String.length dir) + Z.of_nat (String.length name)
                     - (Z.of_nat (String.length dir) - 1 + 1)))
    with (String.length name) by lia.
  rewrite substring_middle, Hdots.
  f_equal.
  - replace (Z.to_nat (Z.of_nat (String.length dir) + Z.of_nat (String.length name) - 0))
      with (String.length (dir ++ name)) by (rewrite length_append; lia).
    change (Z.to_nat 0) with 0%nat.
    rewrite <- append_assoc.
    pose proof (substring_middle "" (dir ++ name) ext) as Hsub.
    rewrite append_nil_l in Hsub. exact Hsub.
  - unfold len.
    replace (Z.to_nat (Z.of_nat (String.length dir) + Z.of_nat (String.length name)))
      with (String.length (dir ++ name)) by (rewrite length_append; lia).
    replace (Z.to_nat (Z.of_nat (String.length (dir ++ name ++ ext))
                       - (Z.of_nat (String.length dir) + Z.of_nat (String.length name))))
      with (String.length ext) by (rewrite !length_append; lia).
    rewrite <- append_assoc. apply substring_end.
Qed.

Lemma dict_get_range (key : string) :
  In (dict_get mime_type_map key "audio/wav") (map snd mime_type_map).
Proof.
  unfold mime_type_map. cbn [dict_get map snd].
  repeat match goal with
         | |- context [if ?b then _ else _] => destruct b; [cbn; tauto |]
         end.
  cbn. tauto.
Qed.

Lemma rfind_from_bound (c : ascii) (s : string) :
  forall i found, found < i -> rfind_from c s i found < i + Z.of_nat (String.length s).
Proof.
  induction s as [| d s IH]; intros i found Hlt.
  - cbn. lia.
  - cbn [rfind_from String.length].
    pose proof (IH (i + 1) (if Ascii.eqb c d then i else found)) as H.
    destruct (Ascii.eqb c d); lia.
Qed.

Lemma all_dots_spec (s : string) :
  all_dots s = true ->
  has_char "/" s = false /\ (s <> "" -> last_char s = Some "."%char).
Proof.
  unfold all_dots. induction s as [| d s IH]; [cbn; intros _; split; [reflexivity | congruence] |].
  cbn [list_ascii_of_string forallb]. intros H. apply andb_prop in H. destruct H as [Hd Hs].
  apply Ascii.eqb_eq in Hd. subst d. destruct (IH Hs) as [Hslash Hlast].
  split.
  - cbn [has_char]. rewrite Hslash. reflexivity.
  - intros _. cbn [last_char]. destruct s as [| e s]; [reflexivity |].
    apply Hlast. discriminate.
Qed.

Lemma substring_skip (a b : string) (n : nat) :
  substring (String.length a) n (a ++ b) = substring 0 n b.
Proof.
  induction a as [| x a IH]; [reflexivity |].
  rewrite append_cons. cbn [String.length substring]. exact IH.
Qed.

Lemma all_dots_prefix (dots rest : string) (n : nat) :
  all_dots dots = true -> (n <= String.length dots)%nat ->
  all_dots (substring 0 n (dots ++ rest)) = true.
Proof.
  unfold all_dots. revert n. induction dots as [| d dots IH]; intros n Hdots Hn.
  - cbn in Hn. replace n with 0%nat by lia. destruct (String.append "" rest); reflexivity.
  - cbn [list_ascii_of_string forallb] in Hdots. apply andb_prop in Hdots.
    destruct Hdots as [Hd Hdots]. rewrite append_cons.
    destruct n as [| n]; [reflexivity |].
    cbn [substring list_ascii_of_string forallb]. rewrite Hd. cbn [String.length] in Hn.
    apply IH; [exact Hdots | lia].
Qed.

Lemma splitext_no_extension (dir dots rest : string) :
  dir = "" \/ last_char dir = Some "/"%char ->
  all_dots dots = true ->
  has_char "." rest = false ->
  has_char "/" rest = false ->
  splitext (dir ++ dots ++ rest) = (dir ++ dots ++ rest, "").
Proof.
  intros Hdir Hdots Hrest Hslash.
  destruct (all_dots_spec dots Hdots) as [Hdots_slash Hdots_last].
  unfold splitext, rfind.
  assert (rfind_from "/" (dir ++ dots ++ rest) 0 (-1) = Z.of_nat (String.length dir) - 1)
    as Hsep.
  { rewrite !rfind_from_app, (rfind_from_absent "/" rest Hslash),
      (rfind_from_absent "/" dots Hdots_slash).
    destruct Hdir as [-> | Hlast]; [reflexivity |].
    rewrite (rfind_from_last "/" dir Hlast). lia. }
  rewrite Hsep.
  rewrite !rfind_from_app, (rfind_from_absent "." rest Hrest).
  destruct dots as [| d dots'] eqn:Edots.
  - cbn [rfind_from].
    pose proof (rfind_from_bound "." dir 0 (-1) ltac:(lia)) as Hbound.
    destruct (Z.ltb_spec (Z.of_nat (String.length dir) - 1) (rfind_from "." dir 0 (-1)));
      [| reflexivity].
    exfalso.
    destruct Hdir as [-> | Hlast]; [cbn in *; lia |].
    assert (rfind_from "." dir 0 (-1) = Z.of_nat (String.length dir) - 1) as Heq by lia.
    clear - Hlast Heq.
    assert (forall s i found,
               last_char s = Some "/"%char -> found < i + Z.of_nat (String.length s) - 1 ->
               rfind_from "." s i found < i + Z.of_nat (String.length s) - 1) as Hstrict.
    { clear. induction s as [| d s IH]; intros i found Hl Hf; [discriminate |].
      cbn [rfind_from String.length]. destruct s as [| e s].
      - cbn in Hl. injection Hl as ->. cbn. cbn in Hf. lia.
      - pose proof (IH (i + 1) (if Ascii.eqb "." d then i else found) Hl) as H.
        cbn [String.length] in *. destruct (Ascii.eqb "." d); lia. }
    destruct dir as [| d dir]; [discriminate |].
    pose proof (Hstrict (String d dir) 0 (-1) Hlast) as H.
    cbn [String.length] in *. lia.
  - rewrite <- Edots in *.
    rewrite (rfind_from_last "." dots (Hdots_last ltac:(subst; discriminate))).
    assert (0 < Z.of_nat (String.length dots)) as Hpos by (subst; cbn; lia).
    destruct (Z.ltb_spec (Z.of_nat (String.length dir) - 1)
                (0 + Z.of_nat (String.length dir) + Z.of_nat (String.length dots) - 1));
      [| lia].
    unfold slice.
    replace (Z.to_nat (Z.of_nat (String.length dir) - 1 + 1)) with (String.length dir) by lia.
    rewrite substring_skip, all_dots_prefix; [reflexivity | exact Hdots | lia].
Qed.

(** X3. [_get_mime_type_from_extension] always gives one of the seven types
    of its table.  For a path whose last component is a name that is not
    only dots, followed by an extension of the table in any letter case, it
    gives the type of that extension; for a last component made of leading
    dots and a rest without a dot (".mp3", "notes") it gives "audio/wav". *)
Theorem mime_type_by_extension :
  (forall file_path,
      In (_get_mime_type_from_extension file_path) (map snd mime_type_map))
  /\ (forall dir name ext value,
         dir = "" \/ last_char dir = Some "/"%char ->
         has_char "/" name = false ->
         all_dots name = false ->
         In (lower ext, value) mime_type_map ->
         _get_mime_type_from_extension (dir ++ name ++ ext) = value)
  /\ (forall dir dots rest,
         dir = "" \/ last_char dir = Some "/"%char ->
         all_dots dots = true ->
         has_char "." rest = false ->
         has_char "/" rest = false ->
         _get_mime_type_from_extension (dir ++ dots ++ rest) = "audio/wav").
Proof.
  repeat apply conj.
  - intros file_path. unfold _get_mime_type_from_extension.
    destruct (splitext file_path) as [root ext]. apply dict_get_range.
  - intros dir name ext value Hdir Hname Hdots Hin.
    unfold _get_mime_type_from_extension.
    rewrite (splitext_extension dir name ext value Hdir Hname Hdots Hin).
    apply dict_get_in. exact Hin.
  - intros dir dots rest Hdir Hdots Hrest Hslash.
    unfold _get_mime_type_from_extension.
    rewrite (splitext_no_extension dir dots rest Hdir Hdots Hrest Hslash). reflexivity.
Qed.

Lemma mime_type_by_extension_witness :
  _get_mime_type_from_extension "/tmp/answer.take2.MP3" = "audio/mp3"
  /\ _get_mime_type_from_extension "/tmp/.mp3" = "audio/wav".
Proof.
  destruct mime_type_by_extension as [_ [Hext Hnone]]. split.
  - apply (Hext "/tmp/" "answer.take2" ".MP3" "audio/mp3");
      [right; reflexivity | reflexivity | reflexivity | cbn; tauto].
  - apply (Hnone "/tmp/" "." "mp3"); [right; reflexivity | reflexivity | reflexivity | reflexivity].
Defined.

End Paths.

(** ** The interview manager: tracking an answer *)

Section Tracking.
Import InterviewManager.

Lemma append_entry_get (data : ProgressData) (competency : string) (entry : Entry) :
  forall c,
    dict_get (append_entry data competency entry) c []
    = if String.eqb competency c then (dict_get data c [] ++ [entry])%list
      else dict_get data c [].
Proof.
  intros c. induction data as [| [k entries] data IH]; cbn [append_entry dict_get].
  - destruct (String.eqb_spec competency c); reflexivity.
  - destruct (String.eqb_spec k competency) as [-> | Hk]; cbn [dict_get].
    + destruct (String.eqb_spec competency c); reflexivity.
    + destruct (String.eqb_spec k c) as [-> | Hc].
      * destruct (String.eqb_spec competency c); [congruence | reflexivity].
      * exact IH.
Qed.

Lemma append_entry_keys (data : ProgressData) (competency : string) (entry : Entry) :
  map fst (append_entry data competency entry)
  = if bool_decide (competency ∈ map fst data) then map fst data
    else (map fst data ++ [competency])%list.
Proof.
  induction data as [| [k entries] data IH]; cbn [append_entry map fst].
  - rewrite bool_decide_eq_false_2 by apply not_elem_of_nil. reflexivity.
  - destruct (String.eqb_spec k competency) as [-> | Hk]; cbn [map fst].
    + rewrite bool_decide_eq_true_2 by apply list_elem_of_here. reflexivity.
    + rewrite IH. case_bool_decide as Hin.
      * rewrite bool_decide_eq_true_2 by (apply list_elem_of_further; exact Hin). reflexivity.
      * rewrite bool_decide_eq_false_2; [reflexivity |].
        rewrite elem_of_cons. intros [-> | H]; [congruence | contradiction].
Qed.

Lemma append_entry_distinct (data : ProgressData) (competency : string) (entry : Entry) :
  NoDup (map fst data) -> NoDup (map fst (append_entry data competency entry)).
Proof.
  intros Hdistinct. rewrite append_entry_keys. case_bool_decide as Hin; [exact Hdistinct |].
  apply NoDup_app. split; [exact Hdistinct |]. split.
  - intros x Hx Hx'. apply list_elem_of_singleton in Hx'. subst. contradiction.
  - apply NoDup_singleton.
Qed.

(** X4. [InterviewManager.evaluate_answer], on a question whose competency
    has an agent, returns the evaluation of that agent and appends one entry
    (the score, the time, and the id of the question or "unknown") to the
    history of that competency; the other histories and the agents are
    unchanged, and distinct keys stay distinct.  On any other question it
    raises ValueError "No agent available for competency: ..." and changes
    nothing. *)
Theorem answer_is_tracked (self : Manager) (runtime : Competency.Runtime) (now : float)
    (question : Interview.Question) (answer : string) :
  match evaluate_answer self runtime now question answer with
  | (Returned evaluation, self') =>
      exists competency agent,
        Interview.competency question = Some competency
        /\ competency_agents self !! competency = Some agent
        /\ evaluation = Competency.evaluate_answer agent runtime question answer
        /\ competency_agents self' = competency_agents self
        /\ dict_get (progress_data self') competency []
           = (dict_get (progress_data self) competency []
              ++ [ {| score := Competency.score evaluation;
                      timestamp := now;
                      notes := "Question: " ++ default "unknown" (Interview.id question) |} ])%list
        /\ (forall other, other <> competency ->
              dict_get (progress_data self') other [] = dict_get (progress_data self) other [])
        /\ (NoDup (map fst (progress_data self)) -> NoDup (map fst (progress_data self')))
  | (Raised e, self') =>
      self' = self
      /\ exc_class e = "ValueError"
      /\ match Interview.competency question with
         | Some competency =>
             competency_agents self !! competency = None
             /\ str_exc e = "No agent available for competency: " ++ competency
         | None => str_exc e = "No agent available for competency: None"
         end
  end.
Proof.
  unfold evaluate_answer.
  destruct (Interview.competency question) as [competency |]; [| auto].
  destruct (competency_agents self !! competency) as [agent |] eqn:Hagent; [| auto].
  exists competency, agent. cbn [_track_progress_async competency_agents progress_data].
  repeat apply conj; try reflexivity; try assumption.
  - rewrite append_entry_get, String.eqb_refl. reflexivity.
  - intros other Hother. rewrite append_entry_get.
    destruct (String.eqb_spec competency other); [congruence | reflexivity].
  - apply append_entry_distinct.
Qed.

End Tracking.

(** ** The interview manager: the statistics of the summary *)

Section Statistics.
Import InterviewManager Notions.

Lemma maximum_spec (l : list Z) :
  forall x, Forall (fun y => y <= maximum x l) (x :: l) /\ In (maximum x l) (x :: l).
Proof.
  unfold maximum. induction l as [| y l IH]; intros x; cbn [fold_left].
  - split; [constructor; [lia | constructor] | left; reflexivity].
  - destruct (IH (Z.max x y)) as [Hall Hin].
    apply Forall_cons in Hall. destruct Hall as [Hmax Hall]. split.
    + constructor; [lia |]. constructor; [lia | exact Hall].
    + destruct Hin as [Heq | Hin]; [| right; right; exact Hin].
      destruct (Z.max_spec x y) as [[_ Hm] | [_ Hm]]; rewrite Hm in Heq |- *.
      * right. left. exact Heq.
      * left. exact Heq.
Qed.

Lemma round_statistics st competency entries :
  Forall (fun e => Spec.fits (score e)) entries ->
  entries <> [] ->
  exists st' stats,
    round st (competency, entries) = Returned st'
    /\ summary_competencies st' = <[competency := stats]> (summary_competencies st)
    /\ summarises (map score entries) stats
    /\ summary_total_attempts st'
       = summary_total_attempts st + Z.of_nat (length entries).
Proof.
  intros Hall Hne. unfold round.
  assert (Hscores : Forall Spec.fits (map score entries)).
  { apply Forall_map. exact Hall. }
  assert (Hlen : length (map score entries) = length entries) by apply length_map.
  destruct (map score entries) as [| first others] eqn:Hmap.
  - destruct entries; [congruence | discriminate].
  - rewrite (average_returns (first :: others)) by (congruence || assumption).
    eexists. eexists. split; [reflexivity |].
    cbn [summary_competencies summary_total_attempts]. split; [reflexivity |].
    split; [| rewrite Hlen; reflexivity].
    unfold summarises.
    cbn [average_score attempts latest_score best_score improvement hd].
    rewrite (last_default first others first 0).
    destruct (maximum_spec others first) as [Hmax Hin].
    repeat apply conj; try reflexivity; try assumption.
    destruct (Nat.ltb_spec 1 (length (first :: others))) as [_ | Hone]; [reflexivity |].
    destruct others; [cbn; lia | cbn in Hone; lia].
Qed.

Lemma rounds_statistics data :
  forall st,
    Spec.all_fit data ->
    NoDup (map fst data) ->
    exists st',
      rounds st data = Returned st'
      /\ summary_total_attempts st'
         = summary_total_attempts st + Z.of_nat (length (concat (map snd data)))
      /\ (forall c entries,
             In (c, entries) data -> entries <> [] ->
             exists stats,
               summary_competencies st' !! c = Some stats
               /\ summarises (map score entries) stats)
      /\ (forall c stats,
             summary_competencies st' !! c = Some stats ->
             summary_competencies st !! c = Some stats
             \/ exists entries, In (c, entries) data /\ entries <> [])
      /\ (forall c, c ∉ map fst data ->
             summary_competencies st' !! c = summary_competencies st !! c).
Proof.
  induction data as [| [k es] data IH]; intros st Hall Hdistinct.
  - exists st. cbn. repeat apply conj; auto; try lia; try (intros c entries []).
  - inversion Hall as [| ? ? Hitem Hrest]; subst. cbn [snd] in Hitem.
    cbn [map fst] in Hdistinct. apply NoDup_cons in Hdistinct.
    destruct Hdistinct as [Hfresh Hdistinct].
    destruct es as [| e es].
    + destruct (IH st Hrest Hdistinct) as [st' [Hrounds [Htotal [Hin [Hout Hother]]]]].
      exists st'. cbn [rounds round map mbind outcome_bind Py.bind concat app snd].
      repeat apply conj; auto.
      * intros c entries [Heq | Hmem] Hne; [injection Heq as <- <-; congruence |].
        apply Hin; assumption.
      * intros c stats Hc. destruct (Hout c stats Hc) as [H | [entries [Hmem Hne]]];
          [left; exact H | right; exists entries; split; [right; exact Hmem | exact Hne]].
      * intros c Hc. apply Hother. cbn [map fst] in Hc. rewrite not_elem_of_cons in Hc. tauto.
    + destruct (round_statistics st k (e :: es) Hitem ltac:(discriminate))
        as [st1 [stats [Hround [Hmap [Hstats Htotal1]]]]].
      destruct (IH st1 Hrest Hdistinct) as [st' [Hrounds [Htotal [Hin [Hout Hother]]]]].
      exists st'. cbn [rounds]. rewrite Hround. cbn [mbind outcome_bind Py.bind].
      repeat apply conj.
      * exact Hrounds.
      * rewrite Htotal, Htotal1. cbn [map snd concat]. rewrite length_app. lia.
      * intros c entries [Heq | Hmem] Hne.
        -- injection Heq as <- <-. exists stats. split; [| exact Hstats].
           rewrite (Hother k Hfresh), Hmap. apply lookup_insert_eq.
        -- apply Hin; assumption.
      * intros c stats' Hc. destruct (Hout c stats' Hc) as [H | [entries [Hmem Hne]]].
        -- rewrite Hmap in H. destruct (decide (c = k)) as [-> | Hck].
           ++ right. exists (e :: es). split; [left; reflexivity | discriminate].
           ++ left. rewrite lookup_insert_ne in H by congruence. exact H.
        -- right. exists entries. split; [right; exact Hmem | exact Hne].
      * intros c Hc. cbn [map fst] in Hc. rewrite not_elem_of_cons in Hc.
        destruct Hc as [Hck Hc].
        rewrite (Hother c Hc), Hmap. apply lookup_insert_ne. congruence.
Qed.

Lemma summary_returns data :
  Spec.all_fit data ->
  exists st overall,
    rounds {| summary_competencies := ∅; summary_total_attempts := 0;
              all_recent_scores := []; all_early_scores := [] |} data = Returned st
    /\ get_progress_summary data
       = Returned {| competencies := summary_competencies st;
                     total_attempts := summary_total_attempts st;
                     overall_trend := overall |}.
Proof.
  intros Hall. unfold get_progress_summary.
  destruct (rounds_return data
              {| summary_competencies := ∅; summary_total_attempts := 0;
                 all_recent_scores := []; all_early_scores := [] |} Hall)
    as [st [Hrounds [Hrecent Hearly]]].
  cbn [all_recent_scores all_early_scores app] in Hrecent, Hearly.
  destruct (qualifying_fit data Hall) as [Hfr Hfe].
  exists st. rewrite Hrounds. cbn [mbind outcome_bind Py.bind].
  rewrite Hrecent, Hearly, (trend_returns (Spec.qualifying data) Hfr Hfe).
  eexists. split; reflexivity.
Qed.

(** X5. For a history whose scores convert to float and whose competencies
    are distinct, [get_progress_summary] returns.  Its total is the number
    of all entries; every competency with entries has statistics, which are
    the mean of its scores, their number, the last score, the last minus the
    first, and their maximum; a competency without entries has none. *)
Theorem progress_summary_statistics (data : ProgressData) :
  Spec.all_fit data ->
  NoDup (map fst data) ->
  exists s,
    get_progress_summary data = Returned s
    /\ total_attempts s = Z.of_nat (length (concat (map snd data)))
    /\ (forall c entries,
           In (c, entries) data -> entries <> [] ->
           exists stats,
             competencies s !! c = Some stats /\ summarises (map score entries) stats)
    /\ (forall c stats,
           competencies s !! c = Some stats ->
           exists entries, In (c, entries) data /\ entries <> []).
Proof.
  intros Hall Hdistinct.
  destruct (summary_returns data Hall) as [st [overall [Hrounds Hsummary]]].
  destruct (rounds_statistics data
              {| summary_competencies := ∅; summary_total_attempts := 0;
                 all_recent_scores := []; all_early_scores := [] |} Hall Hdistinct)
    as [st' [Hrounds' [Htotal [Hin [Hout _]]]]].
  rewrite Hrounds in Hrounds'. injection Hrounds' as <-.
  eexists. split; [exact Hsummary |].
  cbn [total_attempts competencies summary_total_attempts summary_competencies] in *.
  repeat apply conj.
  - rewrite Htotal. lia.
  - exact Hin.
  - intros c stats Hc. destruct (Hout c stats Hc) as [H | H]; [| exact H].
    rewrite lookup_empty in H. discriminate.
Qed.

End Statistics.

(** The summary of the sample history: three attempts. *)
Lemma progress_summary_statistics_witness :
  exists s,
    InterviewManager.get_progress_summary Examples.history = Returned s
    /\ InterviewManager.total_attempts s = 3.
Proof.
  destruct (progress_summary_statistics Examples.history) as [s [Hs [Htotal _]]].
  - repeat constructor.
  - apply (bool_decide_unpack _). vm_compute. exact I.
  - exists s. split; [exact Hs | rewrite Htotal; reflexivity].
Defined.

(** ** The interview manager: the study plan *)

Section Floats.

Lemma SFcompare_asym (x y : spec_float) :
  SFcompare x y = Some Lt -> SFcompare y x = Some Gt.
Proof.
  destruct x as [sx | sx | | sx mx ex], y as [sy | sy | | sy my ey]; cbn; intros H;
    repeat match goal with b : bool |- _ => destruct b end;
    try discriminate; try reflexivity.
  all: change (PosDef.Pos.compare_cont Eq mx my) with (Pos.compare mx my) in H.
  all: change (PosDef.Pos.compare_cont Eq my mx) with (Pos.compare my mx).
  all: rewrite (Z.compare_antisym ex ey), (Pos.compare_antisym mx my).
  all: destruct (ex ?= ey); cbn in *; try discriminate; try reflexivity.
  all: destruct (mx ?= my)%positive; cbn in *; discriminate || reflexivity.
Qed.

Lemma ltb_asym (a b : float) : PrimFloat.ltb a b = true -> PrimFloat.ltb b a = false.
Proof.
  rewrite !ltb_spec. unfold SFltb. intros H.
  destruct (SFcompare (Prim2SF a) (Prim2SF b)) as [[] |] eqn:E; try discriminate.
  rewrite (SFcompare_asym _ _ E). reflexivity.
Qed.

End Floats.

Section StudyPlan.
Import InterviewManager Notions.

Let weak_of (item : string * CompetencySummary) : option (string * float) :=
  if PrimFloat.ltb (average_score (snd item)) 6 then Some (fst item, average_score (snd item))
  else None.

Let strong_of (item : string * CompetencySummary) : option (string * float) :=
  if PrimFloat.ltb (average_score (snd item)) 6 then None
  else if float_ge (average_score (snd item)) 7 then Some (fst item, average_score (snd item))
  else None.

Lemma classify_fold (items : list (string * CompetencySummary)) :
  forall weak strong,
    fold_left classify_competency items (weak, strong)
    = ((weak ++ omap weak_of items)%list, (strong ++ omap strong_of items)%list).
Proof.
  induction items as [| [c data] items IH]; intros weak strong; cbn [fold_left omap list_omap].
  - rewrite !app_nil_r. reflexivity.
  - unfold classify_competency at 2, weak_of at 1, strong_of at 1. cbn [fst snd].
    destruct (PrimFloat.ltb (average_score data) 6).
    + rewrite IH, <- app_assoc. reflexivity.
    + destruct (float_ge (average_score data) 7).
      * rewrite IH, <- app_assoc. reflexivity.
      * rewrite IH. reflexivity.
Qed.

Lemma insert_by_average_perm x sorted : insert_by_average x sorted ≡ₚ x :: sorted.
Proof.
  induction sorted as [| y rest IH]; cbn [insert_by_average]; [reflexivity |].
  destruct (PrimFloat.ltb (snd y) (snd x)); [| reflexivity].
  rewrite IH. apply Permutation_swap.
Qed.

Lemma sort_by_average_perm l : sort_by_average l ≡ₚ l.
Proof.
  unfold sort_by_average. induction l as [| x l IH]; cbn [foldr]; [reflexivity |].
  rewrite insert_by_average_perm, IH. reflexivity.
Qed.

Lemma insert_by_average_sorted x sorted :
  Sorted by_average sorted -> Sorted by_average (insert_by_average x sorted).
Proof.
  induction sorted as [| y rest IH]; intros Hsorted; cbn [insert_by_average].
  - repeat constructor.
  - apply Sorted_inv in Hsorted. destruct Hsorted as [Hrest Hy].
    destruct (PrimFloat.ltb (snd y) (snd x)) eqn:Hyx.
    + constructor; [apply IH; exact Hrest |].
      destruct rest as [| z rest]; cbn [insert_by_average].
      * constructor. unfold by_average. apply ltb_asym. exact Hyx.
      * destruct (PrimFloat.ltb (snd z) (snd x)).
        -- constructor. apply HdRel_inv in Hy. exact Hy.
        -- constructor. unfold by_average. apply ltb_asym. exact Hyx.
    + constructor; [constructor; assumption |]. constructor. exact Hyx.
Qed.

Lemma sort_by_average_sorted l : Sorted by_average (sort_by_average l).
Proof.
  unfold sort_by_average. induction l as [| x l IH]; cbn [foldr]; [constructor |].
  apply insert_by_average_sorted. exact IH.
Qed.

Lemma Sorted_firstn {A} (R : A -> A -> Prop) (n : nat) (l : list A) :
  Sorted R l -> Sorted R (firstn n l).
Proof.
  revert l. induction n as [| n IH]; intros l Hsorted; [constructor |].
  destruct l as [| x l]; [constructor |].
  apply Sorted_inv in Hsorted. destruct Hsorted as [Hl Hx].
  cbn [firstn]. constructor; [apply IH; exact Hl |].
  destruct l as [| y l]; [destruct n; constructor |].
  destruct n; [constructor |]. cbn [firstn]. constructor. apply HdRel_inv in Hx. exact Hx.
Qed.

Lemma schedule_focus_lookup (self : Manager) (focus : list string) :
  forall schedule c,
    fold_left (schedule_focus self) focus schedule !! c
    = match competency_agents self !! c with
      | Some agent =>
          if bool_decide (c ∈ focus) then
            Some (Plan.Practice 3 (Competency._get_sub_competencies agent)
                    ["easy"; "balanced"; "challenging"])
          else schedule !! c
      | None => schedule !! c
      end.
Proof.
  induction focus as [| k focus IH]; intros schedule c; cbn [fold_left].
  - rewrite bool_decide_eq_false_2 by apply not_elem_of_nil.
    destruct (competency_agents self !! c); reflexivity.
  - rewrite IH.
    assert (schedule_focus self schedule k !! c
            = match competency_agents self !! c with
              | Some agent =>
                  if bool_decide (c = k) then
                    Some (Plan.Practice 3 (Competency._get_sub_competencies agent)
                            ["easy"; "balanced"; "challenging"])
                  else schedule !! c
              | None => schedule !! c
              end) as Hstep.
    { unfold schedule_focus. case_bool_decide as Hck.
      - subst c. destruct (competency_agents self !! k); [apply lookup_insert_eq | reflexivity].
      - destruct (competency_agents self !! k);
          [rewrite lookup_insert_ne by congruence |];
          destruct (competency_agents self !! c); reflexivity. }
    rewrite Hstep. destruct (competency_agents self !! c) as [agent |]; [| reflexivity].
    destruct (decide (c = k)) as [-> | Hck].
    + rewrite (bool_decide_eq_true_2 (k ∈ k :: focus)) by apply list_elem_of_here.
      rewrite (bool_decide_eq_true_2 (k = k)) by reflexivity.
      destruct (bool_decide (k ∈ focus)); reflexivity.
    + assert (bool_decide (c ∈ k :: focus) = bool_decide (c ∈ focus)) as ->.
      { apply bool_decide_ext. rewrite elem_of_cons. tauto. }
      rewrite (bool_decide_eq_false_2 (c = k)) by exact Hck. reflexivity.
Qed.

Lemma schedule_maintenance_lookup (strong : list (string * float)) :
  forall schedule c,
    fold_left schedule_maintenance strong schedule !! c
    = if bool_decide (c ∈ map fst strong)
      then Some (Plan.Maintenance 1 "maintenance" ["challenging"])
      else schedule !! c.
Proof.
  induction strong as [| [k avg] strong IH]; intros schedule c; cbn [fold_left map fst].
  - rewrite bool_decide_eq_false_2 by apply not_elem_of_nil. reflexivity.
  - rewrite IH. unfold schedule_maintenance. cbn [fst].
    destruct (decide (c = k)) as [-> | Hck].
    + rewrite lookup_insert_eq.
      rewrite (bool_decide_eq_true_2 (k ∈ k :: map fst strong)) by apply list_elem_of_here.
      destruct (bool_decide _); reflexivity.
    + assert (bool_decide (c ∈ k :: map fst strong) = bool_decide (c ∈ map fst strong)) as ->.
      { apply bool_decide_ext. rewrite elem_of_cons. tauto. }
      destruct (bool_decide _); [reflexivity |]. apply lookup_insert_ne. congruence.
Qed.

Lemma summary_items_lookup data progress c stats :
  In (c, stats) (summary_items data progress) -> competencies progress !! c = Some stats.
Proof.
  unfold summary_items. intros Hin. apply list_elem_of_In, list_elem_of_omap in Hin.
  destruct Hin as [item [_ Hitem]].
  destruct (competencies progress !! fst item) as [found |] eqn:Hfound; [| discriminate].
  cbn in Hitem. injection Hitem as <- <-. exact Hfound.
Qed.

Lemma summary_items_complete data progress c stats :
  c ∈ map fst data -> competencies progress !! c = Some stats ->
  In (c, stats) (summary_items data progress).
Proof.
  unfold summary_items. intros Hc Hstats. apply list_elem_of_In, list_elem_of_omap.
  apply list_elem_of_In, in_map_iff in Hc. destruct Hc as [item [<- Hitem]].
  exists item. split; [apply list_elem_of_In; exact Hitem |].
  rewrite Hstats. reflexivity.
Qed.

Lemma weak_of_in items c avg :
  In (c, avg) (omap weak_of items) <->
  exists stats, In (c, stats) items /\ average_score stats = avg /\ PrimFloat.ltb avg 6 = true.
Proof.
  rewrite <- list_elem_of_In, list_elem_of_omap. split.
  - intros [[k stats] [Hin Hweak]]. unfold weak_of in Hweak. cbn [fst snd] in Hweak.
    destruct (PrimFloat.ltb (average_score stats) 6) eqn:Hlt; [| discriminate].
    injection Hweak as <- <-. exists stats. rewrite <- list_elem_of_In. auto.
  - intros [stats [Hin [<- Hlt]]]. exists (c, stats). rewrite list_elem_of_In.
    split; [exact Hin |]. unfold weak_of. cbn [fst snd]. rewrite Hlt. reflexivity.
Qed.

Lemma strong_of_in items c avg :
  In (c, avg) (omap strong_of items) ->
  exists stats, In (c, stats) items /\ average_score stats = avg
                /\ PrimFloat.ltb avg 6 = false /\ float_ge avg 7 = true.
Proof.
  rewrite <- list_elem_of_In, list_elem_of_omap.
  intros [[k stats] [Hin Hstrong]]. unfold strong_of in Hstrong. cbn [fst snd] in Hstrong.
  destruct (PrimFloat.ltb (average_score stats) 6) eqn:Hlt; [discriminate |].
  destruct (float_ge (average_score stats) 7) eqn:Hge; [| discriminate].
  injection Hstrong as <- <-. exists stats. rewrite <- list_elem_of_In. auto.
Qed.

(** X6. For such a history [create_personalized_study_plan] returns.  The
    focus areas are at most three competencies whose average is below 6,
    weakest first, and all such competencies when fewer than three are
    named; the goal counts 12 practice sessions per focus area; a focus area
    with an agent is scheduled three times a week on the sub-competencies of
    the agent, and every other entry of the schedule is a maintenance entry
    of a competency that averages at least 7. *)
Theorem study_plan_focus (self : Manager) :
  Spec.all_fit (progress_data self) ->
  NoDup (map fst (progress_data self)) ->
  exists progress plan ranked,
    get_progress_summary (progress_data self) = Returned progress
    /\ create_personalized_study_plan self = Returned plan
    /\ Plan.focus_areas plan = map fst ranked
    /\ (length ranked <= 3)%nat
    /\ Sorted by_average ranked
    /\ (forall c avg,
           In (c, avg) ranked ->
           exists stats,
             competencies progress !! c = Some stats
             /\ average_score stats = avg /\ PrimFloat.ltb avg 6 = true)
    /\ ((length ranked < 3)%nat ->
        forall c stats,
          competencies progress !! c = Some stats ->
          PrimFloat.ltb (average_score stats) 6 = true ->
          In c (Plan.focus_areas plan))
    /\ Plan.practice_sessions_total (Plan.goals plan) = 12 * Z.of_nat (length ranked)
    /\ (forall c agent,
           In c (Plan.focus_areas plan) ->
           competency_agents self !! c = Some agent ->
           Plan.practice_schedule plan !! c
           = Some (Plan.Practice 3 (Competency._get_sub_competencies agent)
                     ["easy"; "balanced"; "challenging"]))
    /\ (forall c entry,
           Plan.practice_schedule plan !! c = Some entry ->
           (In c (Plan.focus_areas plan)
            /\ exists agent,
                 competency_agents self !! c = Some agent
                 /\ entry = Plan.Practice 3 (Competency._get_sub_competencies agent)
                              ["easy"; "balanced"; "challenging"])
           \/ (entry = Plan.Maintenance 1 "maintenance" ["challenging"]
               /\ exists stats,
                    competencies progress !! c = Some stats
                    /\ float_ge (average_score stats) 7 = true)).
Proof.
  intros Hall Hdistinct.
  destruct (summary_returns (progress_data self) Hall) as [st [overall [Hrounds Hsummary]]].
  destruct (rounds_statistics (progress_data self)
              {| summary_competencies := ∅; summary_total_attempts := 0;
                 all_recent_scores := []; all_early_scores := [] |} Hall Hdistinct)
    as [st' [Hrounds' [_ [_ [Hout _]]]]].
  rewrite Hrounds in Hrounds'. injection Hrounds' as <-.
  cbn [summary_competencies] in Hout.
  set (progress := {| competencies := summary_competencies st;
                      total_attempts := summary_total_attempts st;
                      overall_trend := overall |}) in *.
  set (items := summary_items (progress_data self) progress).
  set (weak := omap weak_of items).
  set (strong := omap strong_of items).
  set (ranked := firstn 3 (sort_by_average weak)).
  assert (Hranked : forall c avg,
             In (c, avg) ranked ->
             exists stats,
               competencies progress !! c = Some stats
               /\ average_score stats = avg /\ PrimFloat.ltb avg 6 = true).
  { intros c avg Hin. subst ranked. apply list_elem_of_In in Hin.
    apply subseteq_take in Hin. rewrite sort_by_average_perm in Hin.
    apply list_elem_of_In, weak_of_in in Hin. destruct Hin as [stats [Hitem [Havg Hlt]]].
    exists stats. split; [| auto]. eapply summary_items_lookup. exact Hitem. }
  assert (Hstrong : forall c,
             c ∈ map fst (slice_to 2 strong) ->
             exists stats,
               competencies progress !! c = Some stats
               /\ PrimFloat.ltb (average_score stats) 6 = false
               /\ float_ge (average_score stats) 7 = true).
  { intros c Hc. apply list_elem_of_In, in_map_iff in Hc. destruct Hc as [[k avg] [<- Hin]].
    cbn [fst]. apply list_elem_of_In in Hin. unfold slice_to in Hin.
    apply subseteq_take in Hin. apply list_elem_of_In, strong_of_in in Hin.
    destruct Hin as [stats [Hitem [<- [Hlt Hge]]]].
    exists stats. split; [| auto]. eapply summary_items_lookup. exact Hitem. }
  assert (Hfocus : forall c, In c (map fst ranked) -> c ∉ map fst (slice_to 2 strong)).
  { intros c Hc Hs. apply in_map_iff in Hc. destruct Hc as [[k avg] [<- Hin]]. cbn [fst] in Hs.
    destruct (Hranked k avg Hin) as [stats [Hstats [<- Hlt]]].
    destruct (Hstrong k Hs) as [stats' [Hstats' [Hlt' _]]].
    rewrite Hstats in Hstats'. injection Hstats' as <-. congruence. }
  exists progress.
  unfold create_personalized_study_plan. rewrite Hsummary.
  cbn [mbind outcome_bind Py.bind]. fold items. rewrite classify_fold. cbn [app].
  fold weak strong. unfold slice_to at 1. fold ranked.
  eexists. exists ranked. split; [reflexivity |]. split; [reflexivity |].
  cbn [Plan.focus_areas Plan.goals Plan.practice_sessions_total Plan.practice_schedule].
  repeat apply conj.
  - reflexivity.
  - subst ranked. apply firstn_le_length.
  - subst ranked. apply Sorted_firstn, sort_by_average_sorted.
  - exact Hranked.
  - intros Hfew c stats Hstats Hlt.
    assert (ranked = sort_by_average weak) as Hfull.
    { subst ranked. apply take_ge.
      destruct (Nat.le_gt_cases (length (sort_by_average weak)) 3) as [Hle | Hgt];
        [exact Hle |].
      rewrite firstn_length_le in Hfew; lia. }
    apply in_map_iff. exists (c, average_score stats). split; [reflexivity |].
    rewrite Hfull. apply list_elem_of_In. rewrite sort_by_average_perm.
    apply list_elem_of_In, weak_of_in. exists stats. split; [| auto].
    apply summary_items_complete; [| exact Hstats].
    destruct (Hout c stats Hstats) as [Hempty | [entries [Hmem _]]].
    + rewrite lookup_empty in Hempty. discriminate.
    + apply list_elem_of_In, in_map_iff. exists (c, entries). auto.
  - subst ranked. unfold slice_to. rewrite length_map. lia.
  - intros c agent Hc Hagent.
    rewrite schedule_maintenance_lookup.
    rewrite bool_decide_eq_false_2 by (apply Hfocus; exact Hc).
    rewrite schedule_focus_lookup, Hagent.
    rewrite bool_decide_eq_true_2 by (apply list_elem_of_In; exact Hc). reflexivity.
  - intros c entry. rewrite schedule_maintenance_lookup. case_bool_decide as Hs.
    + intros Hentry. injection Hentry as <-. right. split; [reflexivity |].
      destruct (Hstrong c Hs) as [stats [Hstats [_ Hge]]]. exists stats. auto.
    + rewrite schedule_focus_lookup.
      destruct (competency_agents self !! c) as [agent |] eqn:Hagent;
        [| rewrite lookup_empty; discriminate].
      case_bool_decide as Hc; [| rewrite lookup_empty; discriminate].
      intros Hentry. injection Hentry as <-. left.
      split; [apply list_elem_of_In; exact Hc |]. exists agent. auto.
Qed.

End StudyPlan.

(** The study plan of the sample manager. *)
Lemma study_plan_focus_witness :
  exists plan,
    InterviewManager.create_personalized_study_plan Examples.manager = Returned plan
    /\ (length (InterviewManager.Plan.focus_areas plan) <= 3)%nat.
Proof.
  destruct (study_plan_focus Examples.manager)
    as [progress [plan [ranked [_ [Hplan [Hfocus [Hlength _]]]]]]].
  - repeat constructor.
  - apply (bool_decide_unpack _). vm_compute. exact I.
  - exists plan. split; [exact Hplan |]. rewrite Hfocus, length_map. exact Hlength.
Defined.

(** ** The interview manager: the progress report and the practice test *)

Section Report.
Import InterviewManager Notions.

Lemma report_fold (progress : Summary) (names : list string) :
  forall analysis c,
    fold_left (report_round progress) names analysis !! c
    = if bool_decide (c ∈ names) then
        match competencies progress !! c with
        | Some comp_data => Some (analyse_competency comp_data)
        | None => analysis !! c
        end
      else analysis !! c.
Proof.
  induction names as [| k names IH]; intros analysis c; cbn [fold_left].
  - rewrite bool_decide_eq_false_2 by apply not_elem_of_nil. reflexivity.
  - rewrite IH.
    assert (report_round progress analysis k !! c
            = if bool_decide (c = k) then
                match competencies progress !! c with
                | Some comp_data => Some (analyse_competency comp_data)
                | None => analysis !! c
                end
              else analysis !! c) as Hstep.
    { unfold report_round. case_bool_decide as Hck.
      - subst c. destruct (competencies progress !! k); [apply lookup_insert_eq | reflexivity].
      - destruct (competencies progress !! k);
          [apply lookup_insert_ne; congruence | reflexivity]. }
    rewrite Hstep. destruct (decide (c = k)) as [-> | Hck].
    + rewrite (bool_decide_eq_true_2 (k ∈ k :: names)) by apply list_elem_of_here.
      rewrite (bool_decide_eq_true_2 (k = k)) by reflexivity.
      destruct (bool_decide (k ∈ names)), (competencies progress !! k); reflexivity.
    + assert (bool_decide (c ∈ k :: names) = bool_decide (c ∈ names)) as ->.
      { apply bool_decide_ext. rewrite elem_of_cons. tauto. }
      rewrite (bool_decide_eq_false_2 (c = k)) by exact Hck. reflexivity.
Qed.

Lemma analyse_competency_level (comp_data : CompetencySummary) :
  let analysis := analyse_competency comp_data in
  ProgressReport.readiness_level analysis
  = full_label (_assess_readiness_level (average_score comp_data))
  /\ ProgressReport.readiness_level analysis
     <> _assess_readiness_level (average_score comp_data)
  /\ length (ProgressReport.next_steps analysis) = 1%nat
  /\ ProgressReport.key_strengths analysis = []
  /\ ProgressReport.improvement_areas analysis = [].
Proof.
  cbv zeta. unfold analyse_competency, _assess_readiness_level.
  destruct (float_ge (average_score comp_data) 8);
    [| destruct (float_ge (average_score comp_data) 6);
       [| destruct (float_ge (average_score comp_data) 4)]];
    cbn; repeat apply conj; try reflexivity; discriminate.
Qed.

(** X7. For a history whose scores convert to float,
    [export_progress_report] returns the summary and the history as they
    are, no recommendations, and an analysis for exactly the competencies of
    the job that the summary covers.  The readiness level of an analysis is
    the long label of the level [_assess_readiness_level] gives for the
    average ("Good - Nearly Ready" for "Good"), so it is never that level
    itself; an analysis has one next step and neither strengths nor
    improvement areas. *)
Theorem progress_report_levels (self : Manager) (job_info : Job.Info) :
  Spec.all_fit (progress_data self) ->
  exists progress report,
    get_progress_summary (progress_data self) = Returned progress
    /\ export_progress_report self job_info = Returned report
    /\ ProgressReport.performance_summary report = progress
    /\ ProgressReport.detailed_history report = progress_data self
    /\ ProgressReport.recommendations report = []
    /\ (forall c,
           ProgressReport.competency_analysis report !! c
           = if bool_decide (c ∈ competencies_of job_info)
             then analyse_competency <$> competencies progress !! c
             else None)
    /\ (forall c analysis,
           ProgressReport.competency_analysis report !! c = Some analysis ->
           exists stats,
             competencies progress !! c = Some stats
             /\ ProgressReport.readiness_level analysis
                = full_label (_assess_readiness_level (average_score stats))
             /\ ProgressReport.readiness_level analysis
                <> _assess_readiness_level (average_score stats)
             /\ length (ProgressReport.next_steps analysis) = 1%nat
             /\ ProgressReport.key_strengths analysis = []
             /\ ProgressReport.improvement_areas analysis = []).
Proof.
  intros Hall.
  destruct (summary_returns (progress_data self) Hall) as [st [overall [_ Hsummary]]].
  eexists. eexists. split; [exact Hsummary |].
  unfold export_progress_report. rewrite Hsummary. cbn [mbind outcome_bind Py.bind].
  split; [reflexivity |].
  cbn [ProgressReport.performance_summary ProgressReport.detailed_history
       ProgressReport.recommendations ProgressReport.competency_analysis].
  assert (Hlookup : forall c,
             fold_left
               (report_round {| competencies := summary_competencies st;
                                total_attempts := summary_total_attempts st;
                                overall_trend := overall |})
               (competencies_of job_info) ∅ !! c
             = if bool_decide (c ∈ competencies_of job_info)
               then analyse_competency <$> summary_competencies st !! c
               else None).
  { intros c. rewrite report_fold. cbn [competencies]. rewrite lookup_empty.
    destruct (bool_decide _); [| reflexivity].
    destruct (summary_competencies st !! c); reflexivity. }
  repeat apply conj; try reflexivity.
  - exact Hlookup.
  - intros c analysis. rewrite Hlookup. cbn [competencies].
    destruct (bool_decide _); [| discriminate].
    destruct (summary_competencies st !! c) as [stats |]; [| discriminate].
    cbn. intros Heq. injection Heq as <-. exists stats. split; [reflexivity |].
    apply analyse_competency_level.
Qed.

End Report.

(** The report of the sample manager. *)
Lemma progress_report_levels_witness :
  exists report,
    InterviewManager.export_progress_report Examples.manager Examples.job_info
    = Returned report
    /\ InterviewManager.ProgressReport.detailed_history report = Examples.history.
Proof.
  destruct (progress_report_levels Examples.manager Examples.job_info)
    as [progress [report [_ [Hreport [_ [Hhistory _]]]]]].
  - repeat constructor.
  - exists report. split; [exact Hreport | exact Hhistory].
Defined.

Section PracticeTest.
Import InterviewManager.

Lemma competencies_to_use_length (competencies : list string) (n : Z) :
  0 <= n ->
  Z.of_nat (length (competencies_to_use competencies n))
  = Z.min n (2 * Z.of_nat (length competencies)).
Proof.
  intros Hn. unfold competencies_to_use, slice_to_int. cbv zeta.
  destruct (Z.leb_spec 0 n) as [_ | H]; [| lia].
  rewrite !length_take.
  destruct (Nat.min_spec (Z.to_nat n) (length competencies)) as [[Hmin ->] | [Hmin ->]].
  - destruct (Z.ltb_spec (Z.of_nat (Z.to_nat n)) n) as [Hfew | Hall]; [lia |].
    rewrite length_take, Nat.min_l by lia. lia.
  - destruct (Z.ltb_spec (Z.of_nat (length competencies)) n) as [Hfew | Hall].
    + rewrite length_app, length_take, Nat.min_r by lia.
      destruct (Z.leb_spec 0 (n - Z.of_nat (length competencies))); [| lia].
      rewrite length_take.
      destruct (Nat.min_spec (Z.to_nat (n - Z.of_nat (length competencies)))
                  (length competencies)) as [[Hmin' ->] | [Hmin' ->]]; lia.
    + rewrite length_take, Nat.min_r by lia. lia.
Qed.

Lemma competencies_to_use_negative (competencies : list string) (n : Z) :
  n < 0 ->
  competencies_to_use competencies n
  = firstn (length competencies - Z.to_nat (- n)) competencies.
Proof.
  intros Hn. unfold competencies_to_use, slice_to_int. cbv zeta.
  destruct (Z.leb_spec 0 n) as [H | _]; [lia |].
  destruct (Z.ltb_spec
              (Z.of_nat (length (firstn (length competencies - Z.to_nat (- n)) competencies)))
              n) as [Hfew | _]; [lia | reflexivity].
Qed.

Lemma filter_all {A} (P : A -> Prop) `{!forall x, Decision (P x)} (l : list A) :
  Forall P l -> filter P l = l.
Proof.
  induction 1 as [| x l Hx _ IH]; [reflexivity |].
  rewrite filter_cons_True by exact Hx. rewrite IH. reflexivity.
Qed.

Lemma omap_length_le {A B} (f : A -> option B) (l : list A) :
  (length (omap f l) <= length l)%nat.
Proof.
  induction l as [| x l IH]; [reflexivity |]. cbn. destruct (f x); cbn; lia.
Qed.

Lemma omap_length_all {A B} (f : A -> option B) (l : list A) :
  Forall (fun x => is_Some (f x)) l -> length (omap f l) = length l.
Proof.
  induction 1 as [| x l [y Hy] _ IH]; [reflexivity |]. cbn. rewrite Hy. cbn. rewrite IH.
  reflexivity.
Qed.

(** X8. [generate_practice_test] asked for [n >= 0] questions over [k]
    competencies returns at most [min n (2k)] questions, and exactly that
    many when every competency has an agent and every generation returns.
    Asked for a negative number it returns at most [k - |n|] questions: the
    slice drops competencies from the end. *)
Theorem practice_test_size (self : Manager) (job_info : Job.Info)
    (generate : nat -> Generator) (num_questions : Z) :
  let competencies := competencies_of job_info in
  let test := generate_practice_test self job_info generate num_questions in
  (0 <= num_questions ->
   Z.of_nat (length test) <= Z.min num_questions (2 * Z.of_nat (length competencies)))
  /\ (0 <= num_questions ->
      (forall c, c ∈ competencies -> is_Some (competency_agents self !! c)) ->
      (forall i agent, exists q, generate i agent None "balanced" = Returned q) ->
      Z.of_nat (length test) = Z.min num_questions (2 * Z.of_nat (length competencies)))
  /\ (num_questions < 0 ->
      (length test <= length competencies - Z.to_nat (- num_questions))%nat).
Proof.
  cbv zeta. unfold generate_practice_test.
  set (used := competencies_to_use (competencies_of job_info) num_questions).
  set (tasks := filter (fun competency => is_Some (competency_agents self !! competency)) used).
  assert (Hle : (length (omap (fun q => match q with Returned q => Some q | Raised _ => None end)
                           (imap (fun i competency =>
                                    generate_practice_question self (generate i) competency
                                      None "balanced") tasks))
                 <= length used)%nat).
  { etransitivity; [apply omap_length_le |]. rewrite length_imap.
    subst tasks. apply length_filter. }
  repeat apply conj.
  - intros Hn. rewrite <- (competencies_to_use_length _ _ Hn). fold used. lia.
  - intros Hn Hagents Hgenerate.
    rewrite <- (competencies_to_use_length _ _ Hn). fold used. f_equal.
    assert (forall c, c ∈ used -> c ∈ competencies_of job_info) as Hsub.
    { intros c Hc. subst used. unfold competencies_to_use, slice_to_int in Hc.
      cbv zeta in Hc.
      repeat match type of Hc with
             | context [if ?b then _ else _] => destruct b
             end;
        repeat (rewrite elem_of_app in Hc);
        repeat match type of Hc with
               | _ \/ _ => destruct Hc as [Hc | Hc]
               end;
        apply subseteq_take in Hc; exact Hc. }
    assert (tasks = used) as Htasks.
    { subst tasks. apply filter_all. apply Forall_forall. intros c Hc.
      apply Hagents, Hsub, Hc. }
    rewrite Htasks, omap_length_all, length_imap; [reflexivity |].
    apply Forall_forall. intros r Hr. apply list_elem_of_lookup in Hr.
    destruct Hr as [i Hr]. rewrite list_lookup_imap in Hr.
    destruct (used !! i) as [c |] eqn:Hc; [| discriminate]. cbn in Hr.
    injection Hr as <-. unfold generate_practice_question.
    destruct (Hagents c) as [agent ->];
      [apply Hsub; eapply list_elem_of_lookup_2; exact Hc |].
    destruct (Hgenerate i agent) as [q ->]. eexists. reflexivity.
  - intros Hn. etransitivity; [exact Hle |]. subst used.
    rewrite (competencies_to_use_negative _ _ Hn). apply firstn_le_length.
Qed.

End PracticeTest.

(** Three questions asked over one competency: two are generated. *)
Lemma practice_test_size_witness :
  length (InterviewManager.generate_practice_test Samples.manager Examples.single_job
            Examples.generator 3) = 2%nat.
Proof.
  destruct (practice_test_size Samples.manager Examples.single_job Examples.generator 3)
    as [_ [Hexact _]].
  apply Nat2Z.inj. rewrite Hexact; [reflexivity | lia | |].
  - intros c Hc. apply list_elem_of_In in Hc. destruct Hc as [<- | []].
    eexists. reflexivity.
  - intros i agent. eexists. reflexivity.
Defined.

(** ** The interview manager: the analysis of a test *)

Section Performance.
Import InterviewManager Notions.

Lemma dict_append_keys {V} (d : list (string * list V)) (key : string) (v : V) :
  map fst (dict_append d key v)
  = if bool_decide (key ∈ map fst d) then map fst d else (map fst d ++ [key])%list.
Proof.
  induction d as [| [k vs] d IH]; cbn [dict_append map fst].
  - rewrite bool_decide_eq_false_2 by apply not_elem_of_nil. reflexivity.
  - destruct (String.eqb_spec k key) as [-> | Hk]; cbn [map fst].
    + rewrite bool_decide_eq_true_2 by apply list_elem_of_here. reflexivity.
    + rewrite IH. case_bool_decide as Hin.
      * rewrite bool_decide_eq_true_2 by (apply list_elem_of_further; exact Hin). reflexivity.
      * rewrite bool_decide_eq_false_2; [reflexivity |].
        rewrite elem_of_cons. intros [-> | H]; [congruence | contradiction].
Qed.

Lemma dict_append_values {V} (P : V -> Prop) (d : list (string * list V)) (key : string) (v : V) :
  Forall (fun item => snd item <> [] /\ Forall P (snd item)) d -> P v ->
  Forall (fun item => snd item <> [] /\ Forall P (snd item)) (dict_append d key v).
Proof.
  intros Hd Hv. induction Hd as [| [k vs] d [Hne Hvs] Hd IH]; cbn [dict_append].
  - constructor; [| constructor]. cbn. split; [discriminate | repeat constructor; exact Hv].
  - destruct (String.eqb k key).
    + constructor; [| exact Hd]. cbn [snd] in *. split.
      * destruct vs; discriminate.
      * apply Forall_app. split; [exact Hvs | repeat constructor; exact Hv].
    + constructor; [split; assumption | exact IH].
Qed.

(** The grouped scores: distinct competencies, each with at least one
    score, all of them scores of the evaluations. *)
Lemma group_fold (evaluations : list Competency.Evaluation) :
  Forall (fun ev => Spec.fits (Competency.score ev)) evaluations ->
  forall grouped,
    NoDup (map fst grouped) ->
    Forall (fun item => snd item <> [] /\ Forall Spec.fits (snd item)) grouped ->
    let result := fold_left group evaluations grouped in
    NoDup (map fst result)
    /\ Forall (fun item => snd item <> [] /\ Forall Spec.fits (snd item)) result
    /\ (forall c, c ∈ map fst result <->
                  c ∈ map fst grouped
                  \/ (c <> "" /\ exists ev, In ev evaluations /\ Competency.competency ev = c)).
Proof.
  induction 1 as [| ev evaluations Hev Hrest IH]; intros grouped Hdistinct Hvalues; cbv zeta.
  - cbn [fold_left]. repeat apply conj; auto. intros c. split; [auto |].
    intros [H | [_ [ev [[] _]]]]. exact H.
  - cbn [fold_left].
    assert (NoDup (map fst (group grouped ev))
            /\ Forall (fun item => snd item <> [] /\ Forall Spec.fits (snd item))
                      (group grouped ev)
            /\ (forall c, c ∈ map fst (group grouped ev) <->
                          c ∈ map fst grouped
                          \/ (c <> "" /\ Competency.competency ev = c))) as [Hd [Hv Hk]].
    { unfold group. destruct (String.eqb_spec (Competency.competency ev) "") as [Hempty | Hname].
      - repeat apply conj; auto. intros c. split; [auto |].
        intros [H | [Hc Heq]]; [exact H | congruence].
      - repeat apply conj.
        + rewrite dict_append_keys. case_bool_decide as Hin; [exact Hdistinct |].
          apply NoDup_app. split; [exact Hdistinct |]. split; [| apply NoDup_singleton].
          intros x Hx Hx'. apply list_elem_of_singleton in Hx'. subst. contradiction.
        + apply dict_append_values; assumption.
        + intros c. rewrite dict_append_keys. case_bool_decide as Hin.
          * split; [auto |]. intros [H | [_ <-]]; assumption.
          * rewrite elem_of_app, list_elem_of_singleton. split.
            -- intros [H | ->]; [left; exact H | right; auto].
            -- intros [H | [_ <-]]; auto. }
    destruct (IH (group grouped ev) Hd Hv) as [Hd' [Hv' Hk']]. cbv zeta in *.
    repeat apply conj; [exact Hd' | exact Hv' |].
    intros c. rewrite Hk', Hk. split.
    + intros [[H | [Hc Heq]] | [Hc [ev' [Hin Heq]]]].
      * left. exact H.
      * right. split; [exact Hc |]. exists ev. split; [left; reflexivity | exact Heq].
      * right. split; [exact Hc |]. exists ev'. split; [right; exact Hin | exact Heq].
    + intros [H | [Hc [ev' [[-> | Hin] Heq]]]].
      * left. left. exact H.
      * left. right. auto.
      * right. split; [exact Hc |]. exists ev'. auto.
Qed.

(** What the statistics loop keeps true of its locals, for the
    competencies [seen] so far. *)
Let kept (st : Statistics) (seen : list string) : Prop :=
  (forall c, c ∈ strong st -> c ∈ seen)
  /\ (forall c, c ∈ weak st -> c ∈ seen)
  /\ (forall c, c ∈ strong st -> c ∉ weak st)
  /\ NoDup (strong st) /\ NoDup (weak st)
  /\ (forall c, is_Some (breakdown st !! c) <-> c ∈ seen).

Lemma statistics_kept (items : list (string * list Z)) :
  forall st seen,
    kept st seen ->
    NoDup (seen ++ map fst items) ->
    Forall (fun item => snd item <> [] /\ Forall Spec.fits (snd item)) items ->
    exists st',
      statistics st items = Returned st'
      /\ kept st' (seen ++ map fst items)
      /\ all_scores st' = (all_scores st ++ concat (map snd items))%list.
Proof.
  induction items as [| [c scores] items IH]; intros st seen Hkept Hdistinct Hitems.
  - exists st. cbn. rewrite !app_nil_r. auto.
  - apply Forall_cons in Hitems. destruct Hitems as [[Hne Hfit] Hitems]. cbn [snd] in *.
    cbn [map fst] in Hdistinct.
    assert (Hfresh : c ∉ seen).
    { apply NoDup_app in Hdistinct. destruct Hdistinct as [_ [Hsep _]].
      intros Hc. apply (Hsep c Hc). apply list_elem_of_here. }
    destruct Hkept as [Hs [Hw [Hsw [Hds [Hdw Hb]]]]].
    destruct scores as [| first others]; [congruence |].
    assert (exists st1,
               statistics_round st (c, first :: others) = Returned st1
               /\ kept st1 (seen ++ [c])
               /\ all_scores st1 = (all_scores st ++ first :: others)%list)
      as [st1 [Hround [Hkept1 Hscores1]]].
    { unfold statistics_round.
      rewrite (average_returns (first :: others)) by (congruence || assumption).
      cbn [mbind outcome_bind Py.bind]. eexists. split; [reflexivity |].
      split; [| reflexivity]. unfold kept. cbn [strong weak breakdown].
      set (avg := quotient (sum (first :: others)) (Z.of_nat (length (first :: others)))).
      assert (Hbreak : forall c',
                 is_Some (<[c := {| Performance.average_score := avg;
                                    Performance.attempts := Z.of_nat (length (first :: others));
                                    Performance.latest_score := List.last (first :: others) 0;
                                    Performance.improvement :=
                                      if (1 <? length (first :: others))%nat
                                      then List.last (first :: others) 0 - first else 0 |}]>
                            (breakdown st) !! c')
                 <-> c' ∈ (seen ++ [c])%list).
      { intros c'. rewrite elem_of_app, list_elem_of_singleton, <- Hb.
        destruct (decide (c' = c)) as [-> | Hne'].
        - rewrite lookup_insert_eq. split; [auto | intros _; eexists; reflexivity].
        - rewrite lookup_insert_ne by congruence. tauto. }
      destruct (float_ge avg 7); [| destruct (PrimFloat.ltb avg 5)].
      - repeat apply conj; try assumption.
        + intros x. rewrite !elem_of_app, list_elem_of_singleton. intros [H | ->]; auto.
        + intros x Hx. rewrite elem_of_app. auto.
        + intros x. rewrite elem_of_app, list_elem_of_singleton.
          intros [H | ->]; [apply Hsw; exact H | intros H; apply Hfresh, Hw, H].
        + apply NoDup_app. split; [exact Hds |]. split; [| apply NoDup_singleton].
          intros x Hx Hx'. apply list_elem_of_singleton in Hx'. subst. apply Hfresh, Hs, Hx.
      - repeat apply conj; try assumption.
        + intros x Hx. rewrite elem_of_app. auto.
        + intros x. rewrite !elem_of_app, list_elem_of_singleton. intros [H | ->]; auto.
        + intros x Hx. rewrite elem_of_app, list_elem_of_singleton.
          intros [H | ->]; [exact (Hsw x Hx H) | apply Hfresh, Hs, Hx].
        + apply NoDup_app. split; [exact Hdw |]. split; [| apply NoDup_singleton].
          intros x Hx Hx'. apply list_elem_of_singleton in Hx'. subst. apply Hfresh, Hw, Hx.
      - repeat apply conj; try assumption.
        + intros x Hx. rewrite elem_of_app. auto.
        + intros x Hx. rewrite elem_of_app. auto. }
    destruct (IH st1 (seen ++ [c])%list Hkept1) as [st' [Hrest [Hkept' Hscores']]].
    { rewrite <- app_assoc. exact Hdistinct. }
    { exact Hitems. }
    exists st'. cbn [statistics]. rewrite Hround. cbn [mbind outcome_bind Py.bind].
    split; [exact Hrest |]. cbn [map fst snd concat].
    rewrite <- app_assoc in Hkept'. split; [exact Hkept' |].
    rewrite Hscores', Hscores1, <- app_assoc. reflexivity.
Qed.

Lemma weakness_recommendation_length (self : Manager) (weaknesses : list string) :
  (length (flat_map (weakness_recommendation self) weaknesses) <= length weaknesses)%nat.
Proof.
  induction weaknesses as [| w ws IH]; [reflexivity |].
  cbn [flat_map]. rewrite length_app. unfold weakness_recommendation at 1.
  destruct (competency_agents self !! w) as [agent |]; [| cbn; lia].
  destruct (Competency._get_sub_competencies agent); cbn; lia.
Qed.

Lemma recommendations_shape (self : Manager) (analysis : Performance.Analysis) :
  exists specific closing,
    _generate_recommendations self analysis = (specific ++ [closing])%list
    /\ closing ∈ closing_recommendations
    /\ (length specific <= length (Performance.weaknesses analysis) + 1)%nat.
Proof.
  unfold _generate_recommendations.
  pose proof (weakness_recommendation_length self (Performance.weaknesses analysis)) as Hlen.
  eexists. eexists. split; [reflexivity |]. split.
  - unfold closing_recommendations.
    destruct (number_lt _ 5); [| destruct (number_lt _ 7)]; set_solver.
  - destruct (Performance.strengths analysis); [lia |]. rewrite length_app. cbn. lia.
Qed.

(** X9. [analyze_performance] of no evaluation returns the error dict.  Of
    evaluations whose scores convert to float it returns an analysis whose
    breakdown has exactly the non-empty competency names of the evaluations;
    strengths and weaknesses are disjoint, without repetition, and within
    the breakdown; the trend is "stable"; the overall score is the int 0
    when no evaluation names a competency; and the recommendations end with
    one of three closing sentences, after at most one more than there are
    weaknesses. *)
Theorem performance_analysis (self : Manager) :
  analyze_performance self [] = Returned (Performance.NoEvaluations "No evaluations to analyze")
  /\ forall evaluations,
       evaluations <> [] ->
       Forall (fun ev => Spec.fits (Competency.score ev)) evaluations ->
       exists analysis,
         analyze_performance self evaluations = Returned (Performance.Analysed analysis)
         /\ (forall c,
                is_Some (Performance.competency_breakdown analysis !! c) <->
                c <> "" /\ exists ev, In ev evaluations /\ Competency.competency ev = c)
         /\ (forall c,
                c ∈ Performance.strengths analysis ->
                is_Some (Performance.competency_breakdown analysis !! c)
                /\ c ∉ Performance.weaknesses analysis)
         /\ (forall c,
                c ∈ Performance.weaknesses analysis ->
                is_Some (Performance.competency_breakdown analysis !! c))
         /\ NoDup (Performance.strengths analysis)
         /\ NoDup (Performance.weaknesses analysis)
         /\ Performance.trend analysis = "stable"
         /\ (Forall (fun ev => Competency.competency ev = "") evaluations ->
             Performance.overall_score analysis = Int 0)
         /\ exists specific closing,
              Performance.recommendations analysis = (specific ++ [closing])%list
              /\ closing ∈ closing_recommendations
              /\ (length specific <= length (Performance.weaknesses analysis) + 1)%nat.
Proof.
  split; [reflexivity |]. intros evaluations Hne Hfit.
  destruct (group_fold evaluations Hfit [] (NoDup_nil_2) (Forall_nil_2 _))
    as [Hdistinct [Hvalues Hkeys]]. cbv zeta in *.
  assert (Hempty : Forall (fun ev => Competency.competency ev = "") evaluations ->
                   fold_left group evaluations [] = []).
  { intros Hnone. destruct (fold_left group evaluations []) as [| [c scores] rest];
      [reflexivity |]. exfalso.
    assert (c ∈ map fst ((c, scores) :: rest)) as Hc by apply list_elem_of_here.
    apply Hkeys in Hc.
    destruct Hc as [Hc | [Hc [ev' [Hin Heq]]]]; [apply not_elem_of_nil in Hc; contradiction |].
    rewrite Forall_forall in Hnone. apply Hc. rewrite <- Heq. apply Hnone.
    apply list_elem_of_In. exact Hin. }
  set (grouped := fold_left group evaluations []) in *.
  destruct (statistics_kept grouped
              {| breakdown := ∅; strong := []; weak := []; all_scores := [] |} [])
    as [st [Hstats [Hkept Hscores]]].
  { unfold kept. cbn [strong weak breakdown].
    repeat apply conj; try apply NoDup_nil_2; try (intros c Hc; exact Hc).
    - intros c Hc. apply not_elem_of_nil in Hc. contradiction.
    - intros c. rewrite lookup_empty. split; [intros [x Hx]; discriminate |].
      intros Hc. apply not_elem_of_nil in Hc. contradiction. }
  { exact Hdistinct. }
  { exact Hvalues. }
  cbn [app all_scores] in Hkept, Hscores.
  destruct Hkept as [Hs [Hw [Hsw [Hds [Hdw Hb]]]]].
  assert (Hall : Forall Spec.fits (all_scores st)).
  { rewrite Hscores. apply Forall_concat. apply Forall_map.
    eapply Forall_impl; [exact Hvalues |]. intros item [_ H]. exact H. }
  assert (exists overall,
             match all_scores st with
             | [] => Returned (Int 0)
             | scores => mean ← average scores; Returned (Float mean)
             end = Returned overall
             /\ (all_scores st = [] -> overall = Int 0)) as [overall [Hoverall Hzero]].
  { destruct (all_scores st) as [| x l] eqn:E.
    - exists (Int 0). auto.
    - rewrite (average_returns (x :: l)) by (congruence || assumption).
      eexists. split; [reflexivity | discriminate]. }
  destruct evaluations as [| ev evaluations]; [congruence |].
  unfold analyze_performance. fold grouped. rewrite Hstats.
  cbn [mbind outcome_bind Py.bind]. rewrite Hoverall. cbn [mbind outcome_bind Py.bind].
  eexists. split; [reflexivity |].
  cbn [Performance.competency_breakdown Performance.strengths Performance.weaknesses
       Performance.trend Performance.overall_score Performance.recommendations].
  repeat apply conj; try assumption; try reflexivity.
  - intros c. rewrite Hb, Hkeys. split.
    + intros [H | H]; [apply not_elem_of_nil in H; contradiction | exact H].
    + auto.
  - intros c Hc. split; [apply Hb, Hs, Hc | apply Hsw, Hc].
  - intros c Hc. apply Hb, Hw, Hc.
  - intros Hnone. apply Hzero. rewrite Hscores, (Hempty Hnone). reflexivity.
  - apply (recommendations_shape self
             {| Performance.overall_score := overall;
                Performance.competency_breakdown := breakdown st;
                Performance.strengths := strong st;
                Performance.weaknesses := weak st;
                Performance.recommendations := [];
                Performance.trend := "stable" |}).
Qed.

End Performance.

(** Two answers on problem solving, scored 8 and 4. *)
Lemma performance_analysis_witness :
  exists analysis,
    InterviewManager.analyze_performance Samples.manager
      [Samples.evaluation 8; Samples.evaluation 4]
    = Returned (InterviewManager.Performance.Analysed analysis)
    /\ is_Some (InterviewManager.Performance.competency_breakdown analysis
                  !! "Problem Solving").
Proof.
  destruct (performance_analysis Samples.manager) as [_ Hanalysis].
  destruct (Hanalysis [Samples.evaluation 8; Samples.evaluation 4])
    as [analysis [Hreturned [Hbreakdown _]]].
  - discriminate.
  - repeat constructor.
  - exists analysis. split; [exact Hreturned |].
    apply Hbreakdown. split; [discriminate |].
    exists (Samples.evaluation 8). split; [left; reflexivity | reflexivity].
Defined.

(** ** The final response of a run *)

Section FinalResponse.
Import Notions.

Lemma scan_silent (quiet rest : list Adk.Event) :
  Forall silent quiet -> Adk.scan (quiet ++ rest) = Adk.scan rest.
Proof.
  induction 1 as [| ev quiet Hev _ IH]; [reflexivity |].
  cbn. unfold silent, event_text in Hev. rewrite Hev. cbn. exact IH.
Qed.

Lemma scan_text (ev : Adk.Event) (rest : list Adk.Event) :
  event_text ev <> "" -> Adk.scan (ev :: rest) = event_text ev.
Proof.
  intros Hev. cbn. fold (event_text ev).
  destruct (String.eqb_spec (event_text ev) ""); [contradiction | reflexivity].
Qed.

Lemma final_text_last (before after : list Adk.Event) (ev : Adk.Event) :
  event_text ev <> "" -> Forall silent after ->
  Adk.final_text (before ++ ev :: after) = event_text ev.
Proof.
  intros Hev Hafter. unfold Adk.final_text.
  rewrite rev_app_distr. cbn [rev]. rewrite <- app_assoc.
  rewrite scan_silent by (apply Forall_rev; exact Hafter).
  apply scan_text. exact Hev.
Qed.

Lemma final_text_silent (events : list Adk.Event) :
  Forall silent events -> Adk.final_text events = "".
Proof.
  intros H. unfold Adk.final_text.
  rewrite <- (app_nil_r (rev events)). rewrite scan_silent; [reflexivity |].
  apply Forall_rev. exact H.
Qed.

(** X10. The final response of a run is the first non-empty text part of
    the last event that has one.  The competency agent returns it as it is;
    the transcription agent, the speech coach and the workflow strip it.
    From a run without text the competency agent gets "No response
    generated", the other three the empty string. *)
Theorem final_response_is_last_text :
  (forall (before after : list Adk.Event) (ev : Adk.Event),
      event_text ev <> "" -> Forall silent after ->
      let events := (before ++ ev :: after)%list in
      Adk.final_text events = event_text ev
      /\ Competency._extract_final_response events = event_text ev
      /\ Transcription._extract_final_response events = strip (event_text ev)
      /\ SpeechCoach._extract_final_response events = strip (event_text ev)
      /\ Workflow._extract_final_response events = strip (event_text ev))
  /\ (forall events : list Adk.Event,
         Forall silent events ->
         Adk.final_text events = ""
         /\ Competency._extract_final_response events = "No response generated"
         /\ Transcription._extract_final_response events = ""
         /\ SpeechCoach._extract_final_response events = ""
         /\ Workflow._extract_final_response events = "")
  /\ (forall (quiet rest : list Adk.Part) (p : Adk.Part) (t : string),
         Forall (fun q => Adk.text q = None \/ Adk.text q = Some "") quiet ->
         Adk.text p = Some t -> t <> "" ->
         event_text {| Adk.parts := Some (quiet ++ p :: rest)%list |} = t).
Proof.
  repeat apply conj.
  - intros before after ev Hev Hafter. cbv zeta.
    unfold Competency._extract_final_response, Transcription._extract_final_response,
      SpeechCoach._extract_final_response, Workflow._extract_final_response.
    rewrite (final_text_last before after ev Hev Hafter).
    repeat apply conj; try reflexivity.
    destruct (String.eqb_spec (event_text ev) ""); [contradiction | reflexivity].
  - intros events Hsilent.
    unfold Competency._extract_final_response, Transcription._extract_final_response,
      SpeechCoach._extract_final_response, Workflow._extract_final_response.
    rewrite (final_text_silent events Hsilent). repeat apply conj; reflexivity.
  - intros quiet rest p t Hquiet Hp Ht. unfold event_text. cbn [Adk.parts].
    induction Hquiet as [| q quiet [Hq | Hq] _ IH]; cbn [app Adk.first_text].
    + rewrite Hp. destruct (String.eqb_spec t ""); [contradiction | reflexivity].
    + rewrite Hq. exact IH.
    + rewrite Hq. cbn. exact IH.
Qed.

Lemma final_response_is_last_text_witness :
  Competency._extract_final_response
    (Samples.reply_events "Score: 7/10" ++ [ {| Adk.parts := Some [] |} ])%list
  = "Score: 7/10"
  /\ Competency._extract_final_response [ {| Adk.parts := None |} ] = "No response generated".
Proof.
  destruct final_response_is_last_text as [Hlast [Hnone _]]. split.
  - apply (Hlast [ {| Adk.parts := None |} ] [ {| Adk.parts := Some [] |} ]
             {| Adk.parts := Some [ {| Adk.text := None |};
                                    {| Adk.text := Some "Score: 7/10" |} ] |}).
    + discriminate.
    + repeat constructor.
  - apply (Hnone [ {| Adk.parts := None |} ]). repeat constructor.
Defined.

End FinalResponse.

Section Answers.
Import InterviewManager.

(** X11. [answer_question] never returns the empty string: it returns the
    final text of the run when there is one, and the apology when the
    coordinator cannot be initialised or the run raises. *)
Theorem answer_is_never_empty (initialized : outcome unit)
    (run : string -> string -> outcome (list Adk.Event)) (question context : string) :
  let answer := answer_question initialized run question context in
  answer <> ""
  /\ (forall events,
         initialized = Returned tt -> run question context = Returned events ->
         Adk.final_text events <> "" -> answer = Adk.final_text events)
  /\ ((exists e, initialized = Raised e) \/ (exists e, run question context = Raised e) ->
      answer
      = "I apologize, but I encountered an error processing your question. Please try again.").
Proof.
  cbv zeta. unfold answer_question. repeat apply conj.
  - destruct initialized as [[] | e]; [| discriminate].
    destruct (run question context) as [events | e]; [| discriminate].
    destruct (String.eqb_spec (Adk.final_text events) ""); [discriminate | assumption].
  - intros events -> -> Htext.
    destruct (String.eqb_spec (Adk.final_text events) ""); [contradiction | reflexivity].
  - intros [[e ->] | [e Hrun]]; [reflexivity |]. rewrite Hrun.
    destruct initialized; reflexivity.
Qed.

End Answers.

(** ** The job analyzer: industry and technologies *)

Section Industry.
Import JobAnalyzer.

Variable text title : string.

Let industry_entry (row : string * list string) : option (string * Z) :=
  let score := industry_score (lower text) (lower title) (snd row) in
  if 0 <? score then Some (fst row, score) else None.

Lemma tally_industry_fold table :
  forall counter,
    fold_left (tally_industry (lower text) (lower title)) table counter
    = (counter ++ omap industry_entry table)%list.
Proof.
  induction table as [| row table IH]; intros counter; cbn [fold_left omap list_omap].
  - rewrite app_nil_r. reflexivity.
  - rewrite IH. unfold tally_industry, industry_entry.
    destruct (0 <? industry_score (lower text) (lower title) (snd row)).
    + rewrite <- app_assoc. reflexivity.
    + reflexivity.
Qed.

Lemma industry_scores_is :
  industry_scores text title = omap industry_entry INDUSTRY_KEYWORDS.
Proof. unfold industry_scores. rewrite tally_industry_fold. reflexivity. Qed.

Lemma industry_entry_in (c : string) (n : Z) :
  (c, n) ∈ industry_scores text title <->
  exists keywords,
    (c, keywords) ∈ INDUSTRY_KEYWORDS
    /\ n = industry_score (lower text) (lower title) keywords /\ 0 < n.
Proof.
  rewrite industry_scores_is, list_elem_of_omap. split.
  - intros [[name keywords] [Hrow Hentry]]. exists keywords.
    unfold industry_entry in Hentry. cbn [fst snd] in Hentry.
    destruct (Z.ltb_spec 0 (industry_score (lower text) (lower title) keywords))
      as [Hpos | _]; [| discriminate].
    injection Hentry as <- <-. auto.
  - intros [keywords [Hrow [-> Hpos]]]. exists (c, keywords). split; [exact Hrow |].
    unfold industry_entry. cbn [fst snd]. apply Z.ltb_lt in Hpos. rewrite Hpos. reflexivity.
Qed.

End Industry.

Section IndustryChoice.
Import JobAnalyzer.

Lemma most_common_first (counter : list (string * Z)) :
  counter <> [] ->
  exists x,
    most_common 1 counter = [x] /\ x ∈ counter /\ forall y, y ∈ counter -> snd y <= snd x.
Proof.
  intros Hne. unfold most_common.
  pose proof (sort_perm counter) as Hperm. pose proof (sort_sorted counter) as Hsorted.
  destruct (foldr insert_by_count [] counter) as [| x sorted] eqn:E.
  - apply Permutation_nil_l in Hperm. congruence.
  - exists x. cbn [firstn]. split; [reflexivity |]. split.
    + rewrite <- Hperm. apply list_elem_of_here.
    + intros y Hy. rewrite <- Hperm in Hy. apply elem_of_cons in Hy.
      destruct Hy as [-> | Hy]; [lia |].
      apply StronglySorted_inv in Hsorted. destruct Hsorted as [_ Hx].
      rewrite Forall_forall in Hx. apply Hx. exact Hy.
Qed.

(** X12. [_determine_industry] returns an industry of INDUSTRY_KEYWORDS.
    The industries it counts are those whose keywords score above 0 in the
    text and title; when none does the result is "technology", and otherwise
    it is a counted industry whose score no other exceeds. *)
Theorem industry_is_best_scoring (text title : string) :
  let counter := industry_scores text title in
  let industry := _determine_industry text title in
  industry ∈ map fst INDUSTRY_KEYWORDS
  /\ (forall c n,
         (c, n) ∈ counter <->
         exists keywords,
           (c, keywords) ∈ INDUSTRY_KEYWORDS
           /\ n = industry_score (lower text) (lower title) keywords /\ 0 < n)
  /\ (counter = [] -> industry = "technology")
  /\ (counter <> [] ->
      exists score,
        (industry, score) ∈ counter /\ forall c n, (c, n) ∈ counter -> n <= score).
Proof.
  cbv zeta.
  assert (Hchoice : industry_scores text title <> [] ->
                    exists score,
                      (_determine_industry text title, score) ∈ industry_scores text title
                      /\ forall c n, (c, n) ∈ industry_scores text title -> n <= score).
  { intros Hne. unfold _determine_industry.
    destruct (most_common_first _ Hne) as [[name score] [Htop [Hin Hbest]]].
    destruct (industry_scores text title) as [| first rest] eqn:E; [congruence |].
    rewrite Htop. cbn [hd fst]. exists score. split; [exact Hin |].
    intros c n Hcn. apply (Hbest (c, n) Hcn). }
  repeat apply conj.
  - destruct (industry_scores text title) as [| first rest] eqn:E.
    + unfold _determine_industry. rewrite E. apply (bool_decide_unpack _). vm_compute. exact I.
    + destruct Hchoice as [score [Hin _]]; [discriminate |].
      rewrite <- E in Hin. apply industry_entry_in in Hin.
      destruct Hin as [keywords [Hrow _]].
      apply list_elem_of_In, in_map_iff. exists (_determine_industry text title, keywords).
      split; [reflexivity | apply list_elem_of_In; exact Hrow].
  - apply industry_entry_in.
  - intros Hempty. unfold _determine_industry. rewrite Hempty. reflexivity.
  - exact Hchoice.
Qed.

End IndustryChoice.

Section Technologies.
Import JobAnalyzer.

Lemma search_word_from_found (literal : string) (s : string) :
  forall before,
    search_word_from before literal s = true ->
    exists skipped rest neighbour,
      s = skipped ++ rest /\ word_at neighbour literal rest = true.
Proof.
  induction s as [| c s IH]; intros before Hfound; cbn [search_word_from] in Hfound.
  - apply orb_true_iff in Hfound. destruct Hfound as [Hhere | Hlater]; [| discriminate].
    exists "", "", before. auto.
  - apply orb_true_iff in Hfound. destruct Hfound as [Hhere | Hlater].
    + exists "", (String c s), before. auto.
    + destruct (IH _ Hlater) as [skipped [rest [neighbour [-> Hword]]]].
      exists (String c skipped), rest, neighbour. auto.
Qed.

Lemma lower_char_sharp (c : ascii) : lower_char c = "#"%char -> c = "#"%char.
Proof.
  destruct c as [[] [] [] [] [] [] [] []]; intros H; vm_compute in H;
    first [reflexivity | discriminate].
Qed.

Lemma lower_char_plus (c : ascii) : lower_char c = "+"%char -> c = "+"%char.
Proof.
  destruct c as [[] [] [] [] [] [] [] []]; intros H; vm_compute in H;
    first [reflexivity | discriminate].
Qed.

Lemma prefix_cons (c d : ascii) (p s : string) :
  String.prefix (String c p) (String d s) = true -> c = d /\ String.prefix p s = true.
Proof.
  cbn. destruct (Ascii.ascii_dec c d) as [-> | Hne]; [auto | discriminate].
Qed.

Lemma boundary_after_symbol (c : ascii) (next : option ascii) :
  isword c = false -> boundary (Some c) next = true ->
  exists d, next = Some d /\ isword d = true.
Proof.
  unfold boundary, isword_at. intros -> Hnext.
  destruct next as [d |]; [| discriminate].
  exists d. split; [reflexivity |]. destruct (isword d); [reflexivity | discriminate].
Qed.

(** X13. The technology scan of [_extract_basic_info] reports "C++" or "C#"
    only when the text has the name, in any letter case, directly followed
    by a letter, a digit or an underscore: the word boundary that closes the
    pattern does not match after "+" or "#" at the end of the text or before
    a space. *)
Theorem symbol_names_need_a_word_character (text tech : string) :
  tech = "C++" \/ tech = "C#" ->
  In tech (found_techs text) ->
  exists before matched c after,
    text = before ++ matched ++ String c after
    /\ lower matched = lower tech
    /\ isword c = true.
Proof.
  intros Htech Hfound. unfold found_techs in Hfound.
  apply list_elem_of_In, list_elem_of_filter in Hfound. destruct Hfound as [Hsearch _].
  destruct (search_word_from_found tech text None Hsearch)
    as [skipped [rest [neighbour [-> Hword]]]].
  unfold word_at in Hword. apply andb_prop in Hword. destruct Hword as [Hword Hend].
  apply andb_prop in Hword. destruct Hword as [Hprefix _].
  unfold prefix_ignorecase in Hprefix.
  assert (Hshort : forall p s,
             (String.length s < String.length p)%nat -> String.prefix p s = false).
  { induction p as [| x p IHp]; intros s Hlen; [cbn in Hlen; lia |].
    destruct s as [| y s]; [reflexivity |]. cbn [String.prefix].
    destruct (Ascii.ascii_dec x y); [| reflexivity]. apply IHp. cbn in Hlen. lia. }
  destruct Htech as [-> | ->].
  - destruct rest as [| c1 [| c2 [| c3 tail]]];
      try (rewrite Hshort in Hprefix by (cbn; lia); discriminate).
    change (lower "C++") with "c++" in Hprefix. cbn [lower] in Hprefix.
    apply prefix_cons in Hprefix. destruct Hprefix as [H1 Hprefix].
    apply prefix_cons in Hprefix. destruct Hprefix as [H2 Hprefix].
    apply prefix_cons in Hprefix. destruct Hprefix as [H3 _].
    symmetry in H3. apply lower_char_plus in H3. subst c3.
    destruct tail as [| c after]; [vm_compute in Hend; discriminate |].
    cbn [String.length substring drop last_char head_char] in Hend.
    apply boundary_after_symbol in Hend; [| reflexivity].
    destruct Hend as [d [Hd Hword]]. injection Hd as <-.
    exists skipped, (String c1 (String c2 (String "+" ""))), c, after.
    split; [reflexivity |]. split; [| exact Hword].
    cbn [lower]. rewrite <- H1, <- H2. reflexivity.
  - destruct rest as [| c1 [| c2 tail]];
      try (rewrite Hshort in Hprefix by (cbn; lia); discriminate).
    change (lower "C#") with "c#" in Hprefix. cbn [lower] in Hprefix.
    apply prefix_cons in Hprefix. destruct Hprefix as [H1 Hprefix].
    apply prefix_cons in Hprefix. destruct Hprefix as [H2 _].
    symmetry in H2. apply lower_char_sharp in H2. subst c2.
    destruct tail as [| c after]; [vm_compute in Hend; discriminate |].
    cbn [String.length substring drop last_char head_char] in Hend.
    apply boundary_after_symbol in Hend; [| reflexivity].
    destruct Hend as [d [Hd Hword]]. injection Hd as <-.
    exists skipped, (String c1 (String "#" "")), c, after.
    split; [reflexivity |]. split; [| exact Hword].
    cbn [lower]. rewrite <- H1. reflexivity.
Qed.

End Technologies.

(** "C++" is found before "11". *)
Lemma symbol_names_need_a_word_character_witness :
  exists before matched c after,
    "Built in C++11 and Go" = before ++ matched ++ String c after
    /\ lower matched = lower "C++"
    /\ isword c = true.
Proof.
  apply (symbol_names_need_a_word_character "Built in C++11 and Go" "C++").
  - left. reflexivity.
  - vm_compute. tauto.
Defined.

(** ** The selected competencies; the counters of the workflow *)

Section SelectedCompetencies.
Import JobAnalyzer.

Lemma selection_is (text : string) (ai_analysis : AiAnalysis) :
  let top := most_common 6 (competency_scores text ai_analysis) in
  NoDup (fst <$> top)
  /\ (forall x, x ∈ (fst <$> top) -> x ∈ (fst <$> competency_keywords))
  /\ _extract_competencies text ai_analysis
     = ((fst <$> top) ++ filter (fun e => e ∉ (fst <$> top)) essential)%list.
Proof.
  cbv zeta.
  assert (Htop_in : forall x,
             x ∈ most_common 6 (competency_scores text ai_analysis) ->
             x ∈ competency_scores text ai_analysis).
  { intros x Hx. unfold most_common in Hx.
    apply subseteq_take in Hx. rewrite sort_perm in Hx. exact Hx. }
  assert (Hnames : NoDup (fst <$> most_common 6 (competency_scores text ai_analysis))).
  { unfold most_common. rewrite fmap_take.
    eapply sublist_NoDup; [| apply sublist_take].
    rewrite sort_perm. apply counter_names_distinct. }
  assert (Hsub : forall x,
             x ∈ (fst <$> most_common 6 (competency_scores text ai_analysis)) ->
             x ∈ (fst <$> competency_keywords)).
  { intros x Hx. apply list_elem_of_fmap in Hx. destruct Hx as [entry [-> Hentry]].
    apply Htop_in in Hentry.
    rewrite (counter_is text ai_analysis _ eq_refl) in Hentry.
    eapply elem_of_sublist; [| apply omap_names].
    apply list_elem_of_fmap_2. exact Hentry. }
  repeat apply conj; [exact Hnames | exact Hsub |].
  unfold _extract_competencies.
  rewrite map_fmap, (ensure_missing _ essential_distinct).
  apply take_ge. apply selection_fits; assumption.
Qed.

Lemma known_sub_competencies (c : string) :
  c ∈ (fst <$> competency_keywords) ->
  length (dict_get Competency.sub_competency_map c []) = 4%nat.
Proof.
  unfold competency_keywords. cbn [fmap list_fmap fst].
  rewrite !elem_of_cons, elem_of_nil.
  intros H; repeat (destruct H as [-> | H]; [reflexivity |]); contradiction.
Qed.

(** X14. [_extract_competencies] returns between three and eight distinct
    competencies, all of CORE_COMPETENCIES, and the competency agent of each
    has four sub-competencies. *)
Theorem selected_competencies_are_known (text : string) (ai_analysis : AiAnalysis) :
  let selected := _extract_competencies text ai_analysis in
  NoDup selected
  /\ (3 <= length selected <= 8)%nat
  /\ (forall c, c ∈ selected -> c ∈ Job.CORE_COMPETENCIES)
  /\ (forall c agent,
         c ∈ selected -> Competency.agent_competency agent = c ->
         length (Competency._get_sub_competencies agent) = 4%nat).
Proof.
  cbv zeta. destruct (selection_is text ai_analysis) as [Hnames [Hsub Hselected]].
  cbv zeta in *. set (top := most_common 6 (competency_scores text ai_analysis)) in *.
  assert (Hknown : forall c,
             c ∈ _extract_competencies text ai_analysis -> c ∈ (fst <$> competency_keywords)).
  { intros c. rewrite Hselected, elem_of_app, list_elem_of_filter.
    intros [Hc | [_ Hc]]; [apply Hsub; exact Hc | apply essential_in_table; exact Hc]. }
  assert (Hdistinct : NoDup (_extract_competencies text ai_analysis)).
  { rewrite Hselected. apply NoDup_app. split; [exact Hnames |]. split.
    - intros x Hx Hin. apply list_elem_of_filter in Hin. destruct Hin as [Hout _].
      exact (Hout Hx).
    - apply NoDup_filter, essential_distinct. }
  repeat apply conj.
  - exact Hdistinct.
  - change 3%nat with (length essential).
    apply submseteq_length, NoDup_submseteq; [apply essential_distinct |].
    intros e He. rewrite Hselected, elem_of_app, list_elem_of_filter.
    destruct (decide (e ∈ (fst <$> top))); [left | right]; auto.
  - rewrite Hselected. apply selection_fits; assumption.
  - intros c Hc. apply Hknown in Hc. exact Hc.
  - intros c agent Hc <-. unfold Competency._get_sub_competencies.
    apply known_sub_competencies, Hknown, Hc.
Qed.

End SelectedCompetencies.

Section Counters.
Import Workflow Notions.

Lemma bump_self (key : string) (metrics : gmap string Z) :
  metric key (bump key metrics) = metric key metrics + 1.
Proof. unfold metric, bump. rewrite lookup_insert_eq. reflexivity. Qed.

Lemma bump_other (key other : string) (metrics : gmap string Z) :
  key <> other -> metric other (bump key metrics) = metric other metrics.
Proof. intros H. unfold metric, bump. rewrite lookup_insert_ne by exact H. reflexivity. Qed.

(** The three ways a call ends, with what each does to the counters. *)
Lemma run_cases (env : Collaborators) (self : Agent) (metrics : gmap string Z)
    (workflow_id : string) (question : Interview.Question) (audio_data : list Byte.byte)
    (mime : string) :
  let '(result, metrics') :=
    process_voice_question_response env self metrics workflow_id question audio_data mime in
  (Final.status result = "success" /\ Final.stage result = None
   /\ metrics' = bump "content_and_delivery_analyzed" (bump "successful_workflows" metrics))
  \/ (Final.status result = "failed" /\ Final.stage result = Some "content_analysis"
      /\ metrics' = metrics)
  \/ (Final.status result = "failed" /\ Final.stage result = Some "workflow_error"
      /\ metrics' = bump "failed_workflows" metrics).
Proof.
  unfold process_voice_question_response, completed.
  destruct (_run_parallel_analysis env self audio_data mime question workflow_id)
    as [content delivery].
  destruct (Content.is_empty content
            || negb (bool_decide (Content.status content = Some "success"))).
  - right. left. auto.
  - destruct (_synthesize_evaluations env self content _ question workflow_id).
    + left. auto.
    + right. right. auto.
Qed.

Lemma count_snoc {A} (P : A -> Prop) `{!forall x, Decision (P x)} (l : list A) (x : A) :
  Z.of_nat (length (filter P (l ++ [x])%list))
  = Z.of_nat (length (filter P l)) + (if decide (P x) then 1 else 0).
Proof.
  rewrite filter_app, length_app, filter_cons, filter_nil.
  destruct (decide (P x)); cbn [length]; lia.
Qed.

Lemma session_counters (self : Agent) (runs : list Run) :
  forall results metrics,
    length (fst (fold_left (run_once self) runs (results, metrics)))
    = (length results + length runs)%nat
    /\ (let '(results', metrics') := fold_left (run_once self) runs (results, metrics) in
        metric "successful_workflows" metrics' - with_status "success" results'
        = metric "successful_workflows" metrics - with_status "success" results
        /\ metric "content_and_delivery_analyzed" metrics' - with_status "success" results'
           = metric "content_and_delivery_analyzed" metrics - with_status "success" results
        /\ metric "failed_workflows" metrics' - at_stage "workflow_error" results'
           = metric "failed_workflows" metrics - at_stage "workflow_error" results
        /\ with_status "success" results' + at_stage "workflow_error" results'
           + at_stage "content_analysis" results' - Z.of_nat (length results')
           = with_status "success" results + at_stage "workflow_error" results
             + at_stage "content_analysis" results - Z.of_nat (length results)
        /\ with_status "failed" results' - at_stage "workflow_error" results'
           - at_stage "content_analysis" results'
           = with_status "failed" results - at_stage "workflow_error" results
             - at_stage "content_analysis" results).
Proof.
  induction runs as [| run runs IH]; intros results metrics.
  - cbn. repeat apply conj; try reflexivity. lia.
  - cbn [fold_left]. unfold run_once at 2 4.
    pose proof (run_cases (run_env run) self metrics (run_workflow_id run)
                  (run_question run) (run_audio_data run) (run_mime_type run)) as Hrun.
    destruct (process_voice_question_response (run_env run) self metrics (run_workflow_id run)
                (run_question run) (run_audio_data run) (run_mime_type run))
      as [result metrics1].
    destruct (IH (results ++ [result])%list metrics1) as [Hlen Hrest].
    split; [rewrite Hlen, length_app; cbn; lia |].
    destruct (fold_left (run_once self) runs ((results ++ [result])%list, metrics1))
      as [results' metrics'].
    destruct Hrest as [H1 [H2 [H3 [H4 H5]]]].
    unfold with_status, at_stage in *.
    rewrite !count_snoc, length_app in *. cbn [length] in *.
    destruct Hrun as [[Hstatus [Hstage ->]] | [[Hstatus [Hstage ->]] | [Hstatus [Hstage ->]]]];
      rewrite Hstatus, Hstage in *;
      repeat match goal with
             | H : context [decide ?P] |- _ => destruct (decide P); try congruence
             | |- context [decide ?P] => destruct (decide P); try congruence
             end;
      rewrite ?bump_self, ?bump_other in * by discriminate;
      rewrite ?bump_self, ?bump_other in * by discriminate;
      repeat apply conj; lia.
Qed.

(** X15. Over any sequence of calls of [process_voice_question_response] on
    an agent with fresh counters there is one result per call, each with
    status "success" or "failed".  The counters successful_workflows and
    content_and_delivery_analyzed both count the successes;
    failed_workflows counts the results failed at stage workflow_error only,
    not those failed at stage content_analysis. *)
Theorem workflow_counters (self : Agent) (runs : list Run) :
  let '(results, metrics) := session self runs in
  length results = length runs
  /\ metric "successful_workflows" metrics = with_status "success" results
  /\ metric "content_and_delivery_analyzed" metrics = with_status "success" results
  /\ metric "failed_workflows" metrics = at_stage "workflow_error" results
  /\ with_status "failed" results
     = at_stage "workflow_error" results + at_stage "content_analysis" results
  /\ with_status "success" results + with_status "failed" results = Z.of_nat (length runs).
Proof.
  unfold session. destruct (session_counters self runs [] ∅) as [Hlen Hrest].
  destruct (fold_left (run_once self) runs ([], ∅)) as [results metrics].
  cbn [fst length] in Hlen. destruct Hrest as [H1 [H2 [H3 [H4 H5]]]].
  unfold with_status, at_stage, metric in *. cbn in H1, H2, H3, H4, H5.
  rewrite lookup_empty in *. cbn in *.
  repeat apply conj; lia.
Qed.

End Counters.

(** ** A competency without agent; the outcome of the speech coach *)

Section UnknownCompetency.
Import Workflow.

(** X16. With the agents of the workflow itself, a question whose
    competency has no agent in the manager (or that names none) fails the
    workflow at stage content_analysis, with score 0, no content analysis
    and the counters unchanged.  The error is the str of the content dict,
    which failed at the transcription or with "No agent available for
    competency: ...". *)
Theorem unknown_competency_fails_the_workflow
    (transcription_runtime : Transcription.Runtime) (manager : InterviewManager.Manager)
    (competency_runtime : Competency.Runtime) (now : float) (coach : SpeechCoach.Agent)
    (speech_runtime : SpeechCoach.Runtime)
    (synthesis_runtime : SynthesisRequest -> outcome (list Adk.Event))
    (str_dict : Content.t -> string) (self : Agent) (metrics : gmap string Z)
    (workflow_id : string) (question : Interview.Question) (audio_data : list Byte.byte)
    (mime : string) :
  match Interview.competency question with
  | Some competency => InterviewManager.competency_agents manager !! competency = None
  | None => True
  end ->
  let env := Wiring.agents transcription_runtime manager competency_runtime now coach
               speech_runtime synthesis_runtime str_dict in
  let '(result, metrics') :=
    process_voice_question_response env self metrics workflow_id question audio_data mime in
  Final.status result = "failed"
  /\ Final.stage result = Some "content_analysis"
  /\ Final.score result = Int 0
  /\ Final.content_analysis result = None
  /\ metrics' = metrics
  /\ exists content,
       Final.error result = Some (str_dict content)
       /\ Content.status content = Some "failed"
       /\ Content.evaluation content = None
       /\ (Content.stage content = Some "transcription"
           \/ Content.stage content = Some "content_analysis"
              /\ Content.error content
                 = Some ("No agent available for competency: "
                         ++ default "None" (Interview.competency question))).
Proof.
  intros Hunknown. cbv zeta.
  unfold process_voice_question_response, _run_parallel_analysis, gathered.
  set (content := _analyze_content _ audio_data mime question workflow_id).
  assert (Hcontent :
            Content.status content = Some "failed"
            /\ Content.evaluation content = None
            /\ (Content.stage content = Some "transcription"
                \/ Content.stage content = Some "content_analysis"
                   /\ Content.error content
                      = Some ("No agent available for competency: "
                              ++ default "None" (Interview.competency question)))).
  { subst content. unfold _analyze_content.
    cbn [Wiring.agents transcribe_audio_bytes evaluate_answer].
    destruct (String.eqb
                (Transcription.status
                   (fst (Transcription.transcribe_audio_bytes transcription_runtime
                           audio_data mime))) "success").
    - cbn [negb]. unfold InterviewManager.evaluate_answer.
      destruct (Interview.competency question) as [competency |].
      + rewrite Hunknown. cbn. auto.
      + cbn. auto.
    - cbn. auto. }
  destruct Hcontent as [Hstatus [Hevaluation Hstage]].
  unfold completed.
  rewrite (bool_decide_eq_false_2 (Content.status content = Some "success"))
    by (rewrite Hstatus; discriminate).
  rewrite orb_true_r.
  cbn [_generate_error_result Final.status Final.stage Final.score Final.content_analysis
       Final.error].
  repeat apply conj; try reflexivity.
  exists content. auto.
Qed.

End UnknownCompetency.

(** A question on negotiation, put to the sample manager. *)
Lemma unknown_competency_fails_the_workflow_witness :
  Workflow.Final.stage
    (fst (Workflow.process_voice_question_response
            (Samples.wired (Returned (Samples.reply_events "We agreed on a price."))
               (Raised Samples.unavailable) (Raised Samples.unavailable)
               (Raised Samples.unavailable))
            Samples.workflow_agent ∅ "wf-1" Examples.unlisted_question
            (Samples.silence 2000) "audio/wav"))
  = Some "content_analysis".
Proof.
  pose proof (unknown_competency_fails_the_workflow
                (fun _ => Returned (Samples.reply_events "We agreed on a price."))
                Samples.manager (fun _ => Raised Samples.unavailable) 0 Samples.speech_agent
                (fun _ => Raised Samples.unavailable) (fun _ => Raised Samples.unavailable)
                (fun _ => "{...}") Samples.workflow_agent ∅ "wf-1" Examples.unlisted_question
                (Samples.silence 2000) "audio/wav" (eq_refl _)) as H.
  cbv zeta in H. unfold Samples.wired.
  destruct (Workflow.process_voice_question_response _ _ _ _ _ _ _) as [result metrics].
  apply H.
Defined.

Section CoachOutcome.
Import SpeechCoach.

Lemma fallback_axes (self : Agent) (audio_data : list Byte.byte) (msg : string)
    (ctx : option Context) :
  let analysis := _generate_fallback_analysis self audio_data msg ctx in
  overall_score analysis = 5
  /\ base.size (detailed_scores analysis) = 6%nat
  /\ map_Forall (fun _ axis => score axis = 5) (detailed_scores analysis)
  /\ (meta_error <$> audio_metadata analysis) = Some (Some msg)
  /\ (size_bytes <$> audio_metadata analysis) = Some (SpeechCoach.size audio_data)
  /\ context analysis = ctx.
Proof.
  cbv zeta. unfold _generate_fallback_analysis.
  cbn [overall_score detailed_scores audio_metadata context fmap option_fmap option_map
       meta_error size_bytes].
  repeat apply conj; try reflexivity.
  cbn [list_to_map foldr uncurry fst snd].
  repeat (apply map_Forall_insert_2; [reflexivity |]). apply map_Forall_empty.
Qed.

(** X17. [analyze_speech_delivery] never raises.  It calls the runtime once,
    and not at all below 1000 bytes.  It returns the parse of a reply that
    is not blank, or else the fallback analysis: overall score 5, six axes
    at 5, and in the audio metadata the cause (the size, the exception of
    the runtime, or "No speech analysis generated"). *)
Theorem speech_analysis_outcome (self : Agent) (runtime : Runtime)
    (audio_data : list Byte.byte) (mime : string) (ctx : option Context) :
  let request := {| req_context := ctx; req_mime_type := mime; req_audio := audio_data |} in
  exists analysis calls,
    analyze_speech_delivery self runtime audio_data mime ctx = (Returned analysis, calls)
    /\ (calls = [] /\ SpeechCoach.size audio_data < 1000
        \/ calls = [request] /\ 1000 <= SpeechCoach.size audio_data)
    /\ ((exists events,
            1000 <= SpeechCoach.size audio_data
            /\ runtime request = Returned events
            /\ _extract_final_response events <> ""
            /\ analysis
               = _parse_speech_analysis self (_extract_final_response events) audio_data ctx)
        \/ (exists msg,
              analysis = _generate_fallback_analysis self audio_data msg ctx
              /\ (SpeechCoach.size audio_data < 1000 /\ msg = too_small audio_data
                  \/ (exists e, runtime request = Raised e /\ msg = str_exc e)
                  \/ (exists events,
                        runtime request = Returned events
                        /\ _extract_final_response events = ""
                        /\ msg = "No speech analysis generated"))
              /\ overall_score analysis = 5
              /\ base.size (detailed_scores analysis) = 6%nat
              /\ map_Forall (fun _ axis => score axis = 5) (detailed_scores analysis)
              /\ (meta_error <$> audio_metadata analysis) = Some (Some msg))).
Proof.
  cbv zeta. unfold analyze_speech_delivery, analyze_try.
  destruct ((SpeechCoach.size audio_data =? 0) || (SpeechCoach.size audio_data <? 1000))
    eqn:Hgate.
  - assert (SpeechCoach.size audio_data < 1000) as Hsmall.
    { apply orb_true_iff in Hgate. destruct Hgate as [H | H]; lia. }
    eexists. eexists. split; [reflexivity |]. split; [left; auto |].
    right. exists (too_small audio_data).
    destruct (fallback_axes self audio_data (too_small audio_data) ctx)
      as [H1 [H2 [H3 [H4 _]]]].
    repeat apply conj; try assumption; auto.
  - apply orb_false_iff in Hgate. destruct Hgate as [_ Hgate]. apply Z.ltb_ge in Hgate.
    destruct (runtime {| req_context := ctx; req_mime_type := mime; req_audio := audio_data |})
      as [events | e] eqn:Hrun; cbn [mbind outcome_bind Py.bind].
    + destruct (String.eqb_spec (_extract_final_response events) "") as [Hblank | Htext].
      * eexists. eexists. split; [reflexivity |]. split; [right; auto |].
        right. exists "No speech analysis generated".
        destruct (fallback_axes self audio_data "No speech analysis generated" ctx)
          as [H1 [H2 [H3 [H4 _]]]].
        repeat apply conj; try assumption; [reflexivity |].
        right. right. exists events. auto.
      * eexists. eexists. split; [reflexivity |]. split; [right; auto |].
        left. exists events. auto.
    + eexists. eexists. split; [reflexivity |]. split; [right; auto |].
      right. exists (str_exc e).
      destruct (fallback_axes self audio_data (str_exc e) ctx) as [H1 [H2 [H3 [H4 _]]]].
      repeat apply conj; try assumption; [reflexivity |].
      right. left. exists e. auto.
Qed.

End CoachOutcome.

(** ** The speech coach: the scores of a parsed reply *)

Section ParsedDelivery.
Import SpeechCoach SpeechCoach.Parsing.

Lemma coach_returns (self : Agent) (runtime : Runtime) (audio_data : list Byte.byte)
    (mime : string) (ctx : option Context) :
  exists analysis,
    fst (analyze_speech_delivery self runtime audio_data mime ctx) = Returned analysis
    /\ ((exists analysis_text,
           analysis = SpeechCoach._parse_speech_analysis self analysis_text audio_data ctx)
        \/ exists msg, analysis = _generate_fallback_analysis self audio_data msg ctx).
Proof.
  unfold analyze_speech_delivery, analyze_try.
  destruct ((SpeechCoach.size audio_data =? 0) || (SpeechCoach.size audio_data <? 1000)).
  - eexists. split; [reflexivity |]. right. eauto.
  - destruct (runtime _) as [events | e]; cbn [mbind outcome_bind Py.bind fst].
    + destruct (String.eqb (_extract_final_response events) "").
      * eexists. split; [reflexivity |]. right. eauto.
      * eexists. split; [reflexivity |]. left. eauto.
    + eexists. split; [reflexivity |]. right. eauto.
Qed.

Lemma score_and_feedback_run s digits found :
  score_and_feedback s = Some (digits, found) -> exists t, digits = take_digits t.
Proof.
  unfold score_and_feedback. destruct (String.eqb _ ""); [discriminate |].
  destruct (after_dash _); [| discriminate].
  intros H. injection H as <- _. eauto.
Qed.

Lemma search_scored_run label s digits found :
  search_scored label s = Some (digits, found) -> exists t, digits = take_digits t.
Proof.
  induction s as [| c s IH]; cbn [search_scored].
  - destruct (prefix_ignorecase label ""); [| discriminate].
    destruct (score_and_feedback _) as [[d f] |] eqn:Hm; [| discriminate].
    intros H. injection H as <- <-. eapply score_and_feedback_run. exact Hm.
  - destruct (prefix_ignorecase label (String c s)).
    + destruct (score_and_feedback _) as [[d f] |] eqn:Hm.
      * intros H. injection H as <- <-. eapply score_and_feedback_run. exact Hm.
      * exact IH.
    + exact IH.
Qed.

Lemma int_of_str_nonneg limit t n :
  int_of_str limit (take_digits t) = Returned n -> 0 <= n.
Proof.
  unfold int_of_str. intros H.
  assert (0 <= int_of_digits (take_digits t)) by (apply digits_value_nonneg; lia).
  destruct limit as [limit |]; [destruct (limit <? _)%nat; [discriminate |] |];
    injection H as <-; assumption.
Qed.

Lemma read_scores_invariant (keys : list string) limit text :
  forall patterns detailed,
    map fst patterns ⊆ keys ->
    map_Forall (fun key axis => key ∈ keys /\ 0 <= score axis) detailed ->
    map_Forall (fun key axis => key ∈ keys /\ 0 <= score axis)
               (fst (read_scores limit text patterns detailed)).
Proof.
  induction patterns as [| [key label] patterns IH]; intros detailed Hkeys Hdetailed;
    cbn [read_scores fst].
  - exact Hdetailed.
  - assert (key ∈ keys) as Hkey by (apply Hkeys; cbn; apply list_elem_of_here).
    assert (map fst patterns ⊆ keys) as Hrest.
    { intros k Hk. apply Hkeys. cbn. apply list_elem_of_further. exact Hk. }
    destruct (search_scored label text) as [[digits found] |] eqn:Hfound.
    + destruct (search_scored_run _ _ _ _ Hfound) as [t ->].
      destruct (int_of_str limit (take_digits t)) as [n | e] eqn:Hint.
      * apply IH; [exact Hrest |].
        apply map_Forall_insert_2; [| exact Hdetailed].
        split; [exact Hkey |]. cbn. eapply int_of_str_nonneg. exact Hint.
      * exact Hdetailed.
    + apply IH; assumption.
Qed.

Lemma parsed_scores industry job_title limit sections text audio_data ctx :
  let analysis :=
    Parsing._parse_speech_analysis industry job_title limit sections text audio_data ctx in
  0 <= overall_score analysis
  /\ map_Forall (fun key axis => key ∈ map fst score_patterns /\ 0 <= score axis)
                (detailed_scores analysis).
Proof.
  cbv zeta. unfold Parsing._parse_speech_analysis.
  pose proof (read_scores_invariant (map fst score_patterns) limit text score_patterns ∅
                (reflexivity _) (map_Forall_empty _)) as Hread.
  destruct (read_scores limit text score_patterns ∅) as [detailed completed].
  cbn [fst] in Hread.
  destruct (search_digits "Overall Delivery Score:" text) as [digits |] eqn:Hfound.
  - destruct (search_digits_run _ _ _ Hfound) as [t ->].
    destruct (int_of_str limit (take_digits t)) as [n | e] eqn:Hint;
      cbn [overall_score detailed_scores].
    + split; [eapply int_of_str_nonneg; exact Hint | exact Hread].
    + split; [lia | apply map_Forall_empty].
  - cbn [overall_score detailed_scores]. split; [lia | exact Hread].
Qed.

(** X18. With [_parse_speech_analysis] as it is written, the analysis
    [analyze_speech_delivery] returns has an overall score and axis scores
    that are not negative, and its detailed scores have no key besides the
    six axes: the guard of the orchestrator against a negative delivery
    score cannot fire on it. *)
Theorem delivery_scores_are_never_negative (industry job_title : string)
    (max_str_digits : option nat) (sections : string -> Sections) (runtime : Runtime)
    (audio_data : list Byte.byte) (mime : string) (ctx : option Context) :
  let coach := Parsing.agent industry job_title max_str_digits sections in
  exists analysis,
    fst (analyze_speech_delivery coach runtime audio_data mime ctx) = Returned analysis
    /\ 0 <= overall_score analysis
    /\ map_Forall (fun key axis => key ∈ map fst score_patterns /\ 0 <= score axis)
                  (detailed_scores analysis).
Proof.
  cbv zeta.
  destruct (coach_returns (Parsing.agent industry job_title max_str_digits sections)
              runtime audio_data mime ctx) as [analysis [Hrun [[text ->] | [msg ->]]]];
    eexists; (split; [exact Hrun |]).
  - apply parsed_scores.
  - split; [cbn; lia |].
    unfold _generate_fallback_analysis. cbn [detailed_scores list_to_map foldr uncurry fst snd].
    repeat (apply map_Forall_insert_2;
            [split; [cbn [map fst score_patterns]; set_solver | cbn; lia] |]).
    apply map_Forall_empty.
Qed.

End ParsedDelivery.

(** ** The streamlined pipeline; the mock speech coach *)

Section StreamlinedPipeline.
Import Streamlined.

Lemma short_recording_fails (runtime : Transcription.Runtime) (audio_data : list Byte.byte)
    (mime : string) :
  Transcription.size audio_data < 1000 ->
  Transcription.status (fst (Transcription.transcribe_audio_bytes runtime audio_data mime))
  = "failed".
Proof.
  intros Hsmall. unfold Transcription.transcribe_audio_bytes, Transcription.transcribe_try.
  replace ((Transcription.size audio_data =? 0) || (Transcription.size audio_data <? 1000))
    with true by (symmetry; apply orb_true_iff; right; apply Z.ltb_lt; exact Hsmall).
  reflexivity.
Qed.

(** X19. [audio_to_enhanced_evaluation] on a recording below 1000 bytes,
    with the transcription agent proper, returns the dict of the last
    fallback whatever the other agents do: score 0, both analyses marked
    unavailable, and the error "Content analysis failed: Transcription
    failed", which does not carry the message of the transcription agent. *)
Theorem streamlined_short_recording (self : Workflow)
    (transcription_runtime transcription_runtime' : Transcription.Runtime)
    (manager manager' : InterviewManager.Manager)
    (competency_runtime competency_runtime' : Competency.Runtime) (now now' : float)
    (coach coach' : SpeechCoach.Agent) (speech_runtime speech_runtime' : SpeechCoach.Runtime)
    (question : Interview.Question) (audio_data : list Byte.byte) (mime : string) :
  Transcription.size audio_data < 1000 ->
  let agents :=
    wired transcription_runtime manager competency_runtime now coach speech_runtime in
  let again :=
    wired transcription_runtime' manager' competency_runtime' now' coach' speech_runtime' in
  let error := "Content analysis failed: Transcription failed" in
  audio_to_enhanced_evaluation self agents again question audio_data mime
  = Failed
      {| Failure.score := 0;
         Failure.overall_assessment := "Enhanced analysis failed: " ++ error;
         Failure.competency := default "Unknown" (Interview.competency question);
         Failure.error := error;
         Failure.enhanced_analysis :=
           {| Degraded.content_analysis_available := false;
              Degraded.delivery_analysis_available := false;
              Degraded.error := error |} |}.
Proof.
  intros Hsmall. cbv zeta.
  unfold audio_to_enhanced_evaluation, enhanced_try, _analyze_content_simple, content_only.
  cbn [wired transcribe_audio_bytes mbind outcome_bind Py.bind].
  rewrite !short_recording_fails by exact Hsmall.
  reflexivity.
Qed.

(** X20. When the content analysis of [audio_to_enhanced_evaluation] raises,
    the result is never the combined evaluation.  It is the evaluation of a
    second attempt, marked with delivery unavailable, when that attempt
    transcribes and evaluates; and otherwise the dict of the last fallback
    with score 0.  Both carry the error "Content analysis failed: " followed
    by the message of the exception. *)
Theorem streamlined_content_failure (self : Workflow) (agents again : Agents)
    (question : Interview.Question) (audio_data : list Byte.byte) (mime : string)
    (e : exception) :
  _analyze_content_simple agents question audio_data mime = Raised e ->
  let result := audio_to_enhanced_evaluation self agents again question audio_data mime in
  let error := "Content analysis failed: " ++ str_exc e in
  (exists transcription_result content_eval,
      transcribe_audio_bytes again audio_data mime = Returned transcription_result
      /\ Transcription.status transcription_result = "success"
      /\ evaluate_answer again question (Transcription.transcribed_text transcription_result)
         = Returned content_eval
      /\ result
         = ContentOnly content_eval
             {| Degraded.content_analysis_available := true;
                Degraded.delivery_analysis_available := false;
                Degraded.error := error |})
  \/
  (((exists e', transcribe_audio_bytes again audio_data mime = Raised e')
    \/ exists transcription_result,
         transcribe_audio_bytes again audio_data mime = Returned transcription_result
         /\ (Transcription.status transcription_result <> "success"
             \/ exists e',
                  evaluate_answer again question
                    (Transcription.transcribed_text transcription_result) = Raised e'))
   /\ result
      = Failed
          {| Failure.score := 0;
             Failure.overall_assessment := "Enhanced analysis failed: " ++ error;
             Failure.competency := default "Unknown" (Interview.competency question);
             Failure.error := error;
             Failure.enhanced_analysis :=
               {| Degraded.content_analysis_available := false;
                  Degraded.delivery_analysis_available := false;
                  Degraded.error := error |} |}).
Proof.
  intros Hcontent. cbv zeta.
  unfold audio_to_enhanced_evaluation, enhanced_try. rewrite Hcontent.
  unfold content_only.
  destruct (transcribe_audio_bytes again audio_data mime) as [transcription_result | e']
    eqn:Htranscribed; cbn [mbind outcome_bind Py.bind].
  - destruct (String.eqb_spec (Transcription.status transcription_result) "success")
      as [Hstatus | Hstatus].
    + destruct (evaluate_answer again question _) as [content_eval | e'] eqn:Hevaluated;
        cbn [mbind outcome_bind Py.bind].
      * left. exists transcription_result, content_eval. auto.
      * right. split; [| reflexivity]. right. exists transcription_result.
        split; [reflexivity |]. right. exists e'. exact Hevaluated.
    + right. split; [| reflexivity]. right. exists transcription_result. auto.
  - right. split; [| reflexivity]. left. exists e'. reflexivity.
Qed.

End StreamlinedPipeline.

(** Half a kilobyte of audio. *)
Lemma streamlined_short_recording_witness :
  exists failure,
    Streamlined.audio_to_enhanced_evaluation {| Streamlined.industry := Some "technology" |}
      (Streamlined.wired (fun _ => Raised Samples.unavailable) Samples.manager
         (fun _ => Raised Samples.unavailable) 0 Samples.speech_agent
         (fun _ => Raised Samples.unavailable))
      (Streamlined.wired (fun _ => Raised Samples.unavailable) Samples.manager
         (fun _ => Raised Samples.unavailable) 0 Samples.speech_agent
         (fun _ => Raised Samples.unavailable))
      Samples.question (Samples.silence 500) "audio/wav"
    = Streamlined.Failed failure
    /\ Streamlined.Failure.score failure = 0.
Proof.
  eexists. split.
  - apply (streamlined_short_recording {| Streamlined.industry := Some "technology" |}).
    vm_compute. reflexivity.
  - reflexivity.
Defined.

(** No agent can be reached, in either attempt. *)
Lemma streamlined_content_failure_witness :
  exists failure,
    Streamlined.audio_to_enhanced_evaluation {| Streamlined.industry := Some "technology" |}
      Examples.offline Examples.offline Samples.question (Samples.silence 2000) "audio/wav"
    = Streamlined.Failed failure
    /\ Streamlined.Failure.error failure = "Content analysis failed: service unavailable".
Proof.
  destruct (streamlined_content_failure {| Streamlined.industry := Some "technology" |}
              Examples.offline Examples.offline Samples.question (Samples.silence 2000)
              "audio/wav" Samples.unavailable (eq_refl _))
    as [[transcription_result [content_eval [Htranscribed _]]] | [_ Hresult]].
  - discriminate Htranscribed.
  - eexists. split; [exact Hresult | reflexivity].
Defined.

Section MockCoach.
Import SpeechCoach.

Lemma at_most_ten_kb (n : Z) :
  0 <= n <= 10240 -> float_gt (quotient n 1024) 10 = false.
Proof.
  intros Hn.
  assert (forallb (fun k => negb (float_gt (quotient (Z.of_nat k) 1024) 10))
            (seq 0 (Z.to_nat 10241)) = true) as Hall by (vm_compute; reflexivity).
  rewrite forallb_forall in Hall. specialize (Hall (Z.to_nat n)).
  rewrite Z2Nat.id in Hall by lia. apply negb_true_iff, Hall. apply in_seq. lia.
Qed.

(** X21. The mock speech coach returns an overall score of 5 or 6, and 5
    for a recording of at most 10240 bytes; its six axis scores are within
    one point of the overall score, the one of the speech patterns one
    below; its metadata hold the size and no error. *)
Theorem mock_delivery_scores (self : Mock.Agent) (audio_data : list Byte.byte) (mime : string)
    (ctx : option Context) :
  let analysis := fst (Mock.analyze_speech_delivery self audio_data mime ctx) in
  let base := overall_score analysis in
  (base = 5 \/ base = 6)
  /\ (SpeechCoach.size audio_data <= 10240 -> base = 5)
  /\ base.size (detailed_scores analysis) = 6%nat
  /\ map_Forall (fun _ axis => base - 1 <= score axis <= base + 1) (detailed_scores analysis)
  /\ (score <$> detailed_scores analysis !! "speech_patterns") = Some (base - 1)
  /\ (size_bytes <$> audio_metadata analysis) = Some (SpeechCoach.size audio_data)
  /\ (meta_error <$> audio_metadata analysis) = Some None.
Proof.
  cbv zeta. unfold Mock.analyze_speech_delivery. cbn [fst].
  assert (Hsmall : SpeechCoach.size audio_data <= 10240 ->
                   float_gt (quotient (SpeechCoach.size audio_data) 1024) 10 = false).
  { intros H. apply at_most_ten_kb. unfold SpeechCoach.size in *. lia. }
  destruct (float_gt (quotient (SpeechCoach.size audio_data) 1024) 10) eqn:Hbig;
    cbn [overall_score detailed_scores audio_metadata fmap option_fmap option_map
         size_bytes meta_error];
    (repeat apply conj;
     [ auto
     | intros H; specialize (Hsmall H); first [discriminate | reflexivity]
     | reflexivity
     | cbn [list_to_map foldr uncurry fst snd];
       repeat (apply map_Forall_insert_2; [vm_compute; split; discriminate |]);
       apply map_Forall_empty
     | reflexivity
     | reflexivity
     | reflexivity ]).
Qed.

End MockCoach.
